(** * FinanceTracker: the storage layer of server/storage.ts

    A shallow embedding of the two implementations of [IStorage]
    ([MemStorage] and [PostgresStorage]) and the properties of the storage
    contract that hold, or fail, on them.

    Conventions of the embedding.
    - A JavaScript number that is used as an id, a limit or a millisecond
      count is an integer of [Z]; a [Date] is its [getTime()] value, and a
      nullable [Date] column is an [option Z].
    - [new Date()] reads the wall clock: every operation that calls it takes
      the value read as its argument [now].
    - An [async] method is a function from the store before the call to the
      completion of its promise (a value or a thrown error) and the store
      after the call.  Calls run one after the other; two calls that
      interleave at an [await] are outside the embedding. *)

From Stdlib Require Import ZArith String List Bool Lia Permutation Sorted.
Import ListNotations.
Local Open Scope Z_scope.

(** ** Completions: a returned value or a thrown error *)

Inductive error : Type :=
| TypeError                                  (* property read on null *)
| UniqueViolation (constraint : string)      (* raised by the database *)
| NotNullViolation (column : string)         (* raised by the database *)
| ForeignKeyViolation (constraint : string)  (* raised by the database *)
| NoValuesToSet.                             (* thrown by the query builder *)

Inductive result (A : Type) : Type :=
| Ok (a : A)
| Throw (e : error).
Arguments Ok {A} a.
Arguments Throw {A} e.

Definition bind {A B : Type} (r : result A) (k : A -> result B) : result B :=
  match r with
  | Ok a => k a
  | Throw e => Throw e
  end.

Notation "x <- r ;; k" := (bind r (fun x => k))
  (at level 61, r at next level, right associativity).

(** ** The fragment of JavaScript the storage layer uses *)

Module JS.

(** [Map<number, V>]: entries in insertion order, as iteration observes
    them.  [set] on a present key replaces the value in place, on an absent
    key appends; [delete] reports whether the key was present. *)
Definition Map (V : Type) : Type := list (Z * V).

Section MapOps.
Context {V : Type}.

Definition new_Map : Map V := [].

Fixpoint get (k : Z) (m : Map V) : option V :=
  match m with
  | [] => None
  | (k', v) :: m' => if k' =? k then Some v else get k m'
  end.

Definition has (k : Z) (m : Map V) : bool :=
  existsb (fun e => fst e =? k) m.

Fixpoint set (k : Z) (v : V) (m : Map V) : Map V :=
  match m with
  | [] => [(k, v)]
  | (k', v') :: m' => if k' =? k then (k, v) :: m' else (k', v') :: set k v m'
  end.

Definition delete (k : Z) (m : Map V) : bool * Map V :=
  (has k m, filter (fun e => negb (fst e =? k)) m).

Definition values (m : Map V) : list V := map snd m.

Definition keys (m : Map V) : list Z := map fst m.
End MapOps.

(** [Array.prototype.find]: the first element satisfying the predicate, or
    [undefined]. *)
Definition find {A : Type} (p : A -> bool) (l : list A) : option A :=
  List.find p l.

(** [Array.prototype.slice(start)] with the end omitted: a negative start
    counts from the end and is clamped at the first element, a start past
    the end gives the empty array. *)
Definition slice {A : Type} (start : Z) (l : list A) : list A :=
  let len := Z.of_nat (length l) in
  let k := if start <? 0 then Z.max (len + start) 0 else Z.min start len in
  skipn (Z.to_nat k) l.

(** [Array.prototype.sort(comparefn)].  The sort is stable (ECMAScript 2019),
    and for a consistent comparator every stable sort returns the same
    array, so it is embedded as the stable insertion sort.  The comparator
    may throw, which aborts the sort: a comparison sort of two or more
    elements compares each of them at least once, and so does this one. *)
Section Sort.
Context {A : Type}.
Variable comparefn : A -> A -> result Z.

Fixpoint sort_insert (x : A) (l : list A) : result (list A) :=
  match l with
  | [] => Ok [x]
  | y :: l' =>
      c <- comparefn x y ;;
      if c <=? 0 then Ok (x :: y :: l')
      else r <- sort_insert x l' ;; Ok (y :: r)
  end.

Fixpoint sort (l : list A) : result (list A) :=
  match l with
  | [] => Ok []
  | x :: l' => s <- sort l' ;; sort_insert x s
  end.
End Sort.

(** Truthiness of a number: [0] is falsy, every other integer is truthy.
    An omitted optional argument is [undefined], which is falsy too: the
    callers below match on the option first. *)
Definition truthy (n : Z) : bool := negb (n =? 0).

(** [d.getTime()] on a nullable [Date]: reading the method of [null]
    throws a [TypeError]. *)
Definition getTime (d : option Z) : result Z :=
  match d with
  | Some t => Ok t
  | None => Throw TypeError
  end.

End JS.

(** ** The entity types of shared/schema.ts *)

(** Modelled from the spec: shared/schema.ts is not part of the sources.  The
    entity types are the ones of section 3 of the specification, with the
    field names storage.ts reads and writes; the insert types carry the
    fields the [create] methods of [PostgresStorage] copy.  Decimal amounts
    are integers (of the smallest unit). *)

Module InsertUser.
Record t : Type := mk { username : string; email : string; password : string }.
End InsertUser.

Module User.
Record t : Type := mk {
  id : Z;
  username : string;
  email : string;
  password : string;
  createdAt : option Z
}.
End User.

Module InsertFinancialProfile.
Record t : Type := mk {
  userId : Z;
  monthlyIncome : Z;
  housingExpense : Z;
  transportExpense : Z;
  foodExpense : Z;
  otherExpenses : Z;
  savingsGoal : Z;
  retirementGoal : Z;
  riskTolerance : string
}.
End InsertFinancialProfile.

(** [Partial<InsertFinancialProfile>]: [None] is an absent key. *)
Module PartialFinancialProfile.
Record t : Type := mk {
  userId : option Z;
  monthlyIncome : option Z;
  housingExpense : option Z;
  transportExpense : option Z;
  foodExpense : option Z;
  otherExpenses : option Z;
  savingsGoal : option Z;
  retirementGoal : option Z;
  riskTolerance : option string
}.
End PartialFinancialProfile.

Module FinancialProfile.
Record t : Type := mk {
  id : Z;
  userId : Z;
  monthlyIncome : Z;
  housingExpense : Z;
  transportExpense : Z;
  foodExpense : Z;
  otherExpenses : Z;
  savingsGoal : Z;
  retirementGoal : Z;
  riskTolerance : string;
  updatedAt : option Z
}.
End FinancialProfile.

Module InsertChatMessage.
Record t : Type := mk { userId : Z; message : string; isUserMessage : bool }.
End InsertChatMessage.

Module ChatMessage.
Record t : Type := mk {
  id : Z;
  userId : Z;
  message : string;
  isUserMessage : bool;
  timestamp : option Z
}.
End ChatMessage.

Module InsertFinancialGoal.
Record t : Type := mk {
  userId : Z;
  title : string;
  targetAmount : Z;
  currentAmount : Z;
  deadline : option Z;
  category : string
}.
End InsertFinancialGoal.

(** [Partial<InsertFinancialGoal>]: [None] is an absent key, [Some v] a
    key present with the value [v]; a present [deadline] may itself be
    null. *)
Module PartialFinancialGoal.
Record t : Type := mk {
  userId : option Z;
  title : option string;
  targetAmount : option Z;
  currentAmount : option Z;
  deadline : option (option Z);
  category : option string
}.

Definition empty : t := mk None None None None None None.

(** No key is present. *)
Definition is_empty (v : t) : bool :=
  match userId v, title v, targetAmount v, currentAmount v, deadline v,
        category v with
  | None, None, None, None, None, None => true
  | _, _, _, _, _, _ => false
  end.
End PartialFinancialGoal.

Module FinancialGoal.
Record t : Type := mk {
  id : Z;
  userId : Z;
  title : string;
  targetAmount : Z;
  currentAmount : Z;
  deadline : option Z;
  category : string;
  createdAt : option Z
}.
End FinancialGoal.

(** Object spread [{...existing, ...updateData}]: a key of [updateData]
    overrides, an absent key keeps the value of [existing]. *)
Definition spread {A : Type} (existing : A) (update : option A) : A :=
  match update with
  | Some v => v
  | None => existing
  end.

(** ** MemStorage: the in-memory implementation *)

Module MemStorage.

Record t : Type := mk {
  users : JS.Map User.t;
  financialProfiles : JS.Map FinancialProfile.t;
  chatMessages : JS.Map ChatMessage.t;
  financialGoals : JS.Map FinancialGoal.t;
  userIdCounter : Z;
  profileIdCounter : Z;
  messageIdCounter : Z;
  goalIdCounter : Z
}.

Definition constructor : t :=
  mk JS.new_Map JS.new_Map JS.new_Map JS.new_Map 1 1 1 1.

(** *** User operations *)

Definition getUser (id : Z) (st : t) : result (option User.t) * t :=
  (Ok (JS.get id (users st)), st).

Definition getUserByUsername (username : string) (st : t)
  : result (option User.t) * t :=
  (Ok (JS.find (fun user => String.eqb (User.username user) username)
         (JS.values (users st))), st).

Definition getUserByEmail (email : string) (st : t)
  : result (option User.t) * t :=
  (Ok (JS.find (fun user => String.eqb (User.email user) email)
         (JS.values (users st))), st).

Definition createUser (insertUser : InsertUser.t) (now : Z) (st : t)
  : result User.t * t :=
  let id := userIdCounter st in
  let createdAt := Some now in
  let user :=
    User.mk id (InsertUser.username insertUser) (InsertUser.email insertUser)
      (InsertUser.password insertUser) createdAt in
  (Ok user,
   mk (JS.set id user (users st)) (financialProfiles st) (chatMessages st)
     (financialGoals st) (id + 1) (profileIdCounter st) (messageIdCounter st)
     (goalIdCounter st)).

(** *** Financial profile operations *)

Definition getFinancialProfile (userId : Z) (st : t)
  : result (option FinancialProfile.t) * t :=
  (Ok (JS.find (fun profile => FinancialProfile.userId profile =? userId)
         (JS.values (financialProfiles st))), st).

Definition createFinancialProfile (insertProfile : InsertFinancialProfile.t)
  (now : Z) (st : t) : result FinancialProfile.t * t :=
  let id := profileIdCounter st in
  let updatedAt := Some now in
  let profile :=
    FinancialProfile.mk id
      (InsertFinancialProfile.userId insertProfile)
      (InsertFinancialProfile.monthlyIncome insertProfile)
      (InsertFinancialProfile.housingExpense insertProfile)
      (InsertFinancialProfile.transportExpense insertProfile)
      (InsertFinancialProfile.foodExpense insertProfile)
      (InsertFinancialProfile.otherExpenses insertProfile)
      (InsertFinancialProfile.savingsGoal insertProfile)
      (InsertFinancialProfile.retirementGoal insertProfile)
      (InsertFinancialProfile.riskTolerance insertProfile)
      updatedAt in
  (Ok profile,
   mk (users st) (JS.set id profile (financialProfiles st)) (chatMessages st)
     (financialGoals st) (userIdCounter st) (id + 1) (messageIdCounter st)
     (goalIdCounter st)).

(** [{...existingProfile, ...updateData, updatedAt: new Date()}] *)
Definition mergeProfile (existing : FinancialProfile.t)
  (updateData : PartialFinancialProfile.t) (now : Z) : FinancialProfile.t :=
  FinancialProfile.mk
    (FinancialProfile.id existing)
    (spread (FinancialProfile.userId existing)
       (PartialFinancialProfile.userId updateData))
    (spread (FinancialProfile.monthlyIncome existing)
       (PartialFinancialProfile.monthlyIncome updateData))
    (spread (FinancialProfile.housingExpense existing)
       (PartialFinancialProfile.housingExpense updateData))
    (spread (FinancialProfile.transportExpense existing)
       (PartialFinancialProfile.transportExpense updateData))
    (spread (FinancialProfile.foodExpense existing)
       (PartialFinancialProfile.foodExpense updateData))
    (spread (FinancialProfile.otherExpenses existing)
       (PartialFinancialProfile.otherExpenses updateData))
    (spread (FinancialProfile.savingsGoal existing)
       (PartialFinancialProfile.savingsGoal updateData))
    (spread (FinancialProfile.retirementGoal existing)
       (PartialFinancialProfile.retirementGoal updateData))
    (spread (FinancialProfile.riskTolerance existing)
       (PartialFinancialProfile.riskTolerance updateData))
    (Some now).

Definition updateFinancialProfile (userId : Z)
  (updateData : PartialFinancialProfile.t) (now : Z) (st : t)
  : result (option FinancialProfile.t) * t :=
  match getFinancialProfile userId st with
  | (Throw e, st') => (Throw e, st')
  | (Ok None, st') => (Ok None, st')
  | (Ok (Some existingProfile), st') =>
      let updatedProfile := mergeProfile existingProfile updateData now in
      (Ok (Some updatedProfile),
       mk (users st')
         (JS.set (FinancialProfile.id existingProfile) updatedProfile
            (financialProfiles st'))
         (chatMessages st') (financialGoals st') (userIdCounter st')
         (profileIdCounter st') (messageIdCounter st') (goalIdCounter st'))
  end.

(** *** Chat message operations *)

(** [(a, b) => a.timestamp.getTime() - b.timestamp.getTime()] *)
Definition byTimestamp (a b : ChatMessage.t) : result Z :=
  ta <- JS.getTime (ChatMessage.timestamp a) ;;
  tb <- JS.getTime (ChatMessage.timestamp b) ;;
  Ok (ta - tb).

Definition getChatMessages (userId : Z) (limit : option Z) (st : t)
  : result (list ChatMessage.t) * t :=
  match
    JS.sort byTimestamp
      (filter (fun message => ChatMessage.userId message =? userId)
         (JS.values (chatMessages st)))
  with
  | Throw e => (Throw e, st)
  | Ok userMessages =>
      match limit with
      | Some n =>
          if JS.truthy n then (Ok (JS.slice (- n) userMessages), st)
          else (Ok userMessages, st)
      | None => (Ok userMessages, st)
      end
  end.

Definition createChatMessage (insertMessage : InsertChatMessage.t) (now : Z)
  (st : t) : result ChatMessage.t * t :=
  let id := messageIdCounter st in
  let timestamp := Some now in
  let message :=
    ChatMessage.mk id (InsertChatMessage.userId insertMessage)
      (InsertChatMessage.message insertMessage)
      (InsertChatMessage.isUserMessage insertMessage) timestamp in
  (Ok message,
   mk (users st) (financialProfiles st) (JS.set id message (chatMessages st))
     (financialGoals st) (userIdCounter st) (profileIdCounter st) (id + 1)
     (goalIdCounter st)).

(** *** Financial goal operations *)

(** [(a, b) => a.createdAt.getTime() - b.createdAt.getTime()] *)
Definition byCreatedAt (a b : FinancialGoal.t) : result Z :=
  ta <- JS.getTime (FinancialGoal.createdAt a) ;;
  tb <- JS.getTime (FinancialGoal.createdAt b) ;;
  Ok (ta - tb).

Definition getFinancialGoals (userId : Z) (st : t)
  : result (list FinancialGoal.t) * t :=
  (JS.sort byCreatedAt
     (filter (fun goal => FinancialGoal.userId goal =? userId)
        (JS.values (financialGoals st))), st).

Definition getFinancialGoal (id : Z) (st : t)
  : result (option FinancialGoal.t) * t :=
  (Ok (JS.get id (financialGoals st)), st).

Definition createFinancialGoal (insertGoal : InsertFinancialGoal.t) (now : Z)
  (st : t) : result FinancialGoal.t * t :=
  let id := goalIdCounter st in
  let createdAt := Some now in
  let goal :=
    FinancialGoal.mk id (InsertFinancialGoal.userId insertGoal)
      (InsertFinancialGoal.title insertGoal)
      (InsertFinancialGoal.targetAmount insertGoal)
      (InsertFinancialGoal.currentAmount insertGoal)
      (InsertFinancialGoal.deadline insertGoal)
      (InsertFinancialGoal.category insertGoal) createdAt in
  (Ok goal,
   mk (users st) (financialProfiles st) (chatMessages st)
     (JS.set id goal (financialGoals st)) (userIdCounter st)
     (profileIdCounter st) (messageIdCounter st) (id + 1)).

(** [{...existingGoal, ...updateData}]: [id] and [createdAt] are no keys of
    [Partial<InsertFinancialGoal>] and come from [existingGoal]. *)
Definition mergeGoal (existing : FinancialGoal.t)
  (updateData : PartialFinancialGoal.t) : FinancialGoal.t :=
  FinancialGoal.mk
    (FinancialGoal.id existing)
    (spread (FinancialGoal.userId existing)
       (PartialFinancialGoal.userId updateData))
    (spread (FinancialGoal.title existing)
       (PartialFinancialGoal.title updateData))
    (spread (FinancialGoal.targetAmount existing)
       (PartialFinancialGoal.targetAmount updateData))
    (spread (FinancialGoal.currentAmount existing)
       (PartialFinancialGoal.currentAmount updateData))
    (spread (FinancialGoal.deadline existing)
       (PartialFinancialGoal.deadline updateData))
    (spread (FinancialGoal.category existing)
       (PartialFinancialGoal.category updateData))
    (FinancialGoal.createdAt existing).

Definition updateFinancialGoal (id : Z) (updateData : PartialFinancialGoal.t)
  (st : t) : result (option FinancialGoal.t) * t :=
  match getFinancialGoal id st with
  | (Throw e, st') => (Throw e, st')
  | (Ok None, st') => (Ok None, st')
  | (Ok (Some existingGoal), st') =>
      let updatedGoal := mergeGoal existingGoal updateData in
      (Ok (Some updatedGoal),
       mk (users st') (financialProfiles st') (chatMessages st')
         (JS.set id updatedGoal (financialGoals st')) (userIdCounter st')
         (profileIdCounter st') (messageIdCounter st') (goalIdCounter st'))
  end.

Definition deleteFinancialGoal (id : Z) (st : t) : result bool * t :=
  let (existed, goals) := JS.delete id (financialGoals st) in
  (Ok existed,
   mk (users st) (financialProfiles st) (chatMessages st) goals
     (userIdCounter st) (profileIdCounter st) (messageIdCounter st)
     (goalIdCounter st)).

End MemStorage.

(** ** The relational database behind PostgresStorage *)

Module Db.

(** Modelled from the spec: the table declarations of shared/schema.ts are
    not part of the sources.  The tables are the ones server/db.ts creates
    (first variant, which is also the schema of section 6 of the
    specification): [id SERIAL PRIMARY KEY] in every table; [username],
    [email] and [password_hash] of [users] are [NOT NULL], [username] and
    [email] are [UNIQUE]; [user_id] of the three other tables
    [REFERENCES users(id)]; the timestamp columns default to
    [CURRENT_TIMESTAMP] and are nullable.  The table object [users] names
    the credential [password] and maps it to the column [password_hash]:
    the comment in [createUser] says so, and [createUser] reads
    [insertUser.password].  Rows of the three other tables are kept under
    the field names of the entity types, the renaming between snake case
    and camel case being a bijection on column names.

    The query builder is embedded by the meaning of the SQL it issues and
    by what it does before it issues any: [values] takes from its argument
    the fields of the table object and leaves every other column to its
    default, and [set] throws when its argument has no value.

    A table is the list of its rows in the order in which a scan without
    [ORDER BY] meets them.  [INSERT] writes the row behind the others;
    [UPDATE] writes the new version of a row behind the others as well, so
    that a scan meets an updated row last; [DELETE] leaves the other rows
    in their order.

    A statement fails on the violation of [NOT NULL], of a primary key or
    [UNIQUE] constraint, or of a foreign key, checked in this order and
    after the default of [id] has drawn from the sequence, so that a
    rejected insert still advances the sequence.  The foreign key of an
    updated row is checked when the update changes it.  Transport failures
    and column widths are outside the model. *)

Record users_row : Type := mk_users_row {
  id : Z;
  username : string;
  email : string;
  password_hash : string;
  created_at : option Z
}.

Record t : Type := mk {
  users : list users_row;
  users_id_seq : Z;
  financial_profiles : list FinancialProfile.t;
  financial_profiles_id_seq : Z;
  chat_messages : list ChatMessage.t;
  chat_messages_id_seq : Z;
  financial_goals : list FinancialGoal.t;
  financial_goals_id_seq : Z
}.

(** The database after [initializeDatabase]: empty tables, sequences at 1. *)
Definition initial : t := mk [] 1 [] 1 [] 1 [] 1.

(** One table and its sequence replaced, the others kept. *)
Definition with_users (db : t) (rows : list users_row) (seq : Z) : t :=
  mk rows seq (financial_profiles db) (financial_profiles_id_seq db)
    (chat_messages db) (chat_messages_id_seq db) (financial_goals db)
    (financial_goals_id_seq db).

Definition with_financial_profiles (db : t) (rows : list FinancialProfile.t)
  (seq : Z) : t :=
  mk (users db) (users_id_seq db) rows seq (chat_messages db)
    (chat_messages_id_seq db) (financial_goals db)
    (financial_goals_id_seq db).

Definition with_chat_messages (db : t) (rows : list ChatMessage.t) (seq : Z)
  : t :=
  mk (users db) (users_id_seq db) (financial_profiles db)
    (financial_profiles_id_seq db) rows seq (financial_goals db)
    (financial_goals_id_seq db).

Definition with_financial_goals (db : t) (rows : list FinancialGoal.t)
  (seq : Z) : t :=
  mk (users db) (users_id_seq db) (financial_profiles db)
    (financial_profiles_id_seq db) (chat_messages db)
    (chat_messages_id_seq db) rows seq.

(** The select mapping of the [users] table: the column [password_hash]
    is the field [password] of the interface. *)
Definition user_of_row (r : users_row) : User.t :=
  User.mk (id r) (username r) (email r) (password_hash r) (created_at r).

(** [db.select().from(table).where(cond)] *)
Definition select_where {R : Type} (cond : R -> bool) (table : list R)
  : list R :=
  filter cond table.

(** The object literal given to [values] of [users]: its keys with
    their values. *)
Definition object : Type := list (string * string).

(** [o[key]], [None] for [undefined]. *)
Fixpoint prop (key : string) (o : object) : option string :=
  match o with
  | [] => None
  | (k, v) :: o' => if String.eqb k key then Some v else prop key o'
  end.

(** [REFERENCES users(id)]: some row of [users] has this id. *)
Definition references_users (userId : Z) (db : t) : bool :=
  existsb (fun r => id r =? userId) (users db).

(** An [UPDATE] that gives some row another owner than it has, one that
    no row of [users] has as id. *)
Definition names_missing_user {R : Type} (owner : R -> Z) (u : option Z)
  (hits : list R) (db : t) : bool :=
  match u with
  | Some u0 =>
      existsb (fun r => negb (owner r =? u0)) hits
      && negb (references_users u0 db)
  | None => false
  end.

(** [db.insert(users).values(o).returning()]: the fields of the table
    object are [username], [email] and [password]; a key of [o] that is no
    field is not read, and a field that is no key of [o] leaves its column
    without value. *)
Definition insert_users (o : object) (now : Z) (db : t)
  : result users_row * t :=
  let id0 := users_id_seq db in
  let db' := with_users db (users db) (id0 + 1) in
  match prop "username" o with
  | None => (Throw (NotNullViolation "username"), db')
  | Some username0 =>
      match prop "email" o with
      | None => (Throw (NotNullViolation "email"), db')
      | Some email0 =>
          match prop "password" o with
          | None => (Throw (NotNullViolation "password_hash"), db')
          | Some password_hash0 =>
              if existsb (fun r => id r =? id0) (users db) then
                (Throw (UniqueViolation "users_pkey"), db')
              else if existsb (fun r => String.eqb (username r) username0)
                        (users db) then
                (Throw (UniqueViolation "users_username_key"), db')
              else if existsb (fun r => String.eqb (email r) email0)
                        (users db) then
                (Throw (UniqueViolation "users_email_key"), db')
              else
                let row :=
                  mk_users_row id0 username0 email0 password_hash0
                    (Some now) in
                (Ok row, with_users db (users db ++ [row]) (id0 + 1))
          end
      end
  end.

(** [db.insert(financialProfiles).values(profileData).returning()] *)
Definition insert_financial_profiles (v : InsertFinancialProfile.t) (now : Z)
  (db : t) : result FinancialProfile.t * t :=
  let id0 := financial_profiles_id_seq db in
  let row :=
    FinancialProfile.mk id0
      (InsertFinancialProfile.userId v)
      (InsertFinancialProfile.monthlyIncome v)
      (InsertFinancialProfile.housingExpense v)
      (InsertFinancialProfile.transportExpense v)
      (InsertFinancialProfile.foodExpense v)
      (InsertFinancialProfile.otherExpenses v)
      (InsertFinancialProfile.savingsGoal v)
      (InsertFinancialProfile.retirementGoal v)
      (InsertFinancialProfile.riskTolerance v)
      (Some now) in
  if existsb (fun r => FinancialProfile.id r =? id0) (financial_profiles db)
  then
    (Throw (UniqueViolation "financial_profiles_pkey"),
     with_financial_profiles db (financial_profiles db) (id0 + 1))
  else if negb (references_users (InsertFinancialProfile.userId v) db) then
    (Throw (ForeignKeyViolation "financial_profiles_user_id_fkey"),
     with_financial_profiles db (financial_profiles db) (id0 + 1))
  else
    (Ok row,
     with_financial_profiles db (financial_profiles db ++ [row]) (id0 + 1)).

(** [SET] of the columns present in [{...updateData, updatedAt}]; the
    key [updatedAt] is always present, so [set] has a value. *)
Definition set_profile_columns (v : PartialFinancialProfile.t)
  (updatedAt : Z) (r : FinancialProfile.t) : FinancialProfile.t :=
  FinancialProfile.mk
    (FinancialProfile.id r)
    (spread (FinancialProfile.userId r) (PartialFinancialProfile.userId v))
    (spread (FinancialProfile.monthlyIncome r)
       (PartialFinancialProfile.monthlyIncome v))
    (spread (FinancialProfile.housingExpense r)
       (PartialFinancialProfile.housingExpense v))
    (spread (FinancialProfile.transportExpense r)
       (PartialFinancialProfile.transportExpense v))
    (spread (FinancialProfile.foodExpense r)
       (PartialFinancialProfile.foodExpense v))
    (spread (FinancialProfile.otherExpenses r)
       (PartialFinancialProfile.otherExpenses v))
    (spread (FinancialProfile.savingsGoal r)
       (PartialFinancialProfile.savingsGoal v))
    (spread (FinancialProfile.retirementGoal r)
       (PartialFinancialProfile.retirementGoal v))
    (spread (FinancialProfile.riskTolerance r)
       (PartialFinancialProfile.riskTolerance v))
    (Some updatedAt).

(** [db.update(financialProfiles).set({...}).where(eq(financialProfiles
    .userId, userId0)).returning()] *)
Definition update_financial_profiles (v : PartialFinancialProfile.t)
  (updatedAt : Z) (userId0 : Z) (db : t)
  : result (list FinancialProfile.t) * t :=
  let hit := fun r => FinancialProfile.userId r =? userId0 in
  let hits := filter hit (financial_profiles db) in
  if names_missing_user FinancialProfile.userId
       (PartialFinancialProfile.userId v) hits db
  then (Throw (ForeignKeyViolation "financial_profiles_user_id_fkey"), db)
  else
    let updated := map (set_profile_columns v updatedAt) hits in
    (Ok updated,
     with_financial_profiles db
       (filter (fun r => negb (hit r)) (financial_profiles db) ++ updated)
       (financial_profiles_id_seq db)).

(** [db.insert(chatMessages).values({userId, message, isUserMessage})
    .returning()] *)
Definition insert_chat_messages (userId : Z) (message : string)
  (isUserMessage : bool) (now : Z) (db : t) : result ChatMessage.t * t :=
  let id0 := chat_messages_id_seq db in
  let row := ChatMessage.mk id0 userId message isUserMessage (Some now) in
  if existsb (fun r => ChatMessage.id r =? id0) (chat_messages db) then
    (Throw (UniqueViolation "chat_messages_pkey"),
     with_chat_messages db (chat_messages db) (id0 + 1))
  else if negb (references_users userId db) then
    (Throw (ForeignKeyViolation "chat_messages_user_id_fkey"),
     with_chat_messages db (chat_messages db) (id0 + 1))
  else
    (Ok row, with_chat_messages db (chat_messages db ++ [row]) (id0 + 1)).

(** [db.insert(financialGoals).values({...}).returning()] *)
Definition insert_financial_goals (v : InsertFinancialGoal.t) (now : Z)
  (db : t) : result FinancialGoal.t * t :=
  let id0 := financial_goals_id_seq db in
  let row :=
    FinancialGoal.mk id0 (InsertFinancialGoal.userId v)
      (InsertFinancialGoal.title v) (InsertFinancialGoal.targetAmount v)
      (InsertFinancialGoal.currentAmount v) (InsertFinancialGoal.deadline v)
      (InsertFinancialGoal.category v) (Some now) in
  if existsb (fun r => FinancialGoal.id r =? id0) (financial_goals db) then
    (Throw (UniqueViolation "financial_goals_pkey"),
     with_financial_goals db (financial_goals db) (id0 + 1))
  else if negb (references_users (InsertFinancialGoal.userId v) db) then
    (Throw (ForeignKeyViolation "financial_goals_user_id_fkey"),
     with_financial_goals db (financial_goals db) (id0 + 1))
  else
    (Ok row, with_financial_goals db (financial_goals db ++ [row]) (id0 + 1)).

(** [SET] of the columns present in the update data. *)
Definition set_columns (v : PartialFinancialGoal.t) (r : FinancialGoal.t)
  : FinancialGoal.t :=
  FinancialGoal.mk
    (FinancialGoal.id r)
    (spread (FinancialGoal.userId r) (PartialFinancialGoal.userId v))
    (spread (FinancialGoal.title r) (PartialFinancialGoal.title v))
    (spread (FinancialGoal.targetAmount r)
       (PartialFinancialGoal.targetAmount v))
    (spread (FinancialGoal.currentAmount r)
       (PartialFinancialGoal.currentAmount v))
    (spread (FinancialGoal.deadline r) (PartialFinancialGoal.deadline v))
    (spread (FinancialGoal.category r) (PartialFinancialGoal.category v))
    (FinancialGoal.createdAt r).

(** [db.update(financialGoals).set(v).where(eq(financialGoals.id, id0))
    .returning()]: [set] throws on update data without a key, before any
    statement is issued. *)
Definition update_financial_goals (v : PartialFinancialGoal.t) (id0 : Z)
  (db : t) : result (list FinancialGoal.t) * t :=
  let hit := fun r => FinancialGoal.id r =? id0 in
  let hits := filter hit (financial_goals db) in
  if PartialFinancialGoal.is_empty v then (Throw NoValuesToSet, db)
  else if names_missing_user FinancialGoal.userId
            (PartialFinancialGoal.userId v) hits db
  then (Throw (ForeignKeyViolation "financial_goals_user_id_fkey"), db)
  else
    let updated := map (set_columns v) hits in
    (Ok updated,
     with_financial_goals db
       (filter (fun r => negb (hit r)) (financial_goals db) ++ updated)
       (financial_goals_id_seq db)).

(** [db.delete(financialGoals).where(eq(financialGoals.id, id0))
    .returning({ id: financialGoals.id })] *)
Definition delete_financial_goals (id0 : Z) (db : t) : result (list Z) * t :=
  let hit := fun r => FinancialGoal.id r =? id0 in
  (Ok (map FinancialGoal.id (filter hit (financial_goals db))),
   with_financial_goals db
     (filter (fun r => negb (hit r)) (financial_goals db))
     (financial_goals_id_seq db)).

End Db.

(** ** PostgresStorage: the relational implementation *)

Module PostgresStorage.

(** [try { ... } catch (error) { console.error(...); throw error; }]: the
    error is logged and thrown again unchanged. *)
Definition rethrow {A : Type} (r : result A * Db.t) : result A * Db.t := r.

(** [result.length > 0 ? result[0] : undefined] *)
Definition first {A : Type} (rows : list A) : option A :=
  match rows with
  | [] => None
  | r :: _ => Some r
  end.

(** *** User operations *)

Definition getUser (id : Z) (db : Db.t) : result (option User.t) * Db.t :=
  rethrow
    (Ok (first (map Db.user_of_row
                  (Db.select_where (fun r => Db.id r =? id) (Db.users db)))),
     db).

Definition getUserByUsername (username : string) (db : Db.t)
  : result (option User.t) * Db.t :=
  rethrow
    (Ok (first (map Db.user_of_row
                  (Db.select_where
                     (fun r => String.eqb (Db.username r) username)
                     (Db.users db)))),
     db).

Definition getUserByEmail (email : string) (db : Db.t)
  : result (option User.t) * Db.t :=
  rethrow
    (Ok (first (map Db.user_of_row
                  (Db.select_where (fun r => String.eqb (Db.email r) email)
                     (Db.users db)))),
     db).

(** [db.insert(users).values({username: insertUser.username, email:
    insertUser.email, password_hash: insertUser.password}).returning()]
    and [result[0]]: the object literal has the keys the source writes. *)
Definition createUser (insertUser : InsertUser.t) (now : Z) (db : Db.t)
  : result User.t * Db.t :=
  rethrow
    (match
       Db.insert_users
         [("username", InsertUser.username insertUser);
          ("email", InsertUser.email insertUser);
          ("password_hash", InsertUser.password insertUser)]%string
         now db
     with
     | (Ok row, db') => (Ok (Db.user_of_row row), db')
     | (Throw e, db') => (Throw e, db')
     end).

(** *** Financial profile operations *)

Definition getFinancialProfile (userId : Z) (db : Db.t)
  : result (option FinancialProfile.t) * Db.t :=
  rethrow
    (Ok (first (Db.select_where
                  (fun r => FinancialProfile.userId r =? userId)
                  (Db.financial_profiles db))),
     db).

Definition createFinancialProfile (insertProfile : InsertFinancialProfile.t)
  (now : Z) (db : Db.t) : result FinancialProfile.t * Db.t :=
  let profileData := insertProfile in
  rethrow (Db.insert_financial_profiles profileData now db).

Definition updateFinancialProfile (userId : Z)
  (updateData : PartialFinancialProfile.t) (now : Z) (db : Db.t)
  : result (option FinancialProfile.t) * Db.t :=
  rethrow
    (match getFinancialProfile userId db with
     | (Throw e, db') => (Throw e, db')
     | (Ok None, db') => (Ok None, db')
     | (Ok (Some _), db') =>
         match Db.update_financial_profiles updateData now userId db' with
         | (Ok rows, db'') => (Ok (first rows), db'')
         | (Throw e, db'') => (Throw e, db'')
         end
     end).

(** *** Chat message operations *)

(** [a.timestamp ? a.timestamp.getTime() : 0]: a [Date] object is truthy,
    [null] is not. *)
Definition timeOrZero (d : option Z) : Z :=
  match d with
  | Some t => t
  | None => 0
  end.

Definition byTimestamp (a b : ChatMessage.t) : result Z :=
  let aTime := timeOrZero (ChatMessage.timestamp a) in
  let bTime := timeOrZero (ChatMessage.timestamp b) in
  Ok (aTime - bTime).

Definition getChatMessages (userId : Z) (limit : option Z) (db : Db.t)
  : result (list ChatMessage.t) * Db.t :=
  rethrow
    (let result0 :=
       Db.select_where (fun m => ChatMessage.userId m =? userId)
         (Db.chat_messages db) in
     match JS.sort byTimestamp result0 with
     | Throw e => (Throw e, db)
     | Ok sortedMessages =>
         match limit with
         | Some n =>
             if JS.truthy n && (0 <? n)
             then (Ok (JS.slice (- n) sortedMessages), db)
             else (Ok sortedMessages, db)
         | None => (Ok sortedMessages, db)
         end
     end).

Definition createChatMessage (insertMessage : InsertChatMessage.t) (now : Z)
  (db : Db.t) : result ChatMessage.t * Db.t :=
  rethrow
    (Db.insert_chat_messages (InsertChatMessage.userId insertMessage)
       (InsertChatMessage.message insertMessage)
       (InsertChatMessage.isUserMessage insertMessage) now db).

(** *** Financial goal operations *)

Definition byCreatedAt (a b : FinancialGoal.t) : result Z :=
  let aTime := timeOrZero (FinancialGoal.createdAt a) in
  let bTime := timeOrZero (FinancialGoal.createdAt b) in
  Ok (aTime - bTime).

Definition getFinancialGoals (userId : Z) (db : Db.t)
  : result (list FinancialGoal.t) * Db.t :=
  rethrow
    (JS.sort byCreatedAt
       (Db.select_where (fun g => FinancialGoal.userId g =? userId)
          (Db.financial_goals db)),
     db).

Definition getFinancialGoal (id : Z) (db : Db.t)
  : result (option FinancialGoal.t) * Db.t :=
  rethrow
    (Ok (first (Db.select_where (fun g => FinancialGoal.id g =? id)
                  (Db.financial_goals db))),
     db).

Definition createFinancialGoal (insertGoal : InsertFinancialGoal.t) (now : Z)
  (db : Db.t) : result FinancialGoal.t * Db.t :=
  rethrow (Db.insert_financial_goals insertGoal now db).

Definition updateFinancialGoal (id : Z) (updateData : PartialFinancialGoal.t)
  (db : Db.t) : result (option FinancialGoal.t) * Db.t :=
  rethrow
    (match Db.update_financial_goals updateData id db with
     | (Ok rows, db') => (Ok (first rows), db')
     | (Throw e, db') => (Throw e, db')
     end).

Definition deleteFinancialGoal (id : Z) (db : Db.t) : result bool * Db.t :=
  rethrow
    (match Db.delete_financial_goals id db with
     | (Ok rows, db') => (Ok (0 <? Z.of_nat (length rows)), db')
     | (Throw e, db') => (Throw e, db')
     end).

End PostgresStorage.

(** ** IStorage: the interface both classes implement *)

Module IStorage.

Class t (S : Type) : Type := {
  getUser : Z -> S -> result (option User.t) * S;
  getUserByUsername : string -> S -> result (option User.t) * S;
  getUserByEmail : string -> S -> result (option User.t) * S;
  createUser : InsertUser.t -> Z -> S -> result User.t * S;
  getFinancialProfile : Z -> S -> result (option FinancialProfile.t) * S;
  createFinancialProfile :
    InsertFinancialProfile.t -> Z -> S -> result FinancialProfile.t * S;
  updateFinancialProfile :
    Z -> PartialFinancialProfile.t -> Z -> S ->
    result (option FinancialProfile.t) * S;
  getChatMessages : Z -> option Z -> S -> result (list ChatMessage.t) * S;
  createChatMessage :
    InsertChatMessage.t -> Z -> S -> result ChatMessage.t * S;
  getFinancialGoals : Z -> S -> result (list FinancialGoal.t) * S;
  getFinancialGoal : Z -> S -> result (option FinancialGoal.t) * S;
  createFinancialGoal :
    InsertFinancialGoal.t -> Z -> S -> result FinancialGoal.t * S;
  updateFinancialGoal :
    Z -> PartialFinancialGoal.t -> S -> result (option FinancialGoal.t) * S;
  deleteFinancialGoal : Z -> S -> result bool * S
}.

(** A call of a method of the interface, with its arguments and, where the
    method reads the clock, the time read. *)
Inductive call : Type :=
| GetUser (id : Z)
| GetUserByUsername (username : string)
| GetUserByEmail (email : string)
| CreateUser (user : InsertUser.t) (now : Z)
| GetFinancialProfile (userId : Z)
| CreateFinancialProfile (profile : InsertFinancialProfile.t) (now : Z)
| UpdateFinancialProfile (userId : Z) (profile : PartialFinancialProfile.t)
    (now : Z)
| GetChatMessages (userId : Z) (limit : option Z)
| CreateChatMessage (message : InsertChatMessage.t) (now : Z)
| GetFinancialGoals (userId : Z)
| GetFinancialGoal (id : Z)
| CreateFinancialGoal (goal : InsertFinancialGoal.t) (now : Z)
| UpdateFinancialGoal (id : Z) (goal : PartialFinancialGoal.t)
| DeleteFinancialGoal (id : Z).

(** What a caller that ignores the value observes: the error thrown, if
    any, and the store after the call. *)
Definition outcome {A S : Type} (r : result A * S) : option error * S :=
  match r with
  | (Ok _, st) => (None, st)
  | (Throw e, st) => (Some e, st)
  end.

Definition invoke {S : Type} {I : t S} (c : call) (st : S)
  : option error * S :=
  match c with
  | GetUser id => outcome (getUser id st)
  | GetUserByUsername username => outcome (getUserByUsername username st)
  | GetUserByEmail email => outcome (getUserByEmail email st)
  | CreateUser user now => outcome (createUser user now st)
  | GetFinancialProfile userId => outcome (getFinancialProfile userId st)
  | CreateFinancialProfile profile now =>
      outcome (createFinancialProfile profile now st)
  | UpdateFinancialProfile userId profile now =>
      outcome (updateFinancialProfile userId profile now st)
  | GetChatMessages userId limit => outcome (getChatMessages userId limit st)
  | CreateChatMessage message now => outcome (createChatMessage message now st)
  | GetFinancialGoals userId => outcome (getFinancialGoals userId st)
  | GetFinancialGoal id => outcome (getFinancialGoal id st)
  | CreateFinancialGoal goal now => outcome (createFinancialGoal goal now st)
  | UpdateFinancialGoal id goal => outcome (updateFinancialGoal id goal st)
  | DeleteFinancialGoal id => outcome (deleteFinancialGoal id st)
  end.

(** The store after a sequence of calls, each run to completion before the
    next starts; a call that throws leaves the store it left. *)
Definition run {S : Type} {I : t S} (cs : list call) (st : S) : S :=
  fold_left (fun s c => snd (invoke c s)) cs st.

End IStorage.

#[global] Instance MemStorage_IStorage : IStorage.t MemStorage.t := {|
  IStorage.getUser := MemStorage.getUser;
  IStorage.getUserByUsername := MemStorage.getUserByUsername;
  IStorage.getUserByEmail := MemStorage.getUserByEmail;
  IStorage.createUser := MemStorage.createUser;
  IStorage.getFinancialProfile := MemStorage.getFinancialProfile;
  IStorage.createFinancialProfile := MemStorage.createFinancialProfile;
  IStorage.updateFinancialProfile := MemStorage.updateFinancialProfile;
  IStorage.getChatMessages := MemStorage.getChatMessages;
  IStorage.createChatMessage := MemStorage.createChatMessage;
  IStorage.getFinancialGoals := MemStorage.getFinancialGoals;
  IStorage.getFinancialGoal := MemStorage.getFinancialGoal;
  IStorage.createFinancialGoal := MemStorage.createFinancialGoal;
  IStorage.updateFinancialGoal := MemStorage.updateFinancialGoal;
  IStorage.deleteFinancialGoal := MemStorage.deleteFinancialGoal
|}.

#[global] Instance PostgresStorage_IStorage : IStorage.t Db.t := {|
  IStorage.getUser := PostgresStorage.getUser;
  IStorage.getUserByUsername := PostgresStorage.getUserByUsername;
  IStorage.getUserByEmail := PostgresStorage.getUserByEmail;
  IStorage.createUser := PostgresStorage.createUser;
  IStorage.getFinancialProfile := PostgresStorage.getFinancialProfile;
  IStorage.createFinancialProfile := PostgresStorage.createFinancialProfile;
  IStorage.updateFinancialProfile := PostgresStorage.updateFinancialProfile;
  IStorage.getChatMessages := PostgresStorage.getChatMessages;
  IStorage.createChatMessage := PostgresStorage.createChatMessage;
  IStorage.getFinancialGoals := PostgresStorage.getFinancialGoals;
  IStorage.getFinancialGoal := PostgresStorage.getFinancialGoal;
  IStorage.createFinancialGoal := PostgresStorage.createFinancialGoal;
  IStorage.updateFinancialGoal := PostgresStorage.updateFinancialGoal;
  IStorage.deleteFinancialGoal := PostgresStorage.deleteFinancialGoal
|}.

(** The store of each backend after a history of calls on a fresh one. *)
Definition mem_after (cs : list IStorage.call) : MemStorage.t :=
  IStorage.run cs MemStorage.constructor.

Definition db_after (cs : list IStorage.call) : Db.t :=
  IStorage.run cs Db.initial.

(** ** Vocabulary of the properties *)

(** The numeric key a comparator [(a, b) => key a - key b] sorts by. *)
Definition messageKey (m : ChatMessage.t) : Z :=
  PostgresStorage.timeOrZero (ChatMessage.timestamp m).

Definition goalKey (g : FinancialGoal.t) : Z :=
  PostgresStorage.timeOrZero (FinancialGoal.createdAt g).

(** [a] occurs at an earlier position of [l] than [b]. *)
Definition before {A : Type} (a b : A) (l : list A) : Prop :=
  exists l1 l2 l3, l = l1 ++ a :: l2 ++ b :: l3.

(** The sort by [key] that keeps elements of equal key in their order. *)
Fixpoint insert_by {A : Type} (key : A -> Z) (x : A) (l : list A) : list A :=
  match l with
  | [] => [x]
  | y :: l' => if key x <=? key y then x :: y :: l' else y :: insert_by key x l'
  end.

Definition stable_sort_by {A : Type} (key : A -> Z) (l : list A) : list A :=
  fold_right (insert_by key) [] l.

(** The messages of a user among [l], in the order of [l]. *)
Definition messagesOf (userId : Z) (l : list ChatMessage.t)
  : list ChatMessage.t :=
  filter (fun m => ChatMessage.userId m =? userId) l.

Definition goalsOf (userId : Z) (l : list FinancialGoal.t)
  : list FinancialGoal.t :=
  filter (fun g => FinancialGoal.userId g =? userId) l.

(** ** Invariants and derived views of the two stores *)

(** Every stored message and goal carries the [Date] its [create] call
    read from the clock, and every key of a map was drawn from the
    counter of the map, which has moved past it. *)
Record mem_invariant (st : MemStorage.t) : Prop := {
  messages_stamped :
    Forall (fun m => ChatMessage.timestamp m <> None)
      (JS.values (MemStorage.chatMessages st));
  goals_stamped :
    Forall (fun g => FinancialGoal.createdAt g <> None)
      (JS.values (MemStorage.financialGoals st));
  user_ids_below :
    Forall (fun k => k < MemStorage.userIdCounter st)
      (JS.keys (MemStorage.users st));
  message_ids_below :
    Forall (fun k => k < MemStorage.messageIdCounter st)
      (JS.keys (MemStorage.chatMessages st));
  goal_ids_below :
    Forall (fun k => k < MemStorage.goalIdCounter st)
      (JS.keys (MemStorage.financialGoals st))
}.

(** The messages of a user in the order the calls of [createChatMessage]
    stored them. *)
Definition mem_inserted (userId : Z) (st : MemStorage.t)
  : list ChatMessage.t :=
  messagesOf userId (JS.values (MemStorage.chatMessages st)).

Definition db_inserted (userId : Z) (db : Db.t) : list ChatMessage.t :=
  messagesOf userId (Db.chat_messages db).

(** What the [limit] argument of each class selects of the sorted array. *)
Definition mem_limited (limit : option Z) (sorted : list ChatMessage.t)
  : list ChatMessage.t :=
  match limit with
  | Some n => if JS.truthy n then JS.slice (- n) sorted else sorted
  | None => sorted
  end.

Definition pg_limited (limit : option Z) (sorted : list ChatMessage.t)
  : list ChatMessage.t :=
  match limit with
  | Some n => if JS.truthy n && (0 <? n) then JS.slice (- n) sorted else sorted
  | None => sorted
  end.

(** [res] lists the elements of [inserted] in non-decreasing order of
    [key], and two elements of equal key stand in [res] as they stand in
    [inserted]. *)
Definition ordered_listing {A : Type} (key : A -> Z) (inserted res : list A)
  : Prop :=
  Permutation res inserted /\
  (forall a b, before a b res -> key a <= key b) /\
  (forall a b, key a = key b -> before a b inserted -> before a b res).


(** The table [financial_goals] has no row of this id. *)
Definition no_row (id : Z) (db : Db.t) : Prop :=
  filter (fun g => FinancialGoal.id g =? id) (Db.financial_goals db) = [].

(** [user] carries the three fields of the input of [createUser]. *)
Definition carries_input (insertUser : InsertUser.t) (user : User.t) : Prop :=
  User.username user = InsertUser.username insertUser /\
  User.email user = InsertUser.email insertUser /\
  User.password user = InsertUser.password insertUser.

(** A field of the updated record: the value the update data gives for it
    when the key is present, the value it had when the key is absent. *)
Definition field_merged {A : Type} (prior : A) (given : option A)
  (updated : A) : Prop :=
  match given with
  | Some v => updated = v
  | None => updated = prior
  end.

(** [updated] is [prior] with exactly the fields present in [updateData]
    overwritten; [id] and [createdAt], which the update data cannot name,
    are those of [prior]. *)
Definition overwrites_present (prior : FinancialGoal.t)
  (updateData : PartialFinancialGoal.t) (updated : FinancialGoal.t) : Prop :=
  FinancialGoal.id updated = FinancialGoal.id prior /\
  FinancialGoal.createdAt updated = FinancialGoal.createdAt prior /\
  field_merged (FinancialGoal.userId prior)
    (PartialFinancialGoal.userId updateData) (FinancialGoal.userId updated) /\
  field_merged (FinancialGoal.title prior)
    (PartialFinancialGoal.title updateData) (FinancialGoal.title updated) /\
  field_merged (FinancialGoal.targetAmount prior)
    (PartialFinancialGoal.targetAmount updateData)
    (FinancialGoal.targetAmount updated) /\
  field_merged (FinancialGoal.currentAmount prior)
    (PartialFinancialGoal.currentAmount updateData)
    (FinancialGoal.currentAmount updated) /\
  field_merged (FinancialGoal.deadline prior)
    (PartialFinancialGoal.deadline updateData)
    (FinancialGoal.deadline updated) /\
  field_merged (FinancialGoal.category prior)
    (PartialFinancialGoal.category updateData)
    (FinancialGoal.category updated).

(** The update data [{title: x}] and [{userId: u}]. *)
Definition only_title (x : string) : PartialFinancialGoal.t :=
  PartialFinancialGoal.mk None (Some x) None None None None.

Definition only_userId (u : Z) : PartialFinancialGoal.t :=
  PartialFinancialGoal.mk (Some u) None None None None None.

(** ** Concrete stores used as examples *)

(** A database with one user and two rows of each listed table for that
    user, the first without timestamp, the second stamped one second
    before the epoch. *)
Definition message_unstamped : ChatMessage.t :=
  ChatMessage.mk 1 1 "first" true None.

Definition message_1969 : ChatMessage.t :=
  ChatMessage.mk 2 1 "second" false (Some (-1000)).

Definition goal_unstamped : FinancialGoal.t :=
  FinancialGoal.mk 1 1 "Emergency Fund" 1000 0 None "savings" None.

Definition goal_1969 : FinancialGoal.t :=
  FinancialGoal.mk 2 1 "Car" 5000 0 None "savings" (Some (-1000)).

Definition legacy_db : Db.t :=
  Db.mk [Db.mk_users_row 1 "alice" "a@x.com" "h1" None] 2 [] 1
    [message_unstamped; message_1969] 3
    [goal_unstamped; goal_1969] 3.

Definition alice : InsertUser.t := InsertUser.mk "alice" "a@x.com" "h1".

Definition emergency_fund : InsertFinancialGoal.t :=
  InsertFinancialGoal.mk 1 "Emergency Fund" 1000 0 None "savings".

Definition hello (userId : Z) : InsertChatMessage.t :=
  InsertChatMessage.mk userId "hello" true.

(** The goal the scenario below creates. *)
Definition stored_fund : FinancialGoal.t :=
  FinancialGoal.mk 1 1 "Emergency Fund" 1000 0 None "savings" (Some 2000).

(** The scenario of section 8 of the specification up to the update. *)
Definition scenario : list IStorage.call :=
  [IStorage.CreateUser alice 1000;
   IStorage.CreateFinancialGoal emergency_fund 2000].

Definition bob : InsertUser.t := InsertUser.mk "bob" "b@x.com" "h2".

(** The same with a second user, who owns nothing. *)
Definition two_users : list IStorage.call :=
  scenario ++ [IStorage.CreateUser bob 3000].

(** The object literal that names the credential by the field of the table
    object. *)
Definition registration (insertUser : InsertUser.t) : Db.object :=
  [("username", InsertUser.username insertUser);
   ("email", InsertUser.email insertUser);
   ("password", InsertUser.password insertUser)]%string.

(** The database in which alice and bob are registered, as user 1 and
    user 2: the empty database after the two inserts into [users] that
    give the credential under the field [password]. *)
Definition registered : Db.t :=
  snd (Db.insert_users (registration bob) 3000
         (snd (Db.insert_users (registration alice) 1000 Db.initial))).

(** Three messages of user 1, the second stamped before the first. *)
Definition chat : list IStorage.call :=
  [IStorage.CreateChatMessage (hello 1) 300;
   IStorage.CreateChatMessage (hello 1) 100;
   IStorage.CreateChatMessage (hello 1) 200].

(** ** More views of the two stores *)

(** The profiles of a user among [l], in the order of [l]. *)
Definition profilesOf (userId : Z) (l : list FinancialProfile.t)
  : list FinancialProfile.t :=
  filter (fun p => FinancialProfile.userId p =? userId) l.

(** [profile] carries the nine fields of the input of
    [createFinancialProfile]. *)
Definition carries_profile (insertProfile : InsertFinancialProfile.t)
  (profile : FinancialProfile.t) : Prop :=
  FinancialProfile.userId profile
  = InsertFinancialProfile.userId insertProfile /\
  FinancialProfile.monthlyIncome profile
  = InsertFinancialProfile.monthlyIncome insertProfile /\
  FinancialProfile.housingExpense profile
  = InsertFinancialProfile.housingExpense insertProfile /\
  FinancialProfile.transportExpense profile
  = InsertFinancialProfile.transportExpense insertProfile /\
  FinancialProfile.foodExpense profile
  = InsertFinancialProfile.foodExpense insertProfile /\
  FinancialProfile.otherExpenses profile
  = InsertFinancialProfile.otherExpenses insertProfile /\
  FinancialProfile.savingsGoal profile
  = InsertFinancialProfile.savingsGoal insertProfile /\
  FinancialProfile.retirementGoal profile
  = InsertFinancialProfile.retirementGoal insertProfile /\
  FinancialProfile.riskTolerance profile
  = InsertFinancialProfile.riskTolerance insertProfile.

(** [updated] is [prior] with exactly the fields present in [updateData]
    overwritten, the id kept and the update time set to [now]. *)
Definition profile_overwritten (prior : FinancialProfile.t)
  (updateData : PartialFinancialProfile.t) (now : Z)
  (updated : FinancialProfile.t) : Prop :=
  FinancialProfile.id updated = FinancialProfile.id prior /\
  FinancialProfile.updatedAt updated = Some now /\
  field_merged (FinancialProfile.userId prior)
    (PartialFinancialProfile.userId updateData)
    (FinancialProfile.userId updated) /\
  field_merged (FinancialProfile.monthlyIncome prior)
    (PartialFinancialProfile.monthlyIncome updateData)
    (FinancialProfile.monthlyIncome updated) /\
  field_merged (FinancialProfile.housingExpense prior)
    (PartialFinancialProfile.housingExpense updateData)
    (FinancialProfile.housingExpense updated) /\
  field_merged (FinancialProfile.transportExpense prior)
    (PartialFinancialProfile.transportExpense updateData)
    (FinancialProfile.transportExpense updated) /\
  field_merged (FinancialProfile.foodExpense prior)
    (PartialFinancialProfile.foodExpense updateData)
    (FinancialProfile.foodExpense updated) /\
  field_merged (FinancialProfile.otherExpenses prior)
    (PartialFinancialProfile.otherExpenses updateData)
    (FinancialProfile.otherExpenses updated) /\
  field_merged (FinancialProfile.savingsGoal prior)
    (PartialFinancialProfile.savingsGoal updateData)
    (FinancialProfile.savingsGoal updated) /\
  field_merged (FinancialProfile.retirementGoal prior)
    (PartialFinancialProfile.retirementGoal updateData)
    (FinancialProfile.retirementGoal updated) /\
  field_merged (FinancialProfile.riskTolerance prior)
    (PartialFinancialProfile.riskTolerance updateData)
    (FinancialProfile.riskTolerance updated).

(** [goal] carries the six fields of the input of [createFinancialGoal]. *)
Definition carries_goal (insertGoal : InsertFinancialGoal.t)
  (goal : FinancialGoal.t) : Prop :=
  FinancialGoal.userId goal = InsertFinancialGoal.userId insertGoal /\
  FinancialGoal.title goal = InsertFinancialGoal.title insertGoal /\
  FinancialGoal.targetAmount goal
  = InsertFinancialGoal.targetAmount insertGoal /\
  FinancialGoal.currentAmount goal
  = InsertFinancialGoal.currentAmount insertGoal /\
  FinancialGoal.deadline goal = InsertFinancialGoal.deadline insertGoal /\
  FinancialGoal.category goal = InsertFinancialGoal.category insertGoal.

(** In [MemStorage] every record is stored under its own id, and the keys
    of the profiles were drawn from their counter. *)
Record mem_keyed (st : MemStorage.t) : Prop := {
  user_key_is_id :
    Forall (fun e => User.id (snd e) = fst e) (MemStorage.users st);
  profile_key_is_id :
    Forall (fun e => FinancialProfile.id (snd e) = fst e)
      (MemStorage.financialProfiles st);
  message_key_is_id :
    Forall (fun e => ChatMessage.id (snd e) = fst e)
      (MemStorage.chatMessages st);
  goal_key_is_id :
    Forall (fun e => FinancialGoal.id (snd e) = fst e)
      (MemStorage.financialGoals st);
  profile_ids_below :
    Forall (fun k => k < MemStorage.profileIdCounter st)
      (JS.keys (MemStorage.financialProfiles st))
}.

(** The primary keys and the [UNIQUE] constraints of server/db.ts on a
    database whose rows got their ids from the sequences: the ids of each
    table are pairwise distinct and below the sequence of the table, and
    the usernames and the emails of [users] are pairwise distinct.  Every
    call of [PostgresStorage] keeps a database so. *)
Record db_keyed (db : Db.t) : Prop := {
  user_ids_distinct : NoDup (map Db.id (Db.users db));
  usernames_distinct : NoDup (map Db.username (Db.users db));
  emails_distinct : NoDup (map Db.email (Db.users db));
  profile_ids_distinct :
    NoDup (map FinancialProfile.id (Db.financial_profiles db));
  message_ids_distinct : NoDup (map ChatMessage.id (Db.chat_messages db));
  goal_ids_distinct : NoDup (map FinancialGoal.id (Db.financial_goals db));
  user_ids_in_seq :
    Forall (fun r => Db.id r < Db.users_id_seq db) (Db.users db);
  profile_ids_in_seq :
    Forall (fun p => FinancialProfile.id p < Db.financial_profiles_id_seq db)
      (Db.financial_profiles db);
  message_ids_in_seq :
    Forall (fun m => ChatMessage.id m < Db.chat_messages_id_seq db)
      (Db.chat_messages db);
  goal_ids_in_seq :
    Forall (fun g => FinancialGoal.id g < Db.financial_goals_id_seq db)
      (Db.financial_goals db)
}.

(** The foreign keys of server/db.ts: the owner of every profile, message
    and goal is the id of a row of [users]. *)
Record db_owned (db : Db.t) : Prop := {
  profiles_owned :
    Forall (fun p => Db.references_users (FinancialProfile.userId p) db = true)
      (Db.financial_profiles db);
  messages_owned :
    Forall (fun m => Db.references_users (ChatMessage.userId m) db = true)
      (Db.chat_messages db);
  goals_owned :
    Forall (fun g => Db.references_users (FinancialGoal.userId g) db = true)
      (Db.financial_goals db)
}.

(** A history with two profiles of user 1 and one of user 2. *)
Definition profile_of (userId income : Z) : InsertFinancialProfile.t :=
  InsertFinancialProfile.mk userId income 0 0 0 0 0 0 "medium".

Definition profiles : list IStorage.call :=
  [IStorage.CreateFinancialProfile (profile_of 1 100) 10;
   IStorage.CreateFinancialProfile (profile_of 1 200) 20;
   IStorage.CreateFinancialProfile (profile_of 2 300) 30].

Definition only_income (income : Z) : PartialFinancialProfile.t :=
  PartialFinancialProfile.mk None (Some income) None None None None None None
    None.

(** Three goals of user 1 created at the same time, then an update of
    the first of them. *)
Definition three_goals : list IStorage.call :=
  [IStorage.CreateFinancialGoal emergency_fund 2000;
   IStorage.CreateFinancialGoal emergency_fund 2000;
   IStorage.CreateFinancialGoal emergency_fund 2000].

Definition three_goals_one_updated : list IStorage.call :=
  three_goals ++ [IStorage.UpdateFinancialGoal 1 (only_title "X")].


(** ** Strings of JavaScript *)

Module JsString.

(** The strings of the embedding hold ASCII text, one character each.  On
    ASCII text [String.prototype.toLowerCase] maps [A]..[Z] to [a]..[z]
    and keeps every other character.  On other text it does more (it
    lowers capital letters outside ASCII, some of them to ASCII letters,
    as U+212A to [k]): a string with a character outside ASCII is outside
    the embedding, and what is proved of [toLowerCase] is stated for the
    strings that [is_ascii] accepts. *)
Definition lower_char (c : Ascii.ascii) : Ascii.ascii :=
  let n := Ascii.nat_of_ascii c in
  if ((65 <=? n) && (n <=? 90))%nat then Ascii.ascii_of_nat (n + 32) else c.

Fixpoint is_ascii (s : string) : bool :=
  match s with
  | EmptyString => true
  | String c s' => (Ascii.nat_of_ascii c <? 128)%nat && is_ascii s'
  end.

Fixpoint toLowerCase (s : string) : string :=
  match s with
  | EmptyString => EmptyString
  | String c s' => String (lower_char c) (toLowerCase s')
  end.

(** [s.includes(sub)]: [sub] starts at some position of [s]. *)
Fixpoint includes (s sub : string) : bool :=
  String.prefix sub s
  || match s with
     | EmptyString => false
     | String _ s' => includes s' sub
     end.

(** [a || b] on a string that may be [null]: [null] and the empty string
    are falsy. *)
Definition or_else (a : option string) (b : string) : string :=
  match a with
  | Some s => if String.eqb s "" then b else s
  | None => b
  end.

(** [!process.env.NAME]: the variable is unset or empty. *)
Definition unset (v : option string) : bool :=
  match v with
  | Some s => String.eqb s ""
  | None => true
  end.

End JsString.

(** ** server/aiService.ts *)

Module AiService.

Inductive AIModel : Type := openai | deepseek.

Inductive MessageRole : Type := system | user | assistant.

Record message : Type := mk_message { role : MessageRole; content : string }.

Definition SYSTEM_PROMPT : string := "
You are FinanceGuru, a knowledgeable financial advisor specialized in personal finance.
Provide helpful, accurate, and actionable advice on:
- Budgeting and expense management
- Debt management and reduction strategies
- Saving and investing fundamentals
- Retirement planning
- Tax optimization
- Financial goal setting

Keep responses concise, practical, and tailored to the user's situation.
Answer with concrete examples and specific recommendations when possible.
If you don't know something or aren't qualified to give specific advice on complex matters,
acknowledge your limitations and suggest consulting a certified financial professional.
".

(** What a [catch] clause can receive: an [Error] with its message, an
    axios error (an [Error] too) with, when the server answered, the
    status and [JSON.stringify] of the body as texts, or a value that is
    no [Error]. *)
Inductive thrown : Type :=
| Error (message : string)
| AxiosError (message : string) (response : option (string * string))
| NotAnError.

(** The settlement of a promise. *)
Inductive promise (A : Type) : Type :=
| Resolved (a : A)
| Rejected (t : thrown).
Arguments Resolved {A} a.
Arguments Rejected {A} t.

Record env : Type := mk_env {
  OPENAI_API_KEY : option string;
  DEEPSEEK_API_KEY : option string
}.

(** The body of [for (let i = 0; i < chatHistory.length; i += 2)], run
    at most [fuel] times: the element at [i] is pushed as a user message,
    the element at [i + 1], when there is one, as an assistant message. *)
Fixpoint pushHistory (fuel i : nat) (chatHistory : list string)
  (messages : list message) : list message :=
  match fuel with
  | O => messages
  | S fuel' =>
      if (i <? length chatHistory)%nat then
        let messages1 :=
          if (i <? length chatHistory)%nat
          then messages ++ [mk_message user (nth i chatHistory EmptyString)]
          else messages in
        let messages2 :=
          if (i + 1 <? length chatHistory)%nat
          then messages1
               ++ [mk_message assistant (nth (i + 1) chatHistory EmptyString)]
          else messages1 in
        pushHistory fuel' (i + 2) chatHistory messages2
      else messages
  end.

(** The message list both providers are sent; the loop runs at most
    [chatHistory.length] times, since [i] grows at every turn. *)
Definition buildMessages (chatHistory : list string) (userMessage : string)
  : list message :=
  let messages := [mk_message system SYSTEM_PROMPT] in
  let messages :=
    if (0 <? length chatHistory)%nat
    then pushHistory (length chatHistory) 0 chatHistory messages
    else messages in
  messages ++ [mk_message user userMessage].

Definition FALLBACK : string :=
  "I'm having trouble connecting to my knowledge base right now. Please try again in a moment.".

(** A completion of the OpenAI client: [choices], each choice with its
    [message.content], a string or [null]. *)
Record chat_completion : Type := mk_chat_completion {
  choices : option (list (option string))
}.

Definition generateOpenAIResponse (e : env)
  (create : list message -> promise chat_completion)
  (userMessage : string) (chatHistory : list string) : promise string :=
  let response := FALLBACK in
  if JsString.unset (OPENAI_API_KEY e) then
    Resolved
      "API key not configured. Please set the OPENAI_API_KEY environment variable."%string
  else
    let messages := buildMessages chatHistory userMessage in
    match create messages with
    | Rejected t => Rejected t
    | Resolved completion =>
        match choices completion with
        | Some (c :: _) => Resolved (JsString.or_else c response)
        | _ => Resolved response
        end
    end.

(** The JSON an axios response carries: [data], [data.choices], and for
    each choice [message], absent or with its [content]. *)
Record deepseek_data : Type := mk_deepseek_data {
  data_choices : option (list (option (option string)))
}.

Record axios_response : Type := mk_axios_response {
  data : option deepseek_data
}.

Definition generateDeepseekResponse (e : env)
  (post : option string -> list message -> promise axios_response)
  (userMessage : string) (chatHistory : list string) : promise string :=
  let response := FALLBACK in
  if JsString.unset (DEEPSEEK_API_KEY e) then
    Resolved
      "Deepseek API key not configured. Please set the DEEPSEEK_API_KEY environment variable."%string
  else
    let messages := buildMessages chatHistory userMessage in
    match post (DEEPSEEK_API_KEY e) messages with
    | Resolved deepseekResponse =>
        match data deepseekResponse with
        | Some d =>
            match data_choices d with
            | Some (Some message_content :: _) =>
                Resolved (JsString.or_else message_content response)
            | _ => Resolved response
            end
        | None => Resolved response
        end
    | Rejected (AxiosError _ (Some (status, body))) =>
        Rejected
          (Error
             (String.append "Deepseek API error: "
                (String.append status (String.append " - " body))))
    | Rejected t => Rejected t
    end.

Definition generateFinanceResponse (e : env)
  (create : list message -> promise chat_completion)
  (post : option string -> list message -> promise axios_response)
  (userMessage : string) (chatHistory : list string) (model : AIModel)
  : string :=
  let attempt :=
    match model with
    | deepseek => generateDeepseekResponse e post userMessage chatHistory
    | openai => generateOpenAIResponse e create userMessage chatHistory
    end in
  match attempt with
  | Resolved text => text
  | Rejected (Error m) | Rejected (AxiosError m _) =>
      if JsString.includes m "API key"
      then "API key error. Please check your API key configuration."%string
      else String.append "I'm having trouble generating a response: " m
  | Rejected NotAnError => FALLBACK
  end.

Definition BUDGET_ADVICE : string :=
  "To create an effective budget, track your income and expenses for a month, categorize spending, set realistic goals, and use the 50/30/20 rule: 50% for needs, 30% for wants, and 20% for savings and debt repayment.".

Definition SAVING_ADVICE : string :=
  "For savings, aim to build an emergency fund covering 3-6 months of expenses. Automate transfers to a high-yield savings account on payday, and consider setting specific goals with deadlines to stay motivated.".

Definition DEBT_ADVICE : string :=
  "To tackle debt effectively, list all debts with interest rates, focus on high-interest debt first (debt avalanche) or start with small balances for quick wins (debt snowball). Always pay more than the minimum payment when possible.".

Definition INVEST_ADVICE : string :=
  "For beginning investors, start with your employer's 401(k) if available, especially if they match contributions. Consider low-cost index funds for diversification, and look into Roth IRAs for tax-advantaged retirement savings.".

Definition GENERIC_ADVICE : string :=
  "I can help with budgeting, saving, debt management, and investing. Could you provide more details about your financial situation or question?".

Definition generateLocalFinanceResponse (userMessage : string) : string :=
  let message := JsString.toLowerCase userMessage in
  if JsString.includes message "budget"
     || JsString.includes message "spending"
     || JsString.includes message "expenses"
  then BUDGET_ADVICE
  else if JsString.includes message "save"
          || JsString.includes message "saving"
          || JsString.includes message "emergency fund"
  then SAVING_ADVICE
  else if JsString.includes message "debt"
          || JsString.includes message "loan"
          || JsString.includes message "credit card"
  then DEBT_ADVICE
  else if JsString.includes message "invest"
          || JsString.includes message "stock"
          || JsString.includes message "retirement"
  then INVEST_ADVICE
  else GENERIC_ADVICE.

End AiService.

(** The message at position [i] of a chat history, as the providers are
    to read it: the user's at even positions, the assistant's at odd
    ones. *)
Fixpoint alternating (i : nat) (chatHistory : list string)
  : list AiService.message :=
  match chatHistory with
  | [] => []
  | text :: rest =>
      AiService.mk_message
        (if Nat.even i then AiService.user else AiService.assistant) text
      :: alternating (S i) rest
  end.

(** The keywords of [generateLocalFinanceResponse], by category. *)
Definition budget_keywords : list string := ["budget"; "spending"; "expenses"]%string.

Definition saving_keywords : list string :=
  ["save"; "saving"; "emergency fund"]%string.

Definition debt_keywords : list string := ["debt"; "loan"; "credit card"]%string.

Definition invest_keywords : list string := ["invest"; "stock"; "retirement"]%string.

(** The lower-cased message includes one of the keywords (for a message
    of ASCII text, on which [JsString.toLowerCase] is the method of
    JavaScript). *)
Definition mentions (userMessage : string) (keywords : list string) : Prop :=
  exists keyword,
    In keyword keywords /\
    JsString.includes (JsString.toLowerCase userMessage) keyword = true.

(** ** server/db.ts: creation of the tables *)

Module Migration.

(** A table that exists: its rows and the sequence of its [SERIAL] id. *)
Record table (R : Type) : Type := mk_table { rows : list R; id_seq : Z }.
Arguments mk_table {R} rows id_seq.
Arguments rows {R} t.
Arguments id_seq {R} t.

(** What went wrong, as [initializeDatabase] throws it again after
    logging it: the error of the driver on [SELECT 1], or the error the
    second variant makes of a failed connection test. *)
Inductive failure : Type :=
| DriverError (e : string)
| CouldNotConnect.

Section Catalog.
Context {U P M G : Type}.

(** The four tables of either variant of the schema, each present or
    not; [U], [P], [M] and [G] are the row types of the variant. *)
Record catalog : Type := mk_catalog {
  users : option (table U);
  financial_profiles : option (table P);
  chat_messages : option (table M);
  financial_goals : option (table G)
}.

(** [DROP TABLE IF EXISTS ... CASCADE] of the four tables, children
    first. *)
Definition dropAllTables (c : catalog) : catalog :=
  let c := mk_catalog (users c) (financial_profiles c) (chat_messages c)
             None in
  let c := mk_catalog (users c) (financial_profiles c) None
             (financial_goals c) in
  let c := mk_catalog (users c) None (chat_messages c) (financial_goals c) in
  mk_catalog None (financial_profiles c) (chat_messages c)
    (financial_goals c).

(** [CREATE TABLE IF NOT EXISTS]: a table that exists is left alone, a
    missing one is created empty with its sequence at 1. *)
Definition create_if_not_exists {R : Type} (t : option (table R))
  : option (table R) :=
  match t with
  | Some existing => Some existing
  | None => Some (mk_table [] 1)
  end.

Definition createTables (c : catalog) : catalog :=
  let c := mk_catalog (create_if_not_exists (users c))
             (financial_profiles c) (chat_messages c) (financial_goals c) in
  let c := mk_catalog (users c)
             (create_if_not_exists (financial_profiles c))
             (chat_messages c) (financial_goals c) in
  let c := mk_catalog (users c) (financial_profiles c)
             (create_if_not_exists (chat_messages c)) (financial_goals c) in
  mk_catalog (users c) (financial_profiles c) (chat_messages c)
    (create_if_not_exists (financial_goals c)).

(** First variant of [initializeDatabase]: [SELECT 1], drop everything,
    create the tables.  [connection] is the error [SELECT 1] raises, if
    it raises one; an error is logged and thrown again. *)
Definition initializeDatabase (connection : option string) (c : catalog)
  : option failure * catalog :=
  match connection with
  | Some e => (Some (DriverError e), c)
  | None => (None, createTables (dropAllTables c))
  end.

(** Second variant: [testConnection] turns the error into [false], which
    becomes the error "Could not connect to database"; the tables are
    dropped unless [NODE_ENV] is [production]. *)
Definition testConnection (connection : option string) : bool :=
  match connection with
  | Some _ => false
  | None => true
  end.

Definition initializeDatabase2 (connection NODE_ENV : option string)
  (c : catalog) : option failure * catalog :=
  let isConnected := testConnection connection in
  if negb isConnected then (Some CouldNotConnect, c)
  else
    let production :=
      match NODE_ENV with
      | Some v => String.eqb v "production"
      | None => false
      end in
    let c := if negb production then dropAllTables c else c in
    (None, createTables c).

(** Every table exists and is empty, with its sequence at 1. *)
Definition fresh : catalog :=
  mk_catalog (Some (mk_table [] 1)) (Some (mk_table [] 1))
    (Some (mk_table [] 1)) (Some (mk_table [] 1)).

End Catalog.

Arguments catalog U P M G : clear implicits.

(** The catalog of the first variant and the database [PostgresStorage]
    works on. *)
Definition catalog_of (db : Db.t)
  : catalog Db.users_row FinancialProfile.t ChatMessage.t FinancialGoal.t :=
  mk_catalog
    (Some (mk_table (Db.users db) (Db.users_id_seq db)))
    (Some (mk_table (Db.financial_profiles db)
             (Db.financial_profiles_id_seq db)))
    (Some (mk_table (Db.chat_messages db) (Db.chat_messages_id_seq db)))
    (Some (mk_table (Db.financial_goals db) (Db.financial_goals_id_seq db))).

End Migration.

(** * Properties *)

(** ** Sorting with a comparator that subtracts keys *)

Section SortByKey.
Context {A : Type}.
Variable key : A -> Z.

Local Abbreviation le_key := (fun a b : A => key a <= key b).

Lemma insert_by_perm (x : A) (l : list A) :
  Permutation (insert_by key x l) (x :: l).
Proof.
  induction l as [|y l IH]; simpl.
  - apply Permutation_refl.
  - destruct (key x <=? key y).
    + apply Permutation_refl.
    + eapply perm_trans; [apply perm_skip, IH | apply perm_swap].
Qed.

Lemma stable_sort_by_perm (l : list A) :
  Permutation (stable_sort_by key l) l.
Proof.
  induction l as [|x l IH]; simpl.
  - constructor.
  - eapply perm_trans; [apply insert_by_perm | apply perm_skip, IH].
Qed.

Lemma stable_sort_by_In (l : list A) (a : A) :
  In a (stable_sort_by key l) <-> In a l.
Proof.
  split; apply Permutation_in;
    [apply stable_sort_by_perm | apply Permutation_sym, stable_sort_by_perm].
Qed.

Lemma insert_by_sorted (x : A) (l : list A) :
  StronglySorted le_key l -> StronglySorted le_key (insert_by key x l).
Proof.
  induction 1 as [|y l Hs IH Hall]; simpl.
  - repeat constructor.
  - destruct (key x <=? key y) eqn:E.
    + apply Z.leb_le in E. constructor.
      * constructor; assumption.
      * constructor; [exact E|].
        eapply Forall_impl; [|exact Hall].
        simpl. intros b Hb. lia.
    + apply Z.leb_gt in E. constructor; [exact IH|].
      eapply Permutation_Forall;
        [apply Permutation_sym, insert_by_perm|].
      constructor; [simpl; lia | exact Hall].
Qed.

Lemma stable_sort_by_sorted (l : list A) :
  StronglySorted le_key (stable_sort_by key l).
Proof.
  induction l as [|x l IH]; simpl.
  - constructor.
  - apply insert_by_sorted, IH.
Qed.

Lemma insert_by_filter (k : Z) (x : A) (l : list A) :
  filter (fun a => key a =? k) (insert_by key x l)
  = filter (fun a => key a =? k) (x :: l).
Proof.
  induction l as [|y l IH]; [reflexivity|].
  simpl insert_by. destruct (key x <=? key y) eqn:E; [reflexivity|].
  apply Z.leb_gt in E. simpl in *. rewrite IH.
  destruct (key x =? k) eqn:Ex, (key y =? k) eqn:Ey; try reflexivity.
  apply Z.eqb_eq in Ex, Ey. lia.
Qed.

Lemma stable_sort_by_stable (k : Z) (l : list A) :
  filter (fun a => key a =? k) (stable_sort_by key l)
  = filter (fun a => key a =? k) l.
Proof.
  induction l as [|x l IH]; [reflexivity|].
  simpl stable_sort_by. rewrite insert_by_filter. simpl. rewrite IH.
  reflexivity.
Qed.

Lemma stable_sort_by_length (l : list A) :
  length (stable_sort_by key l) = length l.
Proof. apply Permutation_length, stable_sort_by_perm. Qed.

(** [sort] with a comparator that, on the elements of the array, returns
    the difference of the keys, is the stable sort by the key. *)
Lemma sort_insert_by_key (comparefn : A -> A -> result Z) (x : A)
  (l : list A) :
  (forall b, In b l -> comparefn x b = Ok (key x - key b)) ->
  JS.sort_insert comparefn x l = Ok (insert_by key x l).
Proof.
  induction l as [|y l IH]; intros H; [reflexivity|].
  simpl. rewrite (H y (or_introl eq_refl)). simpl.
  replace (key x - key y <=? 0) with (key x <=? key y)
    by (destruct (key x <=? key y) eqn:E;
        [apply Z.leb_le in E | apply Z.leb_gt in E]; symmetry;
        [apply Z.leb_le | apply Z.leb_gt]; lia).
  destruct (key x <=? key y); [reflexivity|].
  rewrite IH by (intros b Hb; apply H; right; exact Hb). reflexivity.
Qed.

Lemma sort_by_key (comparefn : A -> A -> result Z) (l : list A) :
  (forall a b, In a l -> In b l -> comparefn a b = Ok (key a - key b)) ->
  JS.sort comparefn l = Ok (stable_sort_by key l).
Proof.
  induction l as [|x l IH]; intros H; [reflexivity|].
  simpl. rewrite IH by (intros a b Ha Hb; apply H; right; assumption).
  simpl. apply sort_insert_by_key.
  intros b Hb. apply H; [left; reflexivity|].
  right. apply stable_sort_by_In. exact Hb.
Qed.

Lemma sorted_before (l : list A) (a b : A) :
  StronglySorted le_key l -> before a b l -> key a <= key b.
Proof.
  intros Hs (l1 & l2 & l3 & ->).
  induction l1 as [|c l1 IH]; simpl in Hs.
  - inversion Hs as [|? ? _ Hall]; subst.
    apply Forall_app in Hall. destruct Hall as [_ Hall].
    inversion Hall; subst. assumption.
  - inversion Hs; subst. apply IH. assumption.
Qed.

End SortByKey.

(** ** [slice] with a negative start *)


Lemma slice_negative_all {A : Type} (n : Z) (l : list A) :
  Z.of_nat (length l) <= n -> JS.slice (- n) l = l.
Proof.
  intros Hn. unfold JS.slice.
  destruct (- n <? 0) eqn:E.
  - replace (Z.max (Z.of_nat (length l) + - n) 0) with 0 by lia.
    reflexivity.
  - apply Z.ltb_ge in E.
    assert (length l = 0%nat) as H0 by lia.
    destruct l; [|discriminate]. simpl.
    destruct (Z.to_nat (Z.min (- n) 0)); reflexivity.
Qed.

(** ** Facts about [Map] *)

Section MapFacts.
Context {V : Type}.
Implicit Types (m : JS.Map V) (k : Z) (v : V).

Lemma get_set_same k v m : JS.get k (JS.set k v m) = Some v.
Proof.
  induction m as [|[k' v'] m IH]; simpl.
  - rewrite Z.eqb_refl. reflexivity.
  - destruct (k' =? k) eqn:E; simpl.
    + rewrite Z.eqb_refl. reflexivity.
    + rewrite E. exact IH.
Qed.

Lemma get_set_other k k0 v m :
  k0 <> k -> JS.get k0 (JS.set k v m) = JS.get k0 m.
Proof.
  intros Hne. induction m as [|[k' v'] m IH]; simpl.
  - destruct (k =? k0) eqn:E; [apply Z.eqb_eq in E; congruence|reflexivity].
  - destruct (k' =? k) eqn:E; simpl.
    + apply Z.eqb_eq in E. subst k'.
      destruct (k =? k0) eqn:E0; [apply Z.eqb_eq in E0; congruence|].
      reflexivity.
    + rewrite IH. reflexivity.
Qed.

Lemma get_None_keys k m : JS.get k m = None <-> ~ In k (JS.keys m).
Proof.
  induction m as [|[k' v'] m IH]; simpl.
  - tauto.
  - destruct (k' =? k) eqn:E.
    + apply Z.eqb_eq in E. split; [discriminate | intros H; tauto].
    + apply Z.eqb_neq in E. rewrite IH. tauto.
Qed.

Lemma get_In_values k v m : JS.get k m = Some v -> In v (JS.values m).
Proof.
  induction m as [|[k' v'] m IH]; simpl; [discriminate|].
  destruct (k' =? k); [intros [= ->]; left; reflexivity|].
  intros H. right. apply IH, H.
Qed.

Lemma get_In_keys k v m : JS.get k m = Some v -> In k (JS.keys m).
Proof.
  intros H. destruct (in_dec Z.eq_dec k (JS.keys m)) as [Hin|Hn];
    [exact Hin|].
  apply get_None_keys in Hn. congruence.
Qed.

Lemma has_get k m : JS.has k m = true <-> JS.get k m <> None.
Proof.
  unfold JS.has. induction m as [|[k' v'] m IH]; simpl.
  - split; [discriminate | congruence].
  - destruct (k' =? k); simpl; [split; [discriminate | reflexivity]|].
    exact IH.
Qed.

Lemma set_absent k v m : JS.get k m = None -> JS.set k v m = m ++ [(k, v)].
Proof.
  induction m as [|[k' v'] m IH]; simpl; [reflexivity|].
  destruct (k' =? k); [discriminate|].
  intros H. rewrite IH by exact H. reflexivity.
Qed.

Lemma values_set_Forall (P : V -> Prop) k v m :
  P v -> Forall P (JS.values m) -> Forall P (JS.values (JS.set k v m)).
Proof.
  intros Hv. induction m as [|[k' v'] m IH]; simpl; intros H.
  - constructor; [exact Hv | constructor].
  - inversion H; subst. destruct (k' =? k); simpl; constructor; auto.
Qed.

Lemma keys_set_Forall (P : Z -> Prop) k v m :
  P k -> Forall P (JS.keys m) -> Forall P (JS.keys (JS.set k v m)).
Proof.
  intros Hk. induction m as [|[k' v'] m IH]; simpl; intros H.
  - constructor; [exact Hk | constructor].
  - inversion H; subst. destruct (k' =? k); simpl; constructor; auto.
Qed.

Lemma values_delete_Forall (P : V -> Prop) k m :
  Forall P (JS.values m) -> Forall P (JS.values (snd (JS.delete k m))).
Proof.
  simpl. induction m as [|[k' v'] m IH]; simpl; intros H; [constructor|].
  inversion H; subst. destruct (k' =? k); simpl; [|constructor]; auto.
Qed.

Lemma keys_delete_Forall (P : Z -> Prop) k m :
  Forall P (JS.keys m) -> Forall P (JS.keys (snd (JS.delete k m))).
Proof.
  simpl. induction m as [|[k' v'] m IH]; simpl; intros H; [constructor|].
  inversion H; subst. destruct (k' =? k); simpl; [|constructor]; auto.
Qed.

Lemma get_delete_same k m : JS.get k (snd (JS.delete k m)) = None.
Proof.
  simpl. induction m as [|[k' v'] m IH]; simpl; [reflexivity|].
  destruct (k' =? k) eqn:E; simpl; [exact IH|]. rewrite E. exact IH.
Qed.

Lemma get_delete_other k k0 m :
  k0 <> k -> JS.get k0 (snd (JS.delete k m)) = JS.get k0 m.
Proof.
  intros Hne. simpl. induction m as [|[k' v'] m IH]; simpl; [reflexivity|].
  destruct (k' =? k) eqn:E; simpl.
  - apply Z.eqb_eq in E. subst k'.
    destruct (k =? k0) eqn:E0; [apply Z.eqb_eq in E0; congruence|]. exact IH.
  - rewrite IH. reflexivity.
Qed.

(** The keys of a map stay pairwise distinct, as those of a [Map] are. *)
Lemma In_keys_set k k0 v m :
  In k0 (JS.keys (JS.set k v m)) -> k0 = k \/ In k0 (JS.keys m).
Proof.
  induction m as [|[k' v'] m IH]; simpl.
  - intros [H|[]]. left. congruence.
  - destruct (k' =? k) eqn:E; simpl.
    + intros [H|H]; [left; congruence | right; right; exact H].
    + intros [H|H]; [right; left; exact H|].
      destruct (IH H) as [H'|H']; [left; exact H' | right; right; exact H'].
Qed.

Lemma keys_set_NoDup k v m :
  NoDup (JS.keys m) -> NoDup (JS.keys (JS.set k v m)).
Proof.
  induction m as [|[k' v'] m IH]; simpl; intros H.
  - constructor; [intros [] | constructor].
  - inversion H as [|? ? Hnotin Hrest]; subst.
    destruct (k' =? k) eqn:E; simpl.
    + apply Z.eqb_eq in E. subst k'. constructor; assumption.
    + apply Z.eqb_neq in E. constructor; [|apply IH, Hrest].
      intros Hin. apply In_keys_set in Hin. destruct Hin; congruence.
Qed.

Lemma keys_delete_NoDup k m :
  NoDup (JS.keys m) -> NoDup (JS.keys (snd (JS.delete k m))).
Proof.
  simpl. induction m as [|[k' v'] m IH]; simpl; intros H; [constructor|].
  inversion H as [|? ? Hnotin Hrest]; subst.
  destruct (k' =? k); simpl; [apply IH, Hrest|].
  constructor; [|apply IH, Hrest].
  intros Hin. apply Hnotin.
  unfold JS.keys in *. apply in_map_iff in Hin.
  destruct Hin as ([k0 v0] & Hk & Hin). apply filter_In in Hin.
  apply in_map_iff. exists (k0, v0). tauto.
Qed.

Lemma delete_absent k m : JS.get k m = None -> JS.delete k m = (false, m).
Proof.
  unfold JS.delete, JS.has.
  induction m as [|[k' v'] m IH]; simpl; [reflexivity|].
  destruct (k' =? k); simpl; [discriminate|].
  intros H. specialize (IH H). injection IH as -> ->. reflexivity.
Qed.

End MapFacts.

(** ** Invariants of MemStorage *)

Lemma snd_outcome {A S : Type} (r : result A * S) :
  snd (IStorage.outcome r) = snd r.
Proof. destruct r as [[a|e] st]; reflexivity. Qed.

Lemma Forall_below_succ (n : Z) (l : list Z) :
  Forall (fun k => k < n) l -> Forall (fun k => k < n + 1) l.
Proof. apply Forall_impl. intros; lia. Qed.

Lemma mem_invariant_constructor : mem_invariant MemStorage.constructor.
Proof. split; constructor. Qed.

(** Case analysis on a call of [MemStorage]: the store after each method,
    with the branches of the methods that look before they write. *)
Ltac mem_call_cases c :=
  destruct c; unfold IStorage.invoke; rewrite ?snd_outcome; simpl;
  try match goal with
    | |- context [MemStorage.updateFinancialProfile] =>
        unfold MemStorage.updateFinancialProfile,
          MemStorage.getFinancialProfile;
        destruct (JS.find _ _); simpl
    | |- context [MemStorage.getChatMessages _ ?l] =>
        unfold MemStorage.getChatMessages;
        destruct (JS.sort _ _);
        [destruct l as [?n|]; [destruct (JS.truthy _)|]|]; simpl
    | |- context [MemStorage.updateFinancialGoal] =>
        unfold MemStorage.updateFinancialGoal, MemStorage.getFinancialGoal;
        match goal with
        | |- context [match JS.get ?k ?m with _ => _ end] =>
            destruct (JS.get k m) eqn:?
        end; simpl
    end.

Lemma mem_invariant_invoke (c : IStorage.call) (st : MemStorage.t) :
  mem_invariant st -> mem_invariant (snd (IStorage.invoke c st)).
Proof.
  intros [Hm Hg Hu Hmk Hgk].
  mem_call_cases c; try (split; simpl; assumption).
  - (* createUser *)
    split; simpl; try assumption.
    apply keys_set_Forall; [lia | apply Forall_below_succ, Hu].
  - (* createChatMessage *)
    split; simpl; try assumption.
    + apply values_set_Forall; [discriminate | exact Hm].
    + apply keys_set_Forall; [lia | apply Forall_below_succ, Hmk].
  - (* createFinancialGoal *)
    split; simpl; try assumption.
    + apply values_set_Forall; [discriminate | exact Hg].
    + apply keys_set_Forall; [lia | apply Forall_below_succ, Hgk].
  - (* updateFinancialGoal of a goal that exists *)
    split; simpl; try assumption.
    + apply values_set_Forall; [|exact Hg]. simpl.
      rewrite Forall_forall in Hg. apply Hg. eapply get_In_values. eassumption.
    + apply keys_set_Forall; [|exact Hgk].
      rewrite Forall_forall in Hgk. apply Hgk. eapply get_In_keys. eassumption.
  - (* deleteFinancialGoal *)
    split; simpl; try assumption.
    + apply (values_delete_Forall _ id), Hg.
    + apply (keys_delete_Forall _ id), Hgk.
Qed.

(** The keys of each map are pairwise distinct, as the keys of a [Map]
    are: the list of entries does represent a [Map]. *)
Lemma mem_keys_distinct (cs : list IStorage.call) :
  NoDup (JS.keys (MemStorage.users (mem_after cs))) /\
  NoDup (JS.keys (MemStorage.financialProfiles (mem_after cs))) /\
  NoDup (JS.keys (MemStorage.chatMessages (mem_after cs))) /\
  NoDup (JS.keys (MemStorage.financialGoals (mem_after cs))).
Proof.
  unfold mem_after.
  induction cs as [|c cs IH] using rev_ind;
    [repeat split; constructor|].
  unfold IStorage.run. rewrite fold_left_app. simpl.
  fold (IStorage.run cs MemStorage.constructor).
  destruct IH as (Hu & Hp & Hm & Hg).
  set (st := IStorage.run cs MemStorage.constructor) in *.
  clearbody st.
  mem_call_cases c; repeat split; try assumption;
    try (apply keys_set_NoDup; assumption).
  apply (keys_delete_NoDup id), Hg.
Qed.

Lemma mem_invariant_run (cs : list IStorage.call) (st : MemStorage.t) :
  mem_invariant st -> mem_invariant (IStorage.run cs st).
Proof.
  revert st. induction cs as [|c cs IH]; intros st H; [exact H|].
  apply IH, mem_invariant_invoke, H.
Qed.

Lemma mem_invariant_after (cs : list IStorage.call) :
  mem_invariant (mem_after cs).
Proof. apply mem_invariant_run, mem_invariant_constructor. Qed.

Lemma run_app {S : Type} {I : IStorage.t S} (cs cs' : list IStorage.call)
  (st : S) :
  IStorage.run (cs ++ cs') st = IStorage.run cs' (IStorage.run cs st).
Proof. apply fold_left_app. Qed.

(** ** Two facts about [Forall] *)

Lemma Forall_snoc {A : Type} (P : A -> Prop) (l : list A) (x : A) :
  Forall P l -> P x -> Forall P (l ++ [x]).
Proof.
  intros Hl Hx. apply Forall_app. split; [exact Hl | repeat constructor].
  exact Hx.
Qed.

Lemma Forall_filter_keep {A : Type} (P : A -> Prop) (f : A -> bool)
  (l : list A) : Forall P l -> Forall P (filter f l).
Proof.
  intros H. rewrite Forall_forall in *. intros x Hx.
  apply filter_In in Hx. apply H, Hx.
Qed.

(** ** What [getChatMessages] computes *)

Lemma mem_byTimestamp_key (a b : ChatMessage.t) :
  ChatMessage.timestamp a <> None -> ChatMessage.timestamp b <> None ->
  MemStorage.byTimestamp a b = Ok (messageKey a - messageKey b).
Proof.
  unfold MemStorage.byTimestamp, messageKey.
  destruct (ChatMessage.timestamp a), (ChatMessage.timestamp b);
    simpl; congruence.
Qed.

Lemma mem_getChatMessages_eq (userId : Z) (limit : option Z)
  (st : MemStorage.t) :
  mem_invariant st ->
  MemStorage.getChatMessages userId limit st
  = (Ok (mem_limited limit
           (stable_sort_by messageKey (mem_inserted userId st))), st).
Proof.
  intros [Hm _ _ _ _]. unfold MemStorage.getChatMessages.
  rewrite (sort_by_key messageKey).
  - unfold mem_limited. destruct limit as [n|]; [|reflexivity].
    destruct (JS.truthy n); reflexivity.
  - intros a b Ha Hb. apply filter_In in Ha, Hb.
    rewrite Forall_forall in Hm.
    apply mem_byTimestamp_key; apply Hm; tauto.
Qed.

Lemma pg_getChatMessages_eq (userId : Z) (limit : option Z) (db : Db.t) :
  PostgresStorage.getChatMessages userId limit db
  = (Ok (pg_limited limit
           (stable_sort_by messageKey (db_inserted userId db))), db).
Proof.
  unfold PostgresStorage.getChatMessages, PostgresStorage.rethrow,
    Db.select_where.
  rewrite (sort_by_key messageKey) by reflexivity.
  unfold pg_limited. destruct limit as [n|]; [|reflexivity].
  destruct (JS.truthy n && (0 <? n)); reflexivity.
Qed.

Lemma pg_getFinancialGoals_eq (userId : Z) (db : Db.t) :
  PostgresStorage.getFinancialGoals userId db
  = (Ok (stable_sort_by goalKey (goalsOf userId (Db.financial_goals db))),
     db).
Proof.
  unfold PostgresStorage.getFinancialGoals, PostgresStorage.rethrow,
    Db.select_where.
  rewrite (sort_by_key goalKey) by reflexivity. reflexivity.
Qed.

(** ** The calls of PostgresStorage, case by case *)

(** [createUser] gives the credential under the key [password_hash], which
    is no field of the table object: the column is left without value and
    the insert is rejected, on every database and for every input. *)
Lemma pg_createUser_throws (insertUser : InsertUser.t) (now : Z) (db : Db.t) :
  PostgresStorage.createUser insertUser now db
  = (Throw (NotNullViolation "password_hash"),
     Db.with_users db (Db.users db) (Db.users_id_seq db + 1)).
Proof. reflexivity. Qed.

Lemma pg_getChatMessages_snd (userId : Z) (limit : option Z) (db : Db.t) :
  snd (PostgresStorage.getChatMessages userId limit db) = db.
Proof. rewrite pg_getChatMessages_eq. reflexivity. Qed.

(** The rows of a table after an [UPDATE]: the rows it did not hit, then
    the new versions of the rows it hit. *)
Section Rewritten.
Context {R : Type}.
Variables (f : R -> R) (hit : R -> bool).

Lemma partition_Permutation (l : list R) :
  Permutation (filter (fun r => negb (hit r)) l ++ filter hit l) l.
Proof.
  induction l as [|x l IH]; [constructor|]. simpl.
  destruct (hit x); simpl.
  - symmetry. apply Permutation_cons_app. symmetry. exact IH.
  - constructor. exact IH.
Qed.

Lemma Forall_rewritten (P : R -> Prop) (l : list R) :
  (forall r, P r -> P (f r)) ->
  Forall P l ->
  Forall P (filter (fun r => negb (hit r)) l ++ map f (filter hit l)).
Proof.
  intros Hf Hl. apply Forall_app. split.
  - apply Forall_filter_keep, Hl.
  - apply Forall_map. eapply Forall_impl; [|apply Forall_filter_keep, Hl].
    exact Hf.
Qed.

Lemma map_rewritten {B : Type} (g : R -> B) (l : list R) :
  (forall r, g (f r) = g r) ->
  Permutation
    (map g (filter (fun r => negb (hit r)) l ++ map f (filter hit l)))
    (map g l).
Proof.
  intros Hg. rewrite map_app, map_map.
  rewrite (map_ext (fun r => g (f r)) g Hg), <- map_app.
  apply Permutation_map, partition_Permutation.
Qed.

Lemma NoDup_rewritten {B : Type} (g : R -> B) (l : list R) :
  (forall r, g (f r) = g r) ->
  NoDup (map g l) ->
  NoDup (map g (filter (fun r => negb (hit r)) l ++ map f (filter hit l))).
Proof.
  intros Hg Hnd. eapply Permutation_NoDup; [|exact Hnd].
  symmetry. apply map_rewritten, Hg.
Qed.

End Rewritten.

(** Case analysis on a call of [PostgresStorage]: one case for every way
    through the method. *)
Ltac pg_unfold :=
  unfold PostgresStorage.createFinancialProfile,
    PostgresStorage.updateFinancialProfile,
    PostgresStorage.getFinancialProfile,
    PostgresStorage.createChatMessage,
    PostgresStorage.createFinancialGoal,
    PostgresStorage.updateFinancialGoal,
    PostgresStorage.deleteFinancialGoal,
    PostgresStorage.rethrow,
    Db.insert_financial_profiles, Db.update_financial_profiles,
    Db.insert_chat_messages, Db.insert_financial_goals,
    Db.update_financial_goals, Db.delete_financial_goals.

Ltac pg_branches :=
  repeat match goal with
    | |- context [match PostgresStorage.first ?l with _ => _ end] =>
        destruct (PostgresStorage.first l) eqn:?
    | |- context [if ?b then _ else _] => destruct b eqn:?
    end.

Ltac pg_call_cases c :=
  destruct c; unfold IStorage.invoke; rewrite ?snd_outcome; simpl;
  rewrite ?pg_createUser_throws, ?pg_getChatMessages_snd;
  pg_unfold; pg_branches; simpl.

Lemma Forall_lt_succ {A : Type} (f : A -> Z) (n : Z) (l : list A) :
  Forall (fun x => f x < n) l -> Forall (fun x => f x < n + 1) l.
Proof. apply Forall_impl. intros; lia. Qed.

(** ** Order of occurrence and filtering *)

Lemma before_filter {A : Type} (f : A -> bool) (a b : A) (l : list A) :
  f a = true -> f b = true -> before a b l -> before a b (filter f l).
Proof.
  intros Ha Hb (l1 & l2 & l3 & ->).
  exists (filter f l1), (filter f l2), (filter f l3).
  rewrite filter_app. simpl. rewrite Ha, filter_app. simpl. rewrite Hb.
  reflexivity.
Qed.

Lemma filter_split {A : Type} (f : A -> bool) (b : A) (l p q : list A) :
  filter f l = p ++ b :: q -> exists m1 m3, l = m1 ++ b :: m3.
Proof.
  revert p. induction l as [|x l IH]; intros p H; simpl in H.
  - destruct p; discriminate.
  - destruct (f x).
    + destruct p as [|y p]; simpl in H; injection H as -> H.
      * exists [], l. reflexivity.
      * destruct (IH _ H) as (m1 & m3 & ->). exists (y :: m1), m3.
        reflexivity.
    + destruct (IH _ H) as (m1 & m3 & ->). exists (x :: m1), m3.
      reflexivity.
Qed.

Lemma filter_before {A : Type} (f : A -> bool) (a b : A) (l : list A) :
  before a b (filter f l) -> before a b l.
Proof.
  intros (l1 & l2 & l3 & H). revert l1 H.
  induction l as [|x l IH]; intros l1 H; simpl in H.
  - destruct l1; discriminate.
  - destruct (f x).
    + destruct l1 as [|y l1]; simpl in H; injection H as -> H.
      * destruct (filter_split f b l l2 l3 H) as (m1 & m3 & ->).
        exists [], m1, m3. reflexivity.
      * destruct (IH _ H) as (k1 & k2 & k3 & ->).
        exists (y :: k1), k2, k3. reflexivity.
    + destruct (IH _ H) as (k1 & k2 & k3 & ->).
      exists (x :: k1), k2, k3. reflexivity.
Qed.

Lemma stable_sort_by_ordered {A : Type} (key : A -> Z) (l : list A) :
  ordered_listing key l (stable_sort_by key l).
Proof.
  split; [apply stable_sort_by_perm | split].
  - intros a b. apply sorted_before, stable_sort_by_sorted.
  - intros a b Hk Hab.
    apply (filter_before (fun x => key x =? key a)).
    rewrite stable_sort_by_stable.
    apply before_filter;
      [apply Z.eqb_refl | apply Z.eqb_eq; congruence | exact Hab].
Qed.

(** In [MemStorage], a created message is stored after all the messages
    stored before it: the iteration order of the map is the order of the
    calls of [createChatMessage]. *)
Lemma mem_createChatMessage_appends (cs : list IStorage.call)
  (insertMessage : InsertChatMessage.t) (now : Z) :
  exists message st',
    MemStorage.createChatMessage insertMessage now (mem_after cs)
    = (Ok message, st') /\
    JS.values (MemStorage.chatMessages st')
    = JS.values (MemStorage.chatMessages (mem_after cs)) ++ [message].
Proof.
  destruct (mem_invariant_after cs) as [_ _ _ Hk _].
  eexists _, _. split; [reflexivity|]. simpl.
  rewrite set_absent.
  - unfold JS.values. rewrite map_app. reflexivity.
  - apply get_None_keys. intros Hin.
    rewrite Forall_forall in Hk. specialize (Hk _ Hin). lia.
Qed.

(** ** Listing chat messages *)

Lemma pg_stamped_run (cs : list IStorage.call) (db : Db.t) :
  Forall (fun m => ChatMessage.timestamp m <> None) (Db.chat_messages db) ->
  Forall (fun m => ChatMessage.timestamp m <> None)
    (Db.chat_messages (IStorage.run cs db)).
Proof.
  revert db. induction cs as [|c cs IH]; intros db H; [exact H|].
  apply IH. clear IH.
  pg_call_cases c; try assumption.
  apply Forall_snoc; [exact H | discriminate].
Qed.

(** C4.  After any history of calls, [getChatMessages(userId)] of the
    in-memory store returns exactly the messages of the user, every one
    with the timestamp its creation gave it, in non-decreasing order of the
    timestamps, messages of equal timestamp in the order of insertion.  On
    every content of the [chat_messages] table the relational store returns
    exactly the rows of the user in non-decreasing order of the timestamps
    as its comparator reads them, rows that compare equal in the order of
    insertion, two rows without timestamp among them; and when every row
    of the table has a timestamp, so has every row after any calls of the
    interface: a row [createChatMessage] writes has the time of its
    creation. *)
Theorem C4_ordering_law (cs : list IStorage.call) (db : Db.t) (userId : Z) :
  (exists res,
      MemStorage.getChatMessages userId None (mem_after cs)
      = (Ok res, mem_after cs) /\
      ordered_listing messageKey (mem_inserted userId (mem_after cs)) res /\
      Forall (fun m => ChatMessage.timestamp m = Some (messageKey m)) res) /\
  (exists res,
      PostgresStorage.getChatMessages userId None db = (Ok res, db) /\
      ordered_listing messageKey (db_inserted userId db) res /\
      (forall a b,
          ChatMessage.timestamp a = None -> ChatMessage.timestamp b = None ->
          before a b (db_inserted userId db) -> before a b res)) /\
  (Forall (fun m => ChatMessage.timestamp m <> None) (Db.chat_messages db) ->
   exists res,
     PostgresStorage.getChatMessages userId None (IStorage.run cs db)
     = (Ok res, IStorage.run cs db) /\
     Forall (fun m => ChatMessage.timestamp m = Some (messageKey m)) res).
Proof.
  assert (forall (l : list ChatMessage.t),
             Forall (fun m => ChatMessage.timestamp m <> None) l ->
             Forall (fun m => ChatMessage.timestamp m = Some (messageKey m))
               (stable_sort_by messageKey (messagesOf userId l))) as Hstamped.
  { intros l Hl. rewrite Forall_forall in *. intros m Hm.
    apply stable_sort_by_In, filter_In in Hm.
    specialize (Hl m (proj1 Hm)). unfold messageKey.
    destruct (ChatMessage.timestamp m); [reflexivity | congruence]. }
  split; [|split].
  - eexists. split; [apply mem_getChatMessages_eq, mem_invariant_after|].
    split; [apply stable_sort_by_ordered|].
    apply Hstamped. apply (mem_invariant_after cs).
  - eexists. split; [apply pg_getChatMessages_eq|].
    split; [apply stable_sort_by_ordered|].
    intros a b Ha Hb. apply stable_sort_by_ordered.
    unfold messageKey. rewrite Ha, Hb. reflexivity.
  - intros Hdb. eexists. split; [apply pg_getChatMessages_eq|].
    apply Hstamped, pg_stamped_run, Hdb.
Qed.


(** C9.  A limit of [0] is no limit: in both classes
    [getChatMessages(userId, 0)] returns the full ordered list that
    [getChatMessages(userId)] returns. *)
Theorem C9_zero_limit_is_no_limit (cs : list IStorage.call) (db : Db.t)
  (userId : Z) :
  (exists full,
      MemStorage.getChatMessages userId None (mem_after cs)
      = (Ok full, mem_after cs) /\
      MemStorage.getChatMessages userId (Some 0) (mem_after cs)
      = (Ok full, mem_after cs) /\
      ordered_listing messageKey (mem_inserted userId (mem_after cs)) full) /\
  (exists full,
      PostgresStorage.getChatMessages userId None db = (Ok full, db) /\
      PostgresStorage.getChatMessages userId (Some 0) db = (Ok full, db) /\
      ordered_listing messageKey (db_inserted userId db) full).
Proof.
  split; eexists.
  - rewrite !mem_getChatMessages_eq by apply mem_invariant_after.
    repeat split; apply stable_sort_by_ordered.
  - rewrite !pg_getChatMessages_eq.
    repeat split; apply stable_sort_by_ordered.
Qed.


(** The three messages of [chat], limited to two: the two latest, the
    earlier of them first.  The relational class is run on the database
    in which user 1 is registered. *)
Example chat_limited_to_two :
  MemStorage.getChatMessages 1 (Some 2) (mem_after chat)
  = (Ok [ChatMessage.mk 3 1 "hello" true (Some 200);
         ChatMessage.mk 1 1 "hello" true (Some 300)], mem_after chat) /\
  PostgresStorage.getChatMessages 1 (Some 2) (IStorage.run chat registered)
  = (Ok [ChatMessage.mk 3 1 "hello" true (Some 200);
         ChatMessage.mk 1 1 "hello" true (Some 300)],
     IStorage.run chat registered).
Proof. split; reflexivity. Qed.

(** ** Records without timestamp in the relational listings *)

(** C1.  The listings of [PostgresStorage] compare a record without
    timestamp as if it were stamped with the epoch: on [legacy_db], whose
    rows of user 1 are one without timestamp followed by one stamped
    before the epoch, [getChatMessages] and [getFinancialGoals] return the
    record without timestamp last, after the record that has one. *)
Theorem C1_unstamped_after_pre_epoch :
  PostgresStorage.getChatMessages 1 None legacy_db
  = (Ok [message_1969; message_unstamped], legacy_db) /\
  PostgresStorage.getFinancialGoals 1 legacy_db
  = (Ok [goal_1969; goal_unstamped], legacy_db).
Proof. split; reflexivity. Qed.

(** What does hold of both listings on every database: two records that
    both have a timestamp stand in the order of their timestamps, and no
    record stamped after the epoch stands before one without timestamp. *)
Theorem pg_listings_chronological (db : Db.t) (userId : Z) :
  (forall res a b ta tb,
      PostgresStorage.getChatMessages userId None db = (Ok res, db) ->
      before a b res ->
      ChatMessage.timestamp a = Some ta ->
      ChatMessage.timestamp b = Some tb -> ta <= tb) /\
  (forall res a b ta tb,
      PostgresStorage.getFinancialGoals userId db = (Ok res, db) ->
      before a b res ->
      FinancialGoal.createdAt a = Some ta ->
      FinancialGoal.createdAt b = Some tb -> ta <= tb).
Proof.
  split; intros res a b ta tb Hres Hab Ha Hb.
  - rewrite pg_getChatMessages_eq in Hres. injection Hres as <-.
    apply (proj1 (proj2 (stable_sort_by_ordered messageKey _))) in Hab.
    unfold messageKey in Hab. rewrite Ha, Hb in Hab. exact Hab.
  - rewrite pg_getFinancialGoals_eq in Hres. injection Hres as <-.
    apply (proj1 (proj2 (stable_sort_by_ordered goalKey _))) in Hab.
    unfold goalKey in Hab. rewrite Ha, Hb in Hab. exact Hab.
Qed.

Theorem pg_listings_unstamped_at_epoch (db : Db.t) (userId : Z) :
  (forall res a b ta,
      PostgresStorage.getChatMessages userId None db = (Ok res, db) ->
      before a b res ->
      ChatMessage.timestamp a = Some ta ->
      ChatMessage.timestamp b = None -> ta <= 0) /\
  (forall res a b ta,
      PostgresStorage.getFinancialGoals userId db = (Ok res, db) ->
      before a b res ->
      FinancialGoal.createdAt a = Some ta ->
      FinancialGoal.createdAt b = None -> ta <= 0).
Proof.
  split; intros res a b ta Hres Hab Ha Hb.
  - rewrite pg_getChatMessages_eq in Hres. injection Hres as <-.
    apply (proj1 (proj2 (stable_sort_by_ordered messageKey _))) in Hab.
    unfold messageKey in Hab. rewrite Ha, Hb in Hab. exact Hab.
  - rewrite pg_getFinancialGoals_eq in Hres. injection Hres as <-.
    apply (proj1 (proj2 (stable_sort_by_ordered goalKey _))) in Hab.
    unfold goalKey in Hab. rewrite Ha, Hb in Hab. exact Hab.
Qed.

(** ** Creating users *)

Lemma first_select_existsb {R B : Type} (f : R -> B) (cond : R -> bool)
  (table : list R) :
  existsb cond table = true <->
  exists x, PostgresStorage.first (map f (Db.select_where cond table))
            = Some x.
Proof.
  unfold Db.select_where. induction table as [|r table IH]; simpl.
  - split; [discriminate | intros [x H]; discriminate].
  - destruct (cond r); simpl; [|exact IH].
    split; [intros _; eexists; reflexivity | reflexivity].
Qed.

Lemma first_select_absent {R B : Type} (f : R -> B) (cond : R -> bool)
  (table : list R) :
  existsb cond table = false <->
  PostgresStorage.first (map f (Db.select_where cond table)) = None.
Proof.
  unfold Db.select_where. induction table as [|r table IH]; simpl.
  - tauto.
  - destruct (cond r); simpl; [|exact IH].
    split; discriminate.
Qed.

(** C2.  [MemStorage.createUser] does not reject a taken username or
    email: after [createUser(alice)] the lookup by the username of [alice]
    finds user 1, and a second [createUser(alice)] returns user 2 with the
    same username and email, where the table [users] of server/db.ts, in
    which alice is registered, rejects a second row for alice. *)
Theorem C2_mem_accepts_duplicate :
  MemStorage.getUserByUsername "alice"
    (mem_after [IStorage.CreateUser alice 1000])
  = (Ok (Some (User.mk 1 "alice" "a@x.com" "h1" (Some 1000))),
     mem_after [IStorage.CreateUser alice 1000]) /\
  fst (MemStorage.createUser alice 2000
         (mem_after [IStorage.CreateUser alice 1000]))
  = Ok (User.mk 2 "alice" "a@x.com" "h1" (Some 2000)) /\
  fst (Db.insert_users (registration alice) 2000 registered)
  = Throw (UniqueViolation "users_username_key").
Proof. repeat split. Qed.

(** No call of [PostgresStorage] changes the table [users]. *)
Lemma pg_users_invoke (c : IStorage.call) (db : Db.t) :
  Db.users (snd (IStorage.invoke c db)) = Db.users db.
Proof. pg_call_cases c; reflexivity. Qed.

Lemma pg_users_run (cs : list IStorage.call) (db : Db.t) :
  Db.users (IStorage.run cs db) = Db.users db.
Proof.
  revert db. induction cs as [|c cs IH]; intros db; [reflexivity|].
  simpl. rewrite IH. apply pg_users_invoke.
Qed.

(** What each class does on [createUser].  [MemStorage] checks nothing:
    after any history it returns a new user with the input's fields, the
    next id of the counter, which no stored user has, and the time of
    creation.  [PostgresStorage] stores no user: it gives the credential
    under the key [password_hash] where the table object has the field
    [password], so on every database and for every input the insert is
    rejected for the missing value of the column [password_hash]; the rows
    of the four tables are as before, the sequence of [users] has
    advanced, and after any calls of the interface the table [users] is
    what it was. *)
Theorem createUser_per_backend (cs : list IStorage.call) (db : Db.t)
  (insertUser : InsertUser.t) (now : Z) :
  (exists user st',
      MemStorage.createUser insertUser now (mem_after cs) = (Ok user, st') /\
      carries_input insertUser user /\
      User.id user = MemStorage.userIdCounter (mem_after cs) /\
      User.createdAt user = Some now /\
      MemStorage.getUser (User.id user) (mem_after cs)
      = (Ok None, mem_after cs) /\
      MemStorage.getUser (User.id user) st' = (Ok (Some user), st')) /\
  (exists db',
      PostgresStorage.createUser insertUser now db
      = (Throw (NotNullViolation "password_hash"), db') /\
      Db.users db' = Db.users db /\
      Db.financial_profiles db' = Db.financial_profiles db /\
      Db.chat_messages db' = Db.chat_messages db /\
      Db.financial_goals db' = Db.financial_goals db /\
      Db.users_id_seq db' = Db.users_id_seq db + 1) /\
  Db.users (IStorage.run cs db) = Db.users db.
Proof.
  split; [|split].
  - eexists _, _. split; [reflexivity|].
    split; [repeat split|]. simpl.
    split; [reflexivity | split; [reflexivity|]].
    split.
    + unfold MemStorage.getUser. f_equal. f_equal.
      apply get_None_keys. intros Hin.
      destruct (mem_invariant_after cs) as [_ _ Hu _ _].
      rewrite Forall_forall in Hu. specialize (Hu _ Hin). lia.
    + unfold MemStorage.getUser. simpl. rewrite get_set_same. reflexivity.
  - eexists. rewrite pg_createUser_throws. repeat split.
  - apply pg_users_run.
Qed.

(** C5.  In [MemStorage], after any history, [createUser(data)] returns a
    user that [getUser] of its id returns, with the username, the email
    and the password of [data] and the time of creation.
    [PostgresStorage.createUser] returns no user: on the empty database
    [createUser(alice)] throws the not-null violation of the column
    [password_hash] and the table [users] stays empty, so that the lookup
    of alice finds nobody.  The credential would go through the column
    and back had it been given under the field [password]: in the
    database where alice is registered that way, [getUser(1)] returns her
    with her password. *)
Theorem C5_createUser_then_getUser (cs : list IStorage.call)
  (insertUser : InsertUser.t) (now : Z) :
  (exists user st',
      MemStorage.createUser insertUser now (mem_after cs) = (Ok user, st') /\
      MemStorage.getUser (User.id user) st' = (Ok (Some user), st') /\
      carries_input insertUser user /\
      User.createdAt user = Some now) /\
  PostgresStorage.createUser alice 1000 Db.initial
  = (Throw (NotNullViolation "password_hash"), Db.mk [] 2 [] 1 [] 1 [] 1) /\
  PostgresStorage.getUserByUsername "alice" (Db.mk [] 2 [] 1 [] 1 [] 1)
  = (Ok None, Db.mk [] 2 [] 1 [] 1 [] 1) /\
  PostgresStorage.getUser 1 registered
  = (Ok (Some (User.mk 1 "alice" "a@x.com" "h1" (Some 1000))), registered).
Proof.
  split; [|repeat split].
  eexists _, _. split; [reflexivity|].
  unfold MemStorage.getUser. simpl. rewrite get_set_same. repeat split.
Qed.

(** ** Updating and deleting goals *)

Lemma field_merged_spread {A : Type} (prior : A) (given : option A) :
  field_merged prior given (spread prior given).
Proof. destruct given; reflexivity. Qed.

Lemma mergeGoal_overwrites_present (goal : FinancialGoal.t)
  (updateData : PartialFinancialGoal.t) :
  overwrites_present goal updateData (MemStorage.mergeGoal goal updateData).
Proof. repeat split; apply field_merged_spread. Qed.

Lemma set_columns_overwrites_present (goal : FinancialGoal.t)
  (updateData : PartialFinancialGoal.t) :
  overwrites_present goal updateData (Db.set_columns updateData goal).
Proof. repeat split; apply field_merged_spread. Qed.

Lemma mem_update_existing (id : Z) (updateData : PartialFinancialGoal.t)
  (st : MemStorage.t) (goal : FinancialGoal.t) :
  MemStorage.getFinancialGoal id st = (Ok (Some goal), st) ->
  exists st',
    MemStorage.updateFinancialGoal id updateData st
    = (Ok (Some (MemStorage.mergeGoal goal updateData)), st') /\
    MemStorage.getFinancialGoal id st'
    = (Ok (Some (MemStorage.mergeGoal goal updateData)), st') /\
    (forall id', id' <> id ->
        fst (MemStorage.getFinancialGoal id' st')
        = fst (MemStorage.getFinancialGoal id' st)).
Proof.
  intros H. unfold MemStorage.updateFinancialGoal. rewrite H.
  eexists. split; [reflexivity|].
  unfold MemStorage.getFinancialGoal. simpl. split.
  - rewrite get_set_same. reflexivity.
  - intros id' Hne. rewrite get_set_other by exact Hne. reflexivity.
Qed.

Section UpdateWhere.
Context {R : Type}.
Variables (ident : R -> Z) (f : R -> R).
Hypothesis f_keeps_ident : forall r, ident (f r) = ident r.

Lemma filter_hits_rewritten (id : Z) (table : list R) :
  filter (fun r => ident r =? id)
    (filter (fun r => negb (ident r =? id)) table
     ++ map f (filter (fun r => ident r =? id) table))
  = map f (filter (fun r => ident r =? id) table).
Proof.
  rewrite filter_app.
  replace (filter _ (filter (fun r => negb (ident r =? id)) table))
    with (@nil R).
  - simpl. induction table as [|r table IH]; [reflexivity|]. simpl.
    destruct (ident r =? id) eqn:E; [|exact IH].
    simpl. rewrite f_keeps_ident, E, IH. reflexivity.
  - symmetry. induction table as [|r table IH]; [reflexivity|]. simpl.
    destruct (ident r =? id) eqn:E; simpl; [|rewrite E]; exact IH.
Qed.

Lemma filter_others_rewritten (id id' : Z) (table : list R) :
  id' <> id ->
  filter (fun r => ident r =? id')
    (filter (fun r => negb (ident r =? id)) table
     ++ map f (filter (fun r => ident r =? id) table))
  = filter (fun r => ident r =? id') table.
Proof.
  intros Hne. rewrite filter_app.
  replace (filter _ (map f (filter (fun r => ident r =? id) table)))
    with (@nil R).
  - rewrite app_nil_r.
    induction table as [|r table IH]; [reflexivity|]. simpl.
    destruct (ident r =? id) eqn:E; simpl.
    + apply Z.eqb_eq in E.
      replace (ident r =? id') with false
        by (symmetry; apply Z.eqb_neq; congruence).
      exact IH.
    + rewrite IH. reflexivity.
  - symmetry. induction table as [|r table IH]; [reflexivity|]. simpl.
    destruct (ident r =? id) eqn:E; [|exact IH]. simpl.
    rewrite f_keeps_ident. apply Z.eqb_eq in E.
    replace (ident r =? id') with false
      by (symmetry; apply Z.eqb_neq; congruence).
    exact IH.
Qed.

Lemma first_returned (id : Z) (table : list R) :
  PostgresStorage.first (map f (filter (fun r => ident r =? id) table))
  = option_map f (PostgresStorage.first
                    (filter (fun r => ident r =? id) table)).
Proof. destruct (filter _ table); reflexivity. Qed.

End UpdateWhere.

(** A user exists when [getUser] of the id finds one. *)
Lemma pg_references_getUser (u : Z) (db : Db.t) :
  (exists user, PostgresStorage.getUser u db = (Ok (Some user), db))
  <-> Db.references_users u db = true.
Proof.
  unfold PostgresStorage.getUser, PostgresStorage.rethrow,
    Db.references_users.
  rewrite (first_select_existsb Db.user_of_row).
  split; intros [user H]; exists user; congruence.
Qed.

Lemma pg_no_reference_getUser (u : Z) (db : Db.t) :
  PostgresStorage.getUser u db = (Ok None, db)
  <-> Db.references_users u db = false.
Proof.
  unfold PostgresStorage.getUser, PostgresStorage.rethrow,
    Db.references_users.
  rewrite (first_select_absent Db.user_of_row).
  split; congruence.
Qed.

Lemma names_existing_user {R : Type} (owner : R -> Z) (u : option Z)
  (hits : list R) (db : Db.t) :
  (forall u0, u = Some u0 ->
     exists user, PostgresStorage.getUser u0 db = (Ok (Some user), db)) ->
  Db.names_missing_user owner u hits db = false.
Proof.
  intros H. destruct u as [u0|]; [|reflexivity]. simpl.
  destruct (H u0 eq_refl) as [user Hu].
  assert (Db.references_users u0 db = true) as ->
    by (apply pg_references_getUser; exists user; exact Hu).
  apply andb_false_r.
Qed.

(** The three ways through [updateFinancialGoal] of an existing goal. *)
Lemma pg_update_accepted (id : Z) (updateData : PartialFinancialGoal.t)
  (db : Db.t) (goal : FinancialGoal.t) :
  PostgresStorage.getFinancialGoal id db = (Ok (Some goal), db) ->
  PartialFinancialGoal.is_empty updateData = false ->
  Db.names_missing_user FinancialGoal.userId
    (PartialFinancialGoal.userId updateData)
    (filter (fun r => FinancialGoal.id r =? id) (Db.financial_goals db)) db
  = false ->
  exists db',
    PostgresStorage.updateFinancialGoal id updateData db
    = (Ok (Some (Db.set_columns updateData goal)), db') /\
    PostgresStorage.getFinancialGoal id db'
    = (Ok (Some (Db.set_columns updateData goal)), db') /\
    (forall id', id' <> id ->
        fst (PostgresStorage.getFinancialGoal id' db')
        = fst (PostgresStorage.getFinancialGoal id' db)) /\
    Db.financial_goals db'
    = filter (fun r => negb (FinancialGoal.id r =? id)) (Db.financial_goals db)
      ++ map (Db.set_columns updateData)
           (filter (fun r => FinancialGoal.id r =? id)
              (Db.financial_goals db)).
Proof.
  unfold PostgresStorage.getFinancialGoal, PostgresStorage.rethrow,
    Db.select_where.
  intros H He Hfk. injection H as H.
  unfold PostgresStorage.updateFinancialGoal, PostgresStorage.rethrow,
    Db.update_financial_goals.
  rewrite He, Hfk.
  eexists. split; [|split; [|split]].
  - rewrite (first_returned FinancialGoal.id), H. reflexivity.
  - simpl.
    rewrite (filter_hits_rewritten FinancialGoal.id) by reflexivity.
    rewrite (first_returned FinancialGoal.id), H. reflexivity.
  - intros id' Hne. simpl.
    rewrite (filter_others_rewritten FinancialGoal.id)
      by (reflexivity || exact Hne).
    reflexivity.
  - reflexivity.
Qed.

Lemma pg_update_no_values (id : Z) (updateData : PartialFinancialGoal.t)
  (db : Db.t) :
  PartialFinancialGoal.is_empty updateData = true ->
  PostgresStorage.updateFinancialGoal id updateData db
  = (Throw NoValuesToSet, db).
Proof.
  intros He.
  unfold PostgresStorage.updateFinancialGoal, PostgresStorage.rethrow,
    Db.update_financial_goals.
  rewrite He. reflexivity.
Qed.

Lemma first_In {A : Type} (l : list A) (x : A) :
  PostgresStorage.first l = Some x -> In x l.
Proof. destruct l; [discriminate|]. intros [= ->]. left. reflexivity. Qed.

Lemma pg_update_missing_owner (id u : Z)
  (updateData : PartialFinancialGoal.t) (db : Db.t) (goal : FinancialGoal.t) :
  PostgresStorage.getFinancialGoal id db = (Ok (Some goal), db) ->
  PartialFinancialGoal.userId updateData = Some u ->
  u <> FinancialGoal.userId goal ->
  PostgresStorage.getUser u db = (Ok None, db) ->
  PostgresStorage.updateFinancialGoal id updateData db
  = (Throw (ForeignKeyViolation "financial_goals_user_id_fkey"), db).
Proof.
  intros H Hu Hne Hmissing.
  unfold PostgresStorage.getFinancialGoal, PostgresStorage.rethrow,
    Db.select_where in H.
  injection H as H. apply first_In in H.
  apply pg_no_reference_getUser in Hmissing.
  unfold PostgresStorage.updateFinancialGoal, PostgresStorage.rethrow,
    Db.update_financial_goals.
  replace (PartialFinancialGoal.is_empty updateData) with false
    by (unfold PartialFinancialGoal.is_empty; rewrite Hu; reflexivity).
  unfold Db.names_missing_user. rewrite Hu, Hmissing.
  replace (existsb _ _) with true; [reflexivity|].
  symmetry. apply existsb_exists. exists goal. split; [exact H|].
  apply negb_true_iff, Z.eqb_neq. congruence.
Qed.

(** C7.  [MemStorage.updateFinancialGoal(id, updateData)] of an existing
    goal returns and stores the goal with exactly the fields present in
    [updateData] overwritten and every other field as it was, and leaves
    the goals of other ids as they were, for every update data.
    [PostgresStorage.updateFinancialGoal] does so when the update data has
    a key and the [userId] it names, if it names one, is the id of a
    user; on update data without a key the query builder throws, on a
    [userId] that no user has the database rejects the update, and in
    both cases the goal stays as it was. *)
Theorem C7_partial_merge (st : MemStorage.t) (db : Db.t) (id : Z)
  (updateData : PartialFinancialGoal.t) :
  (forall goal,
      MemStorage.getFinancialGoal id st = (Ok (Some goal), st) ->
      exists updated st',
        MemStorage.updateFinancialGoal id updateData st
        = (Ok (Some updated), st') /\
        overwrites_present goal updateData updated /\
        MemStorage.getFinancialGoal id st' = (Ok (Some updated), st') /\
        (forall id', id' <> id ->
            fst (MemStorage.getFinancialGoal id' st')
            = fst (MemStorage.getFinancialGoal id' st))) /\
  (forall goal,
      PostgresStorage.getFinancialGoal id db = (Ok (Some goal), db) ->
      PartialFinancialGoal.is_empty updateData = false ->
      (forall u,
          PartialFinancialGoal.userId updateData = Some u ->
          exists user, PostgresStorage.getUser u db = (Ok (Some user), db)) ->
      exists updated db',
        PostgresStorage.updateFinancialGoal id updateData db
        = (Ok (Some updated), db') /\
        overwrites_present goal updateData updated /\
        PostgresStorage.getFinancialGoal id db' = (Ok (Some updated), db') /\
        (forall id', id' <> id ->
            fst (PostgresStorage.getFinancialGoal id' db')
            = fst (PostgresStorage.getFinancialGoal id' db))) /\
  (PartialFinancialGoal.is_empty updateData = true ->
   PostgresStorage.updateFinancialGoal id updateData db
   = (Throw NoValuesToSet, db)) /\
  (forall goal u,
      PostgresStorage.getFinancialGoal id db = (Ok (Some goal), db) ->
      PartialFinancialGoal.userId updateData = Some u ->
      u <> FinancialGoal.userId goal ->
      PostgresStorage.getUser u db = (Ok None, db) ->
      PostgresStorage.updateFinancialGoal id updateData db
      = (Throw (ForeignKeyViolation "financial_goals_user_id_fkey"), db)).
Proof.
  split; [|split; [|split]].
  - intros goal H.
    destruct (mem_update_existing id updateData st goal H)
      as (st' & Hu & Hg & Ho).
    exists (MemStorage.mergeGoal goal updateData), st'.
    split; [exact Hu | split; [|split; [exact Hg | exact Ho]]].
    apply mergeGoal_overwrites_present.
  - intros goal H He Hfk.
    destruct (pg_update_accepted id updateData db goal H He)
      as (db' & Hu & Hg & Ho & _);
      [apply names_existing_user, Hfk|].
    exists (Db.set_columns updateData goal), db'.
    split; [exact Hu | split; [|split; [exact Hg | exact Ho]]].
    apply set_columns_overwrites_present.
  - apply pg_update_no_values.
  - intros goal u. apply pg_update_missing_owner.
Qed.

Lemma C7_partial_merge_witness :
  (exists updated st',
      MemStorage.updateFinancialGoal 1 (only_title "X") (mem_after scenario)
      = (Ok (Some updated), st') /\
      overwrites_present stored_fund (only_title "X") updated /\
      MemStorage.getFinancialGoal 1 st' = (Ok (Some updated), st') /\
      (forall id', id' <> 1 ->
          fst (MemStorage.getFinancialGoal id' st')
          = fst (MemStorage.getFinancialGoal id' (mem_after scenario)))) /\
  (exists updated db',
      PostgresStorage.updateFinancialGoal 1 (only_title "X")
        (IStorage.run scenario registered)
      = (Ok (Some updated), db') /\
      overwrites_present stored_fund (only_title "X") updated /\
      PostgresStorage.getFinancialGoal 1 db' = (Ok (Some updated), db') /\
      (forall id', id' <> 1 ->
          fst (PostgresStorage.getFinancialGoal id' db')
          = fst (PostgresStorage.getFinancialGoal id'
                   (IStorage.run scenario registered)))).
Proof.
  split.
  - apply (proj1 (C7_partial_merge (mem_after scenario)
                    (IStorage.run scenario registered) 1 (only_title "X"))).
    reflexivity.
  - apply (proj1 (proj2 (C7_partial_merge (mem_after scenario)
                           (IStorage.run scenario registered) 1
                           (only_title "X"))));
      [reflexivity | reflexivity | discriminate].
Defined.

(** The goal of the scenario belongs to user 1, and no user has the id
    99.  [PostgresStorage.updateFinancialGoal(1, {userId: 99})] throws, and
    the field [userId], present in the update data, is not overwritten:
    the stored goal is the one of before.  On the empty update data the
    call throws as well, where [MemStorage] returns the goal. *)
Lemma C7_partial_merge_counterexample :
  PostgresStorage.getFinancialGoal 1 (IStorage.run scenario registered)
  = (Ok (Some stored_fund), IStorage.run scenario registered) /\
  PostgresStorage.updateFinancialGoal 1 (only_userId 99)
    (IStorage.run scenario registered)
  = (Throw (ForeignKeyViolation "financial_goals_user_id_fkey"),
     IStorage.run scenario registered) /\
  FinancialGoal.userId stored_fund = 1 /\
  PostgresStorage.updateFinancialGoal 1 PartialFinancialGoal.empty
    (IStorage.run scenario registered)
  = (Throw NoValuesToSet, IStorage.run scenario registered) /\
  fst (MemStorage.updateFinancialGoal 1 PartialFinancialGoal.empty
         (mem_after scenario))
  = Ok (Some stored_fund).
Proof. repeat split. Qed.

(** Updating only the title of the goal of the scenario: the title is new,
    every other field is as it was. *)
Example update_only_title :
  fst (MemStorage.updateFinancialGoal 1 (only_title "X") (mem_after scenario))
  = Ok (Some (FinancialGoal.mk 1 1 "X" 1000 0 None "savings" (Some 2000))) /\
  fst (PostgresStorage.updateFinancialGoal 1 (only_title "X")
         (IStorage.run scenario registered))
  = Ok (Some (FinancialGoal.mk 1 1 "X" 1000 0 None "savings" (Some 2000))).
Proof. split; reflexivity. Qed.

(** C10.  In both classes the goal an update returns and stores has the id
    of the goal it updated, and when the update data names a user the
    updated goal is owned by that user.  In [MemStorage] every update of
    an existing goal returns, so that for every existing goal there is
    update data after which the goal, under the same id, has another owner
    than before.  In [PostgresStorage] an update of an existing goal
    either returns and stores such a goal or throws and leaves the
    database as it was; it returns when the update data names a user that
    exists, so that a goal goes, under the same id, to any other user in
    the table [users]. *)
Theorem C10_update_keeps_id_not_owner (st : MemStorage.t) (db : Db.t)
  (id : Z) :
  (forall goal,
      MemStorage.getFinancialGoal id st = (Ok (Some goal), st) ->
      (forall updateData,
          exists updated st',
            MemStorage.updateFinancialGoal id updateData st
            = (Ok (Some updated), st') /\
            MemStorage.getFinancialGoal id st' = (Ok (Some updated), st') /\
            FinancialGoal.id updated = FinancialGoal.id goal /\
            (forall u, PartialFinancialGoal.userId updateData = Some u ->
                       FinancialGoal.userId updated = u)) /\
      (exists updateData updated st',
          MemStorage.updateFinancialGoal id updateData st
          = (Ok (Some updated), st') /\
          MemStorage.getFinancialGoal id st' = (Ok (Some updated), st') /\
          FinancialGoal.id updated = FinancialGoal.id goal /\
          FinancialGoal.userId updated <> FinancialGoal.userId goal)) /\
  (forall goal,
      PostgresStorage.getFinancialGoal id db = (Ok (Some goal), db) ->
      (forall updateData,
          (exists updated db',
              PostgresStorage.updateFinancialGoal id updateData db
              = (Ok (Some updated), db') /\
              PostgresStorage.getFinancialGoal id db'
              = (Ok (Some updated), db') /\
              FinancialGoal.id updated = FinancialGoal.id goal /\
              (forall u, PartialFinancialGoal.userId updateData = Some u ->
                         FinancialGoal.userId updated = u)) \/
          (exists e,
              PostgresStorage.updateFinancialGoal id updateData db
              = (Throw e, db))) /\
      (forall u user,
          PostgresStorage.getUser u db = (Ok (Some user), db) ->
          u <> FinancialGoal.userId goal ->
          exists updated db',
            PostgresStorage.updateFinancialGoal id (only_userId u) db
            = (Ok (Some updated), db') /\
            PostgresStorage.getFinancialGoal id db'
            = (Ok (Some updated), db') /\
            FinancialGoal.id updated = FinancialGoal.id goal /\
            FinancialGoal.userId updated = u /\
            FinancialGoal.userId updated <> FinancialGoal.userId goal)).
Proof.
  split; intros goal H; split.
  - intros updateData.
    destruct (mem_update_existing id updateData st goal H)
      as (st' & Hu & Hg & _).
    eexists _, st'. split; [exact Hu | split; [exact Hg|]].
    split; [reflexivity|]. intros u Hp. simpl. rewrite Hp. reflexivity.
  - destruct (mem_update_existing id
                (only_userId (FinancialGoal.userId goal + 1)) st goal H)
      as (st' & Hu & Hg & _).
    eexists _, _, st'. split; [exact Hu | split; [exact Hg|]].
    split; [reflexivity|]. simpl. lia.
  - intros updateData.
    destruct (PartialFinancialGoal.is_empty updateData) eqn:He;
      [right; eexists; apply pg_update_no_values, He|].
    destruct (Db.names_missing_user FinancialGoal.userId
                (PartialFinancialGoal.userId updateData)
                (filter (fun r => FinancialGoal.id r =? id)
                   (Db.financial_goals db)) db) eqn:Hfk.
    + right. eexists.
      unfold PostgresStorage.updateFinancialGoal, PostgresStorage.rethrow,
        Db.update_financial_goals.
      rewrite He, Hfk. reflexivity.
    + left.
      destruct (pg_update_accepted id updateData db goal H He Hfk)
        as (db' & Hu & Hg & _).
      eexists _, db'. split; [exact Hu | split; [exact Hg|]].
      split; [reflexivity|]. intros u Hp. simpl. rewrite Hp. reflexivity.
  - intros u user Huser Hne.
    destruct (pg_update_accepted id (only_userId u) db goal H eq_refl)
      as (db' & Hu & Hg & _).
    { apply names_existing_user. intros u0 [= <-]. exists user. exact Huser. }
    eexists _, db'. split; [exact Hu | split; [exact Hg|]].
    split; [reflexivity|]. simpl. split; [reflexivity | exact Hne].
Qed.

Lemma C10_update_keeps_id_not_owner_witness :
  (exists updateData updated st',
      MemStorage.updateFinancialGoal 1 updateData (mem_after two_users)
      = (Ok (Some updated), st') /\
      MemStorage.getFinancialGoal 1 st' = (Ok (Some updated), st') /\
      FinancialGoal.id updated = FinancialGoal.id stored_fund /\
      FinancialGoal.userId updated <> FinancialGoal.userId stored_fund) /\
  (exists updated db',
      PostgresStorage.updateFinancialGoal 1 (only_userId 2)
        (IStorage.run two_users registered)
      = (Ok (Some updated), db') /\
      PostgresStorage.getFinancialGoal 1 db' = (Ok (Some updated), db') /\
      FinancialGoal.id updated = FinancialGoal.id stored_fund /\
      FinancialGoal.userId updated = 2 /\
      FinancialGoal.userId updated <> FinancialGoal.userId stored_fund).
Proof.
  split.
  - apply (proj1 (C10_update_keeps_id_not_owner (mem_after two_users)
                    (IStorage.run two_users registered) 1) stored_fund).
    reflexivity.
  - refine (proj2 (proj2 (C10_update_keeps_id_not_owner (mem_after two_users)
                            (IStorage.run two_users registered) 1)
                     stored_fund _)
              2 (User.mk 2 "bob" "b@x.com" "h2" (Some 3000)) _ _);
      [reflexivity | reflexivity | discriminate].
Defined.

(** The goal of the scenario belongs to user 1, alice; updated with
    [{userId: 2}] it belongs to user 2, bob, under the same id.  In the
    relational class alice and bob are the users of the database. *)
Example update_moves_owner :
  fst (MemStorage.getFinancialGoal 1 (mem_after two_users))
  = Ok (Some stored_fund) /\
  fst (MemStorage.getUser 2 (mem_after two_users))
  = Ok (Some (User.mk 2 "bob" "b@x.com" "h2" (Some 3000))) /\
  fst (MemStorage.updateFinancialGoal 1 (only_userId 2) (mem_after two_users))
  = Ok (Some (FinancialGoal.mk 1 2 "Emergency Fund" 1000 0 None "savings"
                (Some 2000))) /\
  fst (PostgresStorage.getFinancialGoal 1 (IStorage.run two_users registered))
  = Ok (Some stored_fund) /\
  fst (PostgresStorage.getUser 2 (IStorage.run two_users registered))
  = Ok (Some (User.mk 2 "bob" "b@x.com" "h2" (Some 3000))) /\
  fst (PostgresStorage.updateFinancialGoal 1 (only_userId 2)
         (IStorage.run two_users registered))
  = Ok (Some (FinancialGoal.mk 1 2 "Emergency Fund" 1000 0 None "savings"
                (Some 2000))).
Proof. repeat split. Qed.

(** *** A deleted goal stays deleted *)

(** The counter of [MemStorage] has passed the id, so no later call of
    [createFinancialGoal] draws it again, and no other call stores a goal
    under an absent id. *)
Lemma mem_goal_gone_invoke (id : Z) (c : IStorage.call) (st : MemStorage.t) :
  id < MemStorage.goalIdCounter st ->
  JS.get id (MemStorage.financialGoals st) = None ->
  id < MemStorage.goalIdCounter (snd (IStorage.invoke c st)) /\
  JS.get id (MemStorage.financialGoals (snd (IStorage.invoke c st))) = None.
Proof.
  intros Hlt Hnone.
  mem_call_cases c; try (split; assumption).
  - (* createFinancialGoal *)
    split; [lia|]. rewrite get_set_other by lia. exact Hnone.
  - (* updateFinancialGoal of a goal that exists *)
    split; [exact Hlt|].
    rewrite get_set_other by congruence. exact Hnone.
  - (* deleteFinancialGoal *)
    split; [exact Hlt|].
    destruct (Z.eq_dec id id0) as [->|Hne].
    + apply (get_delete_same id0).
    + rewrite <- Hnone. apply (get_delete_other id0 id). exact Hne.
Qed.

Lemma mem_goal_gone_run (id : Z) (later : list IStorage.call)
  (st : MemStorage.t) :
  id < MemStorage.goalIdCounter st ->
  JS.get id (MemStorage.financialGoals st) = None ->
  JS.get id (MemStorage.financialGoals (IStorage.run later st)) = None.
Proof.
  revert st. induction later as [|c later IH]; intros st Hlt Hnone;
    [exact Hnone|].
  destruct (mem_goal_gone_invoke id c st Hlt Hnone) as [Hlt' Hnone'].
  apply IH; assumption.
Qed.

(** The same for the sequence of [financial_goals]. *)
Lemma filter_nil_filter {A : Type} (f g : A -> bool) (l : list A) :
  filter f l = [] -> filter f (filter g l) = [].
Proof.
  induction l as [|x l IH]; [reflexivity|]. simpl.
  destruct (f x) eqn:E; [discriminate|]. intros H.
  destruct (g x); simpl; [rewrite E|]; apply IH, H.
Qed.

Lemma filter_nil_map {A : Type} (p : A -> bool) (f : A -> A) (l : list A) :
  (forall x, p (f x) = p x) -> filter p l = [] -> filter p (map f l) = [].
Proof.
  intros Hf. induction l as [|x l IH]; [reflexivity|]. simpl.
  rewrite Hf. destruct (p x); [discriminate | exact IH].
Qed.

Lemma pg_goal_gone_invoke (id : Z) (c : IStorage.call) (db : Db.t) :
  id < Db.financial_goals_id_seq db -> no_row id db ->
  id < Db.financial_goals_id_seq (snd (IStorage.invoke c db)) /\
  no_row id (snd (IStorage.invoke c db)).
Proof.
  unfold no_row. intros Hlt Hnone.
  pg_call_cases c; try (split; [lia || assumption | assumption]).
  - (* createFinancialGoal *)
    split; [lia|]. rewrite filter_app, Hnone. simpl.
    destruct (Db.financial_goals_id_seq db =? id) eqn:E;
      [apply Z.eqb_eq in E; lia | reflexivity].
  - (* updateFinancialGoal *)
    split; [exact Hlt|]. rewrite filter_app.
    rewrite (filter_nil_filter _ _ _ Hnone). simpl.
    apply filter_nil_map; [reflexivity|].
    apply filter_nil_filter, Hnone.
  - (* deleteFinancialGoal *)
    split; [exact Hlt|]. apply filter_nil_filter, Hnone.
Qed.

Lemma pg_goal_gone_run (id : Z) (later : list IStorage.call) (db : Db.t) :
  id < Db.financial_goals_id_seq db -> no_row id db ->
  no_row id (IStorage.run later db).
Proof.
  revert db. induction later as [|c later IH]; intros db Hlt Hnone;
    [exact Hnone|].
  destruct (pg_goal_gone_invoke id c db Hlt Hnone) as [Hlt' Hnone'].
  apply IH; assumption.
Qed.

Lemma filter_negb_same {A : Type} (f : A -> bool) (l : list A) :
  filter f (filter (fun x => negb (f x)) l) = [].
Proof.
  induction l as [|x l IH]; [reflexivity|]. simpl.
  destruct (f x) eqn:E; simpl; [|rewrite E]; exact IH.
Qed.

Ltac keyed_by_computation :=
  split; vm_compute;
  repeat first
    [ apply NoDup_nil | apply Forall_nil
    | apply NoDup_cons; [simpl; intuition discriminate|]
    | apply Forall_cons; [reflexivity|] ].

(** The database in which alice and bob are registered satisfies the
    constraints, before and after the scenarios. *)
Lemma db_keyed_scenario : db_keyed (IStorage.run scenario registered).
Proof. keyed_by_computation. Qed.

(** C6.  In both classes [deleteFinancialGoal(id)] of a goal that exists
    returns [true]; from then on, whatever calls are made in between
    (creations of goals among them: none receives the id again),
    [getFinancialGoal(id)] returns not-found and [deleteFinancialGoal(id)]
    returns [false].  In [MemStorage] after any history; in
    [PostgresStorage] on every database whose ids are distinct and were
    drawn from the sequences of their tables. *)
Theorem C6_deletion_law (cs later : list IStorage.call) (db : Db.t)
  (id : Z) :
  (forall goal,
      MemStorage.getFinancialGoal id (mem_after cs)
      = (Ok (Some goal), mem_after cs) ->
      exists st1,
        MemStorage.deleteFinancialGoal id (mem_after cs) = (Ok true, st1) /\
        MemStorage.getFinancialGoal id (IStorage.run later st1)
        = (Ok None, IStorage.run later st1) /\
        MemStorage.deleteFinancialGoal id (IStorage.run later st1)
        = (Ok false, IStorage.run later st1)) /\
  (forall goal,
      db_keyed db ->
      PostgresStorage.getFinancialGoal id db = (Ok (Some goal), db) ->
      exists db1,
        PostgresStorage.deleteFinancialGoal id db = (Ok true, db1) /\
        PostgresStorage.getFinancialGoal id (IStorage.run later db1)
        = (Ok None, IStorage.run later db1) /\
        PostgresStorage.deleteFinancialGoal id (IStorage.run later db1)
        = (Ok false, IStorage.run later db1)).
Proof.
  split.
  - intros goal H.
    unfold MemStorage.getFinancialGoal in H. injection H as H.
    eexists. split.
    + unfold MemStorage.deleteFinancialGoal, JS.delete.
      replace (JS.has id (MemStorage.financialGoals (mem_after cs)))
        with true by (symmetry; apply has_get; congruence).
      reflexivity.
    + match goal with |- context [IStorage.run later ?s] => set (st1 := s) end.
      assert (JS.get id (MemStorage.financialGoals (IStorage.run later st1))
              = None) as Hgone.
      { apply mem_goal_gone_run.
        - destruct (mem_invariant_after cs) as [_ _ _ _ Hk].
          rewrite Forall_forall in Hk. apply Hk. eapply get_In_keys, H.
        - apply (get_delete_same id). }
      split.
      * unfold MemStorage.getFinancialGoal. rewrite Hgone. reflexivity.
      * unfold MemStorage.deleteFinancialGoal.
        rewrite (delete_absent _ _ Hgone).
        destruct (IStorage.run later st1); reflexivity.
  - intros goal Hkeyed H.
    unfold PostgresStorage.getFinancialGoal, PostgresStorage.rethrow,
      Db.select_where in H.
    injection H as H.
    eexists. split.
    + unfold PostgresStorage.deleteFinancialGoal, PostgresStorage.rethrow,
        Db.delete_financial_goals.
      destruct (filter _ (Db.financial_goals db)) eqn:E;
        [discriminate|].
      reflexivity.
    + match goal with |- context [IStorage.run later ?s] => set (db1 := s) end.
      assert (no_row id (IStorage.run later db1)) as Hgone.
      { apply pg_goal_gone_run.
        - pose proof (goal_ids_in_seq _ Hkeyed) as Hk.
          rewrite Forall_forall in Hk. simpl.
          apply first_In, filter_In in H. destruct H as [Hin Hid].
          apply Z.eqb_eq in Hid. rewrite <- Hid. apply Hk, Hin.
        - unfold no_row. simpl.
          apply (filter_negb_same (fun g => FinancialGoal.id g =? id)). }
      unfold no_row in Hgone. split.
      * unfold PostgresStorage.getFinancialGoal, PostgresStorage.rethrow,
          Db.select_where.
        rewrite Hgone. reflexivity.
      * unfold PostgresStorage.deleteFinancialGoal, PostgresStorage.rethrow,
          Db.delete_financial_goals.
        rewrite Hgone. simpl. f_equal.
        replace (filter _ (Db.financial_goals (IStorage.run later db1)))
          with (Db.financial_goals (IStorage.run later db1)).
        -- unfold Db.with_financial_goals.
           destruct (IStorage.run later db1); reflexivity.
        -- symmetry. clear - Hgone.
           induction (Db.financial_goals (IStorage.run later db1))
             as [|g goals IH]; [reflexivity|].
           simpl in *. destruct (FinancialGoal.id g =? id); [discriminate|].
           simpl. f_equal. apply IH, Hgone.
Qed.

Lemma C6_deletion_law_witness :
  (exists st1,
      MemStorage.deleteFinancialGoal 1 (mem_after scenario) = (Ok true, st1) /\
      MemStorage.getFinancialGoal 1
        (IStorage.run [IStorage.CreateFinancialGoal emergency_fund 3000] st1)
      = (Ok None,
         IStorage.run [IStorage.CreateFinancialGoal emergency_fund 3000] st1) /\
      MemStorage.deleteFinancialGoal 1
        (IStorage.run [IStorage.CreateFinancialGoal emergency_fund 3000] st1)
      = (Ok false,
         IStorage.run [IStorage.CreateFinancialGoal emergency_fund 3000] st1))
  /\
  db_keyed (IStorage.run scenario registered) /\
  (exists db1,
      PostgresStorage.deleteFinancialGoal 1 (IStorage.run scenario registered)
      = (Ok true, db1) /\
      PostgresStorage.getFinancialGoal 1
        (IStorage.run [IStorage.CreateFinancialGoal emergency_fund 3000] db1)
      = (Ok None,
         IStorage.run [IStorage.CreateFinancialGoal emergency_fund 3000] db1) /\
      PostgresStorage.deleteFinancialGoal 1
        (IStorage.run [IStorage.CreateFinancialGoal emergency_fund 3000] db1)
      = (Ok false,
         IStorage.run [IStorage.CreateFinancialGoal emergency_fund 3000] db1)).
Proof.
  split; [|split; [exact db_keyed_scenario|]].
  - apply (proj1 (C6_deletion_law scenario
                    [IStorage.CreateFinancialGoal emergency_fund 3000]
                    (IStorage.run scenario registered) 1)
             stored_fund).
    reflexivity.
  - apply (proj2 (C6_deletion_law scenario
                    [IStorage.CreateFinancialGoal emergency_fund 3000]
                    (IStorage.run scenario registered) 1)
             stored_fund);
      [exact db_keyed_scenario | reflexivity].
Defined.

(** The goal created after the deletion of goal 1 is goal 2. *)
Example id_not_drawn_again :
  fst (MemStorage.createFinancialGoal emergency_fund 3000
         (IStorage.run [IStorage.DeleteFinancialGoal 1] (mem_after scenario)))
  = Ok (FinancialGoal.mk 2 1 "Emergency Fund" 1000 0 None "savings"
          (Some 3000)) /\
  fst (PostgresStorage.createFinancialGoal emergency_fund 3000
         (IStorage.run [IStorage.DeleteFinancialGoal 1]
            (IStorage.run scenario registered)))
  = Ok (FinancialGoal.mk 2 1 "Emergency Fund" 1000 0 None "savings"
          (Some 3000)).
Proof. split; reflexivity. Qed.

(** ** MemStorage never throws *)

Lemma mem_byCreatedAt_key (a b : FinancialGoal.t) :
  FinancialGoal.createdAt a <> None -> FinancialGoal.createdAt b <> None ->
  MemStorage.byCreatedAt a b = Ok (goalKey a - goalKey b).
Proof.
  unfold MemStorage.byCreatedAt, goalKey.
  destruct (FinancialGoal.createdAt a), (FinancialGoal.createdAt b);
    simpl; congruence.
Qed.

Lemma mem_getFinancialGoals_eq (userId : Z) (st : MemStorage.t) :
  mem_invariant st ->
  MemStorage.getFinancialGoals userId st
  = (Ok (stable_sort_by goalKey
           (goalsOf userId (JS.values (MemStorage.financialGoals st)))), st).
Proof.
  intros [_ Hg _ _ _]. unfold MemStorage.getFinancialGoals.
  rewrite (sort_by_key goalKey); [reflexivity|].
  intros a b Ha Hb. apply filter_In in Ha, Hb.
  rewrite Forall_forall in Hg.
  apply mem_byCreatedAt_key; apply Hg; tauto.
Qed.

Lemma mem_invoke_no_throw (c : IStorage.call) (st : MemStorage.t) :
  mem_invariant st -> fst (IStorage.invoke c st) = None.
Proof.
  intros Hinv. destruct c; unfold IStorage.invoke;
    try (simpl; reflexivity).
  - (* updateFinancialProfile *)
    simpl.
    unfold MemStorage.updateFinancialProfile, MemStorage.getFinancialProfile.
    destruct (JS.find _ _); reflexivity.
  - (* getChatMessages *)
    change (IStorage.getChatMessages userId limit st)
      with (MemStorage.getChatMessages userId limit st).
    rewrite mem_getChatMessages_eq by exact Hinv. reflexivity.
  - (* getFinancialGoals *)
    change (IStorage.getFinancialGoals userId st)
      with (MemStorage.getFinancialGoals userId st).
    rewrite mem_getFinancialGoals_eq by exact Hinv. reflexivity.
  - (* updateFinancialGoal *)
    simpl.
    unfold MemStorage.updateFinancialGoal, MemStorage.getFinancialGoal.
    destruct (JS.get _ _); reflexivity.
Qed.

Lemma find_absent {A : Type} (p : A -> bool) (l : list A) :
  (forall x, In x l -> p x = false) -> JS.find p l = None.
Proof.
  unfold JS.find. induction l as [|x l IH]; intros H; [reflexivity|].
  simpl. rewrite (H x (or_introl eq_refl)).
  apply IH. intros y Hy. apply H. right. exact Hy.
Qed.

Lemma In_values_set {V : Type} (k : Z) (v v' : V) (m : JS.Map V) :
  In v' (JS.values (JS.set k v m)) -> v' = v \/ In v' (JS.values m).
Proof.
  induction m as [|[k0 v0] m IH]; simpl.
  - intros [H|[]]. left. congruence.
  - destruct (k0 =? k); simpl.
    + intros [H|H]; [left; congruence | right; right; exact H].
    + intros [H|H]; [right; left; exact H|].
      destruct (IH H) as [H'|H']; [left; exact H' | right; right; exact H'].
Qed.

(** A user stored after a call was stored before it, or the call is the
    [createUser] that was given the user's fields. *)
Lemma mem_users_invoke (c : IStorage.call) (st : MemStorage.t)
  (user : User.t) :
  In user (JS.values (MemStorage.users (snd (IStorage.invoke c st)))) ->
  In user (JS.values (MemStorage.users st)) \/
  exists insertUser now,
    c = IStorage.CreateUser insertUser now /\ carries_input insertUser user.
Proof.
  mem_call_cases c; try (intros H; left; exact H).
  intros H. apply In_values_set in H.
  destruct H as [->|H]; [right | left; exact H].
  eexists _, _. split; [reflexivity | repeat split].
Qed.

(** Every stored user was the input of a call of [createUser]. *)
Lemma mem_users_created (cs : list IStorage.call) (user : User.t) :
  In user (JS.values (MemStorage.users (mem_after cs))) ->
  exists insertUser now,
    In (IStorage.CreateUser insertUser now) cs /\
    carries_input insertUser user.
Proof.
  unfold mem_after. revert user.
  induction cs as [|c cs IH] using rev_ind; intros user Hin; [destruct Hin|].
  rewrite run_app in Hin. simpl in Hin.
  apply mem_users_invoke in Hin.
  destruct Hin as [Hin|(d & now & -> & Hc)].
  - destruct (IH user Hin) as (d & now & Hd & Hc).
    exists d, now. split; [apply in_or_app; left; exact Hd | exact Hc].
  - exists d, now. split; [|exact Hc].
    apply in_or_app. right. left. reflexivity.
Qed.

Lemma existsb_absent {A : Type} (p : A -> bool) (l : list A) :
  (forall x, In x l -> p x = false) -> existsb p l = false.
Proof.
  induction l as [|x l IH]; intros H; [reflexivity|]. simpl.
  rewrite (H x (or_introl eq_refl)). apply IH.
  intros y Hy. apply H. right. exact Hy.
Qed.

(** In [PostgresStorage] too, after any history of calls on an empty
    database, the lookup by a username or an email that no call of
    [createUser] was given returns not-found and throws nothing. *)
Theorem pg_lookup_never_created (cs : list IStorage.call) :
  (forall username,
      (forall insertUser now,
          In (IStorage.CreateUser insertUser now) cs ->
          InsertUser.username insertUser <> username) ->
      PostgresStorage.getUserByUsername username (db_after cs)
      = (Ok None, db_after cs)) /\
  (forall email,
      (forall insertUser now,
          In (IStorage.CreateUser insertUser now) cs ->
          InsertUser.email insertUser <> email) ->
      PostgresStorage.getUserByEmail email (db_after cs)
      = (Ok None, db_after cs)).
Proof.
  assert (Db.users (db_after cs) = []) as Hu
    by (unfold db_after; apply pg_users_run).
  split.
  - intros username _.
    unfold PostgresStorage.getUserByUsername, PostgresStorage.rethrow.
    rewrite Hu. reflexivity.
  - intros email _.
    unfold PostgresStorage.getUserByEmail, PostgresStorage.rethrow.
    rewrite Hu. reflexivity.
Qed.

Lemma slice_nil {A : Type} (start : Z) : JS.slice start (@nil A) = [].
Proof. unfold JS.slice. apply skipn_nil. Qed.

(** C8.  After any history of calls on a fresh [MemStorage], no call of
    any method with any arguments throws.  Absence is a value: a lookup by
    an id that is no key, by a username or an email that no call of
    [createUser] was given, or of the profile of a user who has none,
    returns [undefined]; [deleteFinancialGoal] of an id that has no goal
    returns [false] and changes nothing; the listings of a user without
    messages or goals are empty. *)
Theorem C8_mem_never_throws (cs : list IStorage.call) :
  (forall c, fst (IStorage.invoke c (mem_after cs)) = None) /\
  (forall id,
      ~ In id (JS.keys (MemStorage.users (mem_after cs))) ->
      MemStorage.getUser id (mem_after cs) = (Ok None, mem_after cs)) /\
  (forall username,
      (forall insertUser now,
          In (IStorage.CreateUser insertUser now) cs ->
          InsertUser.username insertUser <> username) ->
      MemStorage.getUserByUsername username (mem_after cs)
      = (Ok None, mem_after cs)) /\
  (forall email,
      (forall insertUser now,
          In (IStorage.CreateUser insertUser now) cs ->
          InsertUser.email insertUser <> email) ->
      MemStorage.getUserByEmail email (mem_after cs)
      = (Ok None, mem_after cs)) /\
  (forall userId,
      (forall profile,
          In profile (JS.values (MemStorage.financialProfiles (mem_after cs)))
          -> FinancialProfile.userId profile <> userId) ->
      MemStorage.getFinancialProfile userId (mem_after cs)
      = (Ok None, mem_after cs)) /\
  (forall id,
      MemStorage.getFinancialGoal id (mem_after cs)
      = (Ok None, mem_after cs) ->
      MemStorage.deleteFinancialGoal id (mem_after cs)
      = (Ok false, mem_after cs)) /\
  (forall userId limit,
      mem_inserted userId (mem_after cs) = [] ->
      MemStorage.getChatMessages userId limit (mem_after cs)
      = (Ok [], mem_after cs)) /\
  (forall userId,
      goalsOf userId (JS.values (MemStorage.financialGoals (mem_after cs)))
      = [] ->
      MemStorage.getFinancialGoals userId (mem_after cs)
      = (Ok [], mem_after cs)).
Proof.
  pose proof (mem_invariant_after cs) as Hinv.
  split; [intros c; apply mem_invoke_no_throw, Hinv|].
  split; [intros id H; unfold MemStorage.getUser;
          apply get_None_keys in H; rewrite H; reflexivity|].
  split; [|split; [|split; [|split; [|split]]]].
  - intros username H. unfold MemStorage.getUserByUsername.
    rewrite find_absent; [reflexivity|].
    intros user Hu. apply String.eqb_neq.
    destruct (mem_users_created cs user Hu) as (d & now & Hd & Hc & _).
    rewrite Hc. eapply H, Hd.
  - intros email H. unfold MemStorage.getUserByEmail.
    rewrite find_absent; [reflexivity|].
    intros user Hu. apply String.eqb_neq.
    destruct (mem_users_created cs user Hu) as (d & now & Hd & _ & Hc & _).
    rewrite Hc. eapply H, Hd.
  - intros userId H. unfold MemStorage.getFinancialProfile.
    rewrite find_absent; [reflexivity|].
    intros profile Hp. apply Z.eqb_neq, H, Hp.
  - intros id H. unfold MemStorage.getFinancialGoal in H. injection H as H.
    unfold MemStorage.deleteFinancialGoal. rewrite (delete_absent _ _ H).
    destruct (mem_after cs); reflexivity.
  - intros userId limit H.
    rewrite mem_getChatMessages_eq by exact Hinv. rewrite H. simpl.
    unfold mem_limited. destruct limit as [n|]; [|reflexivity].
    destruct (JS.truthy n); [rewrite slice_nil|]; reflexivity.
  - intros userId H.
    rewrite mem_getFinancialGoals_eq by exact Hinv. rewrite H. reflexivity.
Qed.

(** ** The scenario of section 8 of the specification *)

(** In [MemStorage] the scenario runs as the specification tells it.  In
    [PostgresStorage] its first step throws; on the database in which
    alice is registered the other steps run as told. *)
Example concrete_scenario :
  fst (MemStorage.createUser alice 1000 MemStorage.constructor)
  = Ok (User.mk 1 "alice" "a@x.com" "h1" (Some 1000)) /\
  fst (MemStorage.getFinancialGoal 1 (mem_after scenario))
  = Ok (Some stored_fund) /\
  fst (MemStorage.updateFinancialGoal 1
         (PartialFinancialGoal.mk None None None (Some 500) None None)
         (mem_after scenario))
  = Ok (Some (FinancialGoal.mk 1 1 "Emergency Fund" 1000 500 None "savings"
                (Some 2000))) /\
  fst (MemStorage.deleteFinancialGoal 1 (mem_after scenario)) = Ok true /\
  fst (MemStorage.getFinancialGoal 1
         (mem_after (scenario ++ [IStorage.DeleteFinancialGoal 1])))
  = Ok None /\
  fst (PostgresStorage.createUser alice 1000 Db.initial)
  = Throw (NotNullViolation "password_hash") /\
  fst (PostgresStorage.getFinancialGoal 1 (IStorage.run scenario registered))
  = Ok (Some stored_fund) /\
  fst (PostgresStorage.updateFinancialGoal 1
         (PartialFinancialGoal.mk None None None (Some 500) None None)
         (IStorage.run scenario registered))
  = Ok (Some (FinancialGoal.mk 1 1 "Emergency Fund" 1000 500 None "savings"
                (Some 2000))) /\
  fst (PostgresStorage.deleteFinancialGoal 1
         (IStorage.run scenario registered))
  = Ok true /\
  fst (PostgresStorage.getFinancialGoal 1
         (IStorage.run (scenario ++ [IStorage.DeleteFinancialGoal 1])
            registered))
  = Ok None.
Proof. repeat split. Qed.

(** * Further properties of the storage layer *)

(** ** Keys, ids and sequences *)

Lemma entries_set_Forall {V : Type} (P : Z * V -> Prop) (k : Z) (v : V)
  (m : JS.Map V) :
  P (k, v) -> Forall P m -> Forall P (JS.set k v m).
Proof.
  intros Hv. induction m as [|[k' v'] m IH]; simpl; intros H.
  - constructor; [exact Hv | constructor].
  - inversion H; subst. destruct (k' =? k); constructor; auto.
Qed.

Lemma In_values_entry {V : Type} (v : V) (m : JS.Map V) :
  In v (JS.values m) -> exists k, In (k, v) m.
Proof.
  unfold JS.values. intros H. apply in_map_iff in H.
  destruct H as ([k v'] & Hv & Hin). simpl in Hv. subst v'.
  exists k. exact Hin.
Qed.

Lemma get_In_entry {V : Type} (k : Z) (v : V) (m : JS.Map V) :
  JS.get k m = Some v -> In (k, v) m.
Proof.
  induction m as [|[k' v'] m IH]; simpl; [discriminate|].
  destruct (k' =? k) eqn:E.
  - apply Z.eqb_eq in E. intros [= ->]. left. congruence.
  - intros H. right. apply IH, H.
Qed.

Lemma find_In {A : Type} (p : A -> bool) (l : list A) (x : A) :
  JS.find p l = Some x -> In x l /\ p x = true.
Proof. unfold JS.find. apply find_some. Qed.

Lemma mem_getChatMessages_snd (userId : Z) (limit : option Z)
  (st : MemStorage.t) :
  snd (MemStorage.getChatMessages userId limit st) = st.
Proof.
  unfold MemStorage.getChatMessages.
  destruct (JS.sort _ _); [destruct limit as [n|];
    [destruct (JS.truthy n)|]|]; reflexivity.
Qed.

Lemma mem_updateFinancialProfile_keyed (userId : Z)
  (updateData : PartialFinancialProfile.t) (now : Z) (st : MemStorage.t) :
  mem_keyed st ->
  mem_keyed (snd (MemStorage.updateFinancialProfile userId updateData now st)).
Proof.
  intros [Hu Hp Hm Hg Hpk].
  unfold MemStorage.updateFinancialProfile, MemStorage.getFinancialProfile.
  destruct (JS.find _ _) as [existing|] eqn:E; simpl;
    [|split; assumption].
  split; simpl; try assumption.
  - apply entries_set_Forall; [reflexivity | exact Hp].
  - apply keys_set_Forall; [|exact Hpk].
    apply find_In in E. destruct E as [E _].
    apply In_values_entry in E. destruct E as [k Hin].
    rewrite Forall_forall in Hp, Hpk.
    pose proof (Hp _ Hin) as Hk. simpl in Hk. rewrite Hk. apply Hpk.
    unfold JS.keys. apply in_map_iff. exists (k, existing). tauto.
Qed.

Lemma mem_updateFinancialGoal_keyed (id : Z)
  (updateData : PartialFinancialGoal.t) (st : MemStorage.t) :
  mem_keyed st ->
  mem_keyed (snd (MemStorage.updateFinancialGoal id updateData st)).
Proof.
  intros [Hu Hp Hm Hg Hpk].
  unfold MemStorage.updateFinancialGoal, MemStorage.getFinancialGoal.
  destruct (JS.get id _) as [existing|] eqn:E; simpl; [|split; assumption].
  split; simpl; try assumption.
  apply entries_set_Forall; [|exact Hg]. simpl.
  apply get_In_entry in E. rewrite Forall_forall in Hg. apply (Hg _ E).
Qed.

Lemma mem_keyed_invoke (c : IStorage.call) (st : MemStorage.t) :
  mem_keyed st -> mem_keyed (snd (IStorage.invoke c st)).
Proof.
  intros H.
  destruct c; unfold IStorage.invoke; rewrite snd_outcome; simpl;
    try exact H;
    try (apply mem_updateFinancialProfile_keyed; exact H);
    try (apply mem_updateFinancialGoal_keyed; exact H);
    try (rewrite mem_getChatMessages_snd; exact H);
    destruct H as [Hu Hp Hm Hg Hpk]; split; simpl; try assumption;
    try (apply entries_set_Forall; [reflexivity | assumption]).
  - (* createFinancialProfile *)
    apply keys_set_Forall; [lia | apply Forall_below_succ, Hpk].
  - (* deleteFinancialGoal *)
    apply Forall_filter_keep, Hg.
Qed.

Lemma mem_keyed_after (cs : list IStorage.call) : mem_keyed (mem_after cs).
Proof.
  unfold mem_after. induction cs as [|c cs IH] using rev_ind.
  - split; constructor.
  - rewrite run_app. simpl. apply mem_keyed_invoke, IH.
Qed.

Lemma NoDup_snoc {A : Type} (l : list A) (x : A) :
  NoDup l -> ~ In x l -> NoDup (l ++ [x]).
Proof.
  intros Hl Hx. apply NoDup_rev in Hl. rewrite <- (rev_involutive (l ++ [x])).
  apply NoDup_rev. rewrite rev_app_distr. simpl.
  constructor; [|exact Hl]. rewrite <- in_rev. exact Hx.
Qed.

Lemma NoDup_filter_map {R : Type} (ident : R -> Z) (keep : R -> bool)
  (rows : list R) :
  NoDup (map ident rows) -> NoDup (map ident (filter keep rows)).
Proof.
  intros Hnd. induction rows as [|r rows IH]; [apply NoDup_nil|].
  simpl in Hnd. apply NoDup_cons_iff in Hnd. destruct Hnd as [Hfresh Hnd].
  simpl. destruct (keep r); [|apply IH, Hnd].
  simpl. apply NoDup_cons; [|apply IH, Hnd].
  rewrite in_map_iff. intros (r' & Hid & Hin).
  apply filter_In in Hin. apply Hfresh, in_map_iff. exists r'. tauto.
Qed.

Lemma below_not_In {A : Type} (f : A -> Z) (n : Z) (l : list A) :
  Forall (fun x => f x < n) l -> ~ In n (map f l).
Proof.
  intros H Hin. apply in_map_iff in Hin. destruct Hin as (x & Hx & Hin).
  rewrite Forall_forall in H. specialize (H x Hin). lia.
Qed.

Lemma db_keyed_initial : db_keyed Db.initial.
Proof. split; constructor. Qed.

Lemma db_keyed_invoke (c : IStorage.call) (db : Db.t) :
  db_keyed db -> db_keyed (snd (IStorage.invoke c db)).
Proof.
  intros [Hu Hn He Hp Hm Hg Hus Hps Hms Hgs].
  pg_call_cases c; split; simpl;
    try assumption;
    try (apply Forall_lt_succ; assumption);
    try (apply NoDup_rewritten; [reflexivity | assumption]);
    try (apply Forall_rewritten; [intros r Hr; exact Hr | assumption]);
    try (apply NoDup_filter_map; assumption);
    try (apply Forall_filter_keep; assumption);
    rewrite ?map_app; simpl;
    try (apply NoDup_snoc; [assumption | apply below_not_In; assumption]);
    try (apply Forall_snoc; [apply Forall_lt_succ; assumption | simpl; lia]).
Qed.

Lemma db_keyed_run (cs : list IStorage.call) (db : Db.t) :
  db_keyed db -> db_keyed (IStorage.run cs db).
Proof.
  revert db. induction cs as [|c cs IH]; intros db H; [exact H|].
  apply IH, db_keyed_invoke, H.
Qed.

(** An insert for a user that exists, into a table whose ids were drawn
    from its sequence, is accepted: the row gets the next id and is
    written behind the rows of the table. *)
Lemma existsb_below {A : Type} (ident : A -> Z) (n : Z) (l : list A) :
  Forall (fun r => ident r < n) l ->
  existsb (fun r => ident r =? n) l = false.
Proof.
  intros H. apply existsb_absent. intros r Hr. apply Z.eqb_neq.
  rewrite Forall_forall in H. specialize (H r Hr). lia.
Qed.

Lemma filter_below {A : Type} (ident : A -> Z) (n : Z) (l : list A) :
  Forall (fun r => ident r < n) l ->
  filter (fun r => ident r =? n) l = [].
Proof.
  induction 1 as [|r l Hr _ IH]; [reflexivity|]. simpl.
  replace (ident r =? n) with false by (symmetry; apply Z.eqb_neq; lia).
  exact IH.
Qed.

Lemma pg_createFinancialProfile_accepted (insertProfile : InsertFinancialProfile.t)
  (now : Z) (db : Db.t) (user : User.t) :
  db_keyed db ->
  PostgresStorage.getUser (InsertFinancialProfile.userId insertProfile) db
  = (Ok (Some user), db) ->
  exists profile,
    PostgresStorage.createFinancialProfile insertProfile now db
    = (Ok profile,
       Db.with_financial_profiles db (Db.financial_profiles db ++ [profile])
         (Db.financial_profiles_id_seq db + 1)) /\
    carries_profile insertProfile profile /\
    FinancialProfile.id profile = Db.financial_profiles_id_seq db /\
    FinancialProfile.updatedAt profile = Some now.
Proof.
  intros Hkeyed Huser.
  unfold PostgresStorage.createFinancialProfile, PostgresStorage.rethrow,
    Db.insert_financial_profiles.
  rewrite (existsb_below FinancialProfile.id)
    by apply (profile_ids_in_seq _ Hkeyed).
  replace (Db.references_users _ db) with true
    by (symmetry; apply pg_references_getUser; exists user; exact Huser).
  simpl. eexists. split; [reflexivity|]. repeat split.
Qed.

Lemma pg_createChatMessage_accepted (insertMessage : InsertChatMessage.t)
  (now : Z) (db : Db.t) (user : User.t) :
  db_keyed db ->
  PostgresStorage.getUser (InsertChatMessage.userId insertMessage) db
  = (Ok (Some user), db) ->
  PostgresStorage.createChatMessage insertMessage now db
  = (Ok (ChatMessage.mk (Db.chat_messages_id_seq db)
           (InsertChatMessage.userId insertMessage)
           (InsertChatMessage.message insertMessage)
           (InsertChatMessage.isUserMessage insertMessage) (Some now)),
     Db.with_chat_messages db
       (Db.chat_messages db
        ++ [ChatMessage.mk (Db.chat_messages_id_seq db)
              (InsertChatMessage.userId insertMessage)
              (InsertChatMessage.message insertMessage)
              (InsertChatMessage.isUserMessage insertMessage) (Some now)])
       (Db.chat_messages_id_seq db + 1)).
Proof.
  intros Hkeyed Huser.
  unfold PostgresStorage.createChatMessage, PostgresStorage.rethrow,
    Db.insert_chat_messages.
  rewrite (existsb_below ChatMessage.id)
    by apply (message_ids_in_seq _ Hkeyed).
  replace (Db.references_users _ db) with true
    by (symmetry; apply pg_references_getUser; exists user; exact Huser).
  reflexivity.
Qed.

Lemma pg_createFinancialGoal_accepted (insertGoal : InsertFinancialGoal.t)
  (now : Z) (db : Db.t) (user : User.t) :
  db_keyed db ->
  PostgresStorage.getUser (InsertFinancialGoal.userId insertGoal) db
  = (Ok (Some user), db) ->
  exists goal,
    PostgresStorage.createFinancialGoal insertGoal now db
    = (Ok goal,
       Db.with_financial_goals db (Db.financial_goals db ++ [goal])
         (Db.financial_goals_id_seq db + 1)) /\
    carries_goal insertGoal goal /\
    FinancialGoal.id goal = Db.financial_goals_id_seq db /\
    FinancialGoal.createdAt goal = Some now.
Proof.
  intros Hkeyed Huser.
  unfold PostgresStorage.createFinancialGoal, PostgresStorage.rethrow,
    Db.insert_financial_goals.
  rewrite (existsb_below FinancialGoal.id)
    by apply (goal_ids_in_seq _ Hkeyed).
  replace (Db.references_users _ db) with true
    by (symmetry; apply pg_references_getUser; exists user; exact Huser).
  simpl. eexists. split; [reflexivity|]. repeat split.
Qed.

Lemma db_keyed_registered : db_keyed registered.
Proof. keyed_by_computation. Qed.

Lemma db_keyed_chat : db_keyed (IStorage.run chat registered).
Proof. keyed_by_computation. Qed.

(** The owner an accepted [UPDATE] gives a row is the id of a user when
    the owner the row had is. *)
Lemma owner_after_update {R : Type} (owner : R -> Z) (f : R -> R)
  (u : option Z) (hits : list R) (db : Db.t) :
  (forall r, owner (f r) = spread (owner r) u) ->
  Db.names_missing_user owner u hits db = false ->
  Forall (fun r => Db.references_users (owner r) db = true) hits ->
  Forall (fun r => Db.references_users (owner r) db = true) (map f hits).
Proof.
  intros Hf Hfk Hhits. apply Forall_map.
  rewrite Forall_forall in *. intros r Hr. rewrite Hf.
  destruct u as [u0|]; simpl; [|apply Hhits, Hr].
  destruct (owner r =? u0) eqn:E.
  - apply Z.eqb_eq in E. rewrite <- E. apply Hhits, Hr.
  - simpl in Hfk. apply andb_false_iff in Hfk. destruct Hfk as [Hfk|Hfk].
    + assert (existsb (fun r' => negb (owner r' =? u0)) hits = true) as Ht
        by (apply existsb_exists; exists r; split; [exact Hr|];
            rewrite E; reflexivity).
      congruence.
    + apply negb_false_iff, Hfk.
Qed.

Lemma references_users_invoke (c : IStorage.call) (db : Db.t) (u : Z) :
  Db.references_users u (snd (IStorage.invoke c db))
  = Db.references_users u db.
Proof. unfold Db.references_users. rewrite pg_users_invoke. reflexivity. Qed.

Ltac insert_was_checked :=
  match goal with
  | H : negb _ = false |- _ => apply negb_false_iff in H; exact H
  end.

Lemma db_owned_invoke (c : IStorage.call) (db : Db.t) :
  db_owned db -> db_owned (snd (IStorage.invoke c db)).
Proof.
  intros [Hp Hm Hg].
  split;
    (eapply Forall_impl;
     [intros r Hr; rewrite references_users_invoke; exact Hr|]).
  - (* financial_profiles *)
    pg_call_cases c; try assumption.
    + apply Forall_snoc; [exact Hp | simpl; insert_was_checked].
    + apply Forall_app. split; [apply Forall_filter_keep, Hp|].
      eapply (owner_after_update FinancialProfile.userId);
        [intros r; reflexivity | eassumption | apply Forall_filter_keep, Hp].
  - (* chat_messages *)
    pg_call_cases c; try assumption.
    apply Forall_snoc; [exact Hm | simpl; insert_was_checked].
  - (* financial_goals *)
    pg_call_cases c; try assumption;
      try (apply Forall_filter_keep; assumption).
    + apply Forall_snoc; [exact Hg | simpl; insert_was_checked].
    + apply Forall_app. split; [apply Forall_filter_keep, Hg|].
      eapply (owner_after_update FinancialGoal.userId);
        [intros r; reflexivity | eassumption | apply Forall_filter_keep, Hg].
Qed.

(** [PostgresStorage] keeps the constraints of server/db.ts.  On a
    database whose ids are distinct and were drawn from the sequences,
    whose usernames and emails are unique and whose profiles, messages
    and goals all have an owner in [users], the database after any calls
    of the interface, those that throw among them, is again such a
    database. *)
Theorem pg_keeps_constraints (cs : list IStorage.call) (db : Db.t) :
  db_keyed db -> db_owned db ->
  db_keyed (IStorage.run cs db) /\ db_owned (IStorage.run cs db).
Proof.
  intros Hkeyed Howned. split; [apply db_keyed_run, Hkeyed|].
  revert db Hkeyed Howned.
  induction cs as [|c cs IH]; intros db Hkeyed Howned; [exact Howned|].
  apply IH; [apply db_keyed_invoke, Hkeyed | apply db_owned_invoke, Howned].
Qed.

Lemma pg_keeps_constraints_witness :
  db_keyed registered /\ db_owned registered /\
  db_keyed (IStorage.run three_goals_one_updated registered) /\
  db_owned (IStorage.run three_goals_one_updated registered).
Proof.
  assert (db_owned registered) as Howned by (split; constructor).
  split; [exact db_keyed_registered|]. split; [exact Howned|].
  exact (pg_keeps_constraints three_goals_one_updated registered
           db_keyed_registered Howned).
Defined.

(** ** Listings *)

(** [getFinancialGoals(userId)] returns exactly the goals of the user in
    non-decreasing order of their creation time.  In [MemStorage], after
    any history of calls, every goal has its creation time and goals
    created at the same time stand in the order of their creation.  In
    [PostgresStorage], on every content of the table, a missing creation
    time is read as 0 and goals that compare equal stand in the order in
    which the scan of the table returns them; that is not the order of
    creation once a row was updated: of three goals created at the same
    time, the first of them then updated, [PostgresStorage] lists the
    updated one last where [MemStorage] lists it first. *)
Theorem getFinancialGoals_ordered (cs : list IStorage.call) (db : Db.t)
  (userId : Z) :
  (exists res,
      MemStorage.getFinancialGoals userId (mem_after cs)
      = (Ok res, mem_after cs) /\
      ordered_listing goalKey
        (goalsOf userId
           (JS.values (MemStorage.financialGoals (mem_after cs)))) res /\
      Forall (fun g => FinancialGoal.createdAt g = Some (goalKey g)) res) /\
  (exists res,
      PostgresStorage.getFinancialGoals userId db = (Ok res, db) /\
      ordered_listing goalKey (goalsOf userId (Db.financial_goals db)) res) /\
  (exists res,
      MemStorage.getFinancialGoals 1 (mem_after three_goals_one_updated)
      = (Ok res, mem_after three_goals_one_updated) /\
      map FinancialGoal.id res = [1; 2; 3]) /\
  (exists res,
      PostgresStorage.getFinancialGoals 1
        (IStorage.run three_goals_one_updated registered)
      = (Ok res, IStorage.run three_goals_one_updated registered) /\
      map FinancialGoal.id res = [2; 3; 1]).
Proof.
  split; [|split; [|split]].
  - eexists. split; [apply mem_getFinancialGoals_eq, mem_invariant_after|].
    split; [apply stable_sort_by_ordered|].
    destruct (mem_invariant_after cs) as [_ Hg _ _ _].
    rewrite Forall_forall in *. intros g Hin.
    apply stable_sort_by_In, filter_In in Hin.
    specialize (Hg g (proj1 Hin)). unfold goalKey.
    destruct (FinancialGoal.createdAt g); [reflexivity | congruence].
  - eexists. split; [apply pg_getFinancialGoals_eq|].
    apply stable_sort_by_ordered.
  - eexists. split; reflexivity.
  - eexists. split; reflexivity.
Qed.

Lemma slice_from_start {A : Type} (start : Z) (l : list A) :
  0 <= start ->
  exists dropped,
    l = dropped ++ JS.slice start l /\
    length dropped = Nat.min (Z.to_nat start) (length l).
Proof.
  intros H. unfold JS.slice.
  replace (start <? 0) with false by (symmetry; apply Z.ltb_ge; exact H).
  set (k := Z.to_nat (Z.min start (Z.of_nat (length l)))).
  exists (firstn k l). split.
  - symmetry. apply firstn_skipn.
  - rewrite length_firstn. subst k. lia.
Qed.

(** A negative limit is read differently by the two classes.  In
    [MemStorage] it is truthy and [slice] gets a positive start:
    [getChatMessages(userId, n)] with [n < 0] drops the [-n] oldest
    messages (all of them when there are no more) and returns the rest.
    In [PostgresStorage] the guard [limit > 0] fails and the full list is
    returned. *)
Theorem negative_limit_by_backend (cs : list IStorage.call) (db : Db.t)
  (userId n : Z) :
  n < 0 ->
  (exists full res dropped,
      MemStorage.getChatMessages userId None (mem_after cs)
      = (Ok full, mem_after cs) /\
      MemStorage.getChatMessages userId (Some n) (mem_after cs)
      = (Ok res, mem_after cs) /\
      full = dropped ++ res /\
      length dropped = Nat.min (Z.to_nat (- n)) (length full)) /\
  (exists full,
      PostgresStorage.getChatMessages userId None db = (Ok full, db) /\
      PostgresStorage.getChatMessages userId (Some n) db = (Ok full, db)).
Proof.
  intros Hn.
  assert (JS.truthy n = true) as Ht
    by (unfold JS.truthy; apply negb_true_iff, Z.eqb_neq; lia).
  assert ((0 <? n) = false) as Hp by (apply Z.ltb_ge; lia).
  split.
  - destruct (slice_from_start (- n)
                (stable_sort_by messageKey
                   (mem_inserted userId (mem_after cs))))
      as (dropped & Hd & Hl); [lia|].
    eexists _, _, dropped.
    rewrite !mem_getChatMessages_eq by apply mem_invariant_after.
    split; [reflexivity | split; [reflexivity|]].
    simpl. rewrite Ht. split; [exact Hd | exact Hl].
  - eexists. rewrite !pg_getChatMessages_eq.
    split; [reflexivity|]. simpl. rewrite Ht, Hp. reflexivity.
Qed.

Lemma negative_limit_by_backend_witness :
  -1 < 0 /\
  (exists full res dropped,
      MemStorage.getChatMessages 1 None (mem_after chat)
      = (Ok full, mem_after chat) /\
      MemStorage.getChatMessages 1 (Some (-1)) (mem_after chat)
      = (Ok res, mem_after chat) /\
      full = dropped ++ res /\
      length dropped = Nat.min (Z.to_nat (- -1)) (length full)) /\
  (exists full,
      PostgresStorage.getChatMessages 1 None (IStorage.run chat registered)
      = (Ok full, IStorage.run chat registered) /\
      PostgresStorage.getChatMessages 1 (Some (-1))
        (IStorage.run chat registered)
      = (Ok full, IStorage.run chat registered)).
Proof.
  split; [reflexivity|].
  exact (negative_limit_by_backend chat (IStorage.run chat registered) 1 (-1)
           eq_refl).
Defined.

(** On the three messages of [chat], the limit [-1]: [MemStorage] drops
    the oldest message, [PostgresStorage] returns all three. *)
Example chat_limited_to_minus_one :
  fst (MemStorage.getChatMessages 1 (Some (-1)) (mem_after chat))
  = Ok [ChatMessage.mk 3 1 "hello" true (Some 200);
        ChatMessage.mk 1 1 "hello" true (Some 300)] /\
  fst (PostgresStorage.getChatMessages 1 (Some (-1))
         (IStorage.run chat registered))
  = Ok [ChatMessage.mk 2 1 "hello" true (Some 100);
        ChatMessage.mk 3 1 "hello" true (Some 200);
        ChatMessage.mk 1 1 "hello" true (Some 300)].
Proof. split; reflexivity. Qed.

(** *** The newest message *)

Lemma insert_by_snoc {A : Type} (key : A -> Z) (y x : A) (s : list A) :
  key y <= key x -> insert_by key y (s ++ [x]) = insert_by key y s ++ [x].
Proof.
  intros H. induction s as [|z s IH]; simpl.
  - replace (key y <=? key x) with true by (symmetry; apply Z.leb_le, H).
    reflexivity.
  - destruct (key y <=? key z); [reflexivity|]. rewrite IH. reflexivity.
Qed.

Lemma stable_sort_by_snoc {A : Type} (key : A -> Z) (x : A) (l : list A) :
  Forall (fun y => key y <= key x) l ->
  stable_sort_by key (l ++ [x]) = stable_sort_by key l ++ [x].
Proof.
  induction 1 as [|y l Hy _ IH]; [reflexivity|].
  change (insert_by key y (stable_sort_by key (l ++ [x]))
          = insert_by key y (stable_sort_by key l) ++ [x]).
  rewrite IH. apply insert_by_snoc, Hy.
Qed.

Lemma mem_createChatMessage_values (cs : list IStorage.call)
  (insertMessage : InsertChatMessage.t) (now : Z) :
  exists message st',
    MemStorage.createChatMessage insertMessage now (mem_after cs)
    = (Ok message, st') /\
    JS.values (MemStorage.chatMessages st')
    = JS.values (MemStorage.chatMessages (mem_after cs)) ++ [message].
Proof.
  destruct (mem_invariant_after cs) as [_ _ _ Hk _].
  eexists _, _. split; [reflexivity|]. simpl.
  rewrite set_absent.
  - unfold JS.values. rewrite map_app. reflexivity.
  - apply get_None_keys. intros Hin.
    rewrite Forall_forall in Hk. specialize (Hk _ Hin). lia.
Qed.

Lemma slice_last_one {A : Type} (l : list A) (x : A) :
  JS.slice (- 1) (l ++ [x]) = [x].
Proof.
  unfold JS.slice. change (- 1 <? 0) with true. cbv iota.
  rewrite length_app. simpl length.
  replace (Z.to_nat (Z.max (Z.of_nat (length l + 1) + - 1) 0))
    with (length l) by lia.
  rewrite skipn_app, skipn_all, Nat.sub_diag. reflexivity.
Qed.

(** When the clock at the creation of a message is not behind the
    timestamps of the messages of the same user that are stored, the
    listing of the user after the creation is the listing before it
    followed by the new message, and [getChatMessages(userId, 1)] returns
    the new message alone.  In [MemStorage] after any history; in
    [PostgresStorage] on every database whose ids are distinct and were
    drawn from the sequences, for a user that the table [users] holds. *)
Theorem created_message_is_latest (cs : list IStorage.call) (db : Db.t)
  (insertMessage : InsertChatMessage.t) (now : Z) :
  (Forall (fun m => messageKey m <= now)
     (mem_inserted (InsertChatMessage.userId insertMessage) (mem_after cs)) ->
   exists older message st',
     MemStorage.getChatMessages (InsertChatMessage.userId insertMessage) None
       (mem_after cs)
     = (Ok older, mem_after cs) /\
     MemStorage.createChatMessage insertMessage now (mem_after cs)
     = (Ok message, st') /\
     MemStorage.getChatMessages (InsertChatMessage.userId insertMessage) None
       st'
     = (Ok (older ++ [message]), st') /\
     MemStorage.getChatMessages (InsertChatMessage.userId insertMessage)
       (Some 1) st'
     = (Ok [message], st')) /\
  (db_keyed db ->
   (exists user,
       PostgresStorage.getUser (InsertChatMessage.userId insertMessage) db
       = (Ok (Some user), db)) ->
   Forall (fun m => messageKey m <= now)
     (db_inserted (InsertChatMessage.userId insertMessage) db) ->
   exists older message db',
     PostgresStorage.getChatMessages
       (InsertChatMessage.userId insertMessage) None db
     = (Ok older, db) /\
     PostgresStorage.createChatMessage insertMessage now db
     = (Ok message, db') /\
     PostgresStorage.getChatMessages
       (InsertChatMessage.userId insertMessage) None db'
     = (Ok (older ++ [message]), db') /\
     PostgresStorage.getChatMessages
       (InsertChatMessage.userId insertMessage) (Some 1) db'
     = (Ok [message], db')).
Proof.
  split; [intros Hclock | intros Hkeyed [user Huser] Hclock].
  - destruct (mem_createChatMessage_values cs insertMessage now)
      as (message & st' & Hc & Hv).
    assert (mem_invariant st') as Hinv.
    { pose proof (mem_invariant_invoke
                    (IStorage.CreateChatMessage insertMessage now)
                    (mem_after cs) (mem_invariant_after cs)) as H.
      change (mem_invariant
                (snd (IStorage.outcome
                        (MemStorage.createChatMessage insertMessage now
                           (mem_after cs))))) in H.
      rewrite snd_outcome, Hc in H. exact H. }
    assert (message
            = ChatMessage.mk (MemStorage.messageIdCounter (mem_after cs))
                (InsertChatMessage.userId insertMessage)
                (InsertChatMessage.message insertMessage)
                (InsertChatMessage.isUserMessage insertMessage) (Some now))
      as Hmsg by (unfold MemStorage.createChatMessage in Hc; congruence).
    assert (mem_inserted (InsertChatMessage.userId insertMessage) st'
            = mem_inserted (InsertChatMessage.userId insertMessage)
                (mem_after cs) ++ [message]) as Hins.
    { unfold mem_inserted, messagesOf. rewrite Hv, filter_app. simpl.
      rewrite Hmsg. simpl. rewrite Z.eqb_refl. reflexivity. }
    eexists _, message, st'.
    split; [apply mem_getChatMessages_eq, mem_invariant_after|].
    split; [exact Hc|].
    rewrite !mem_getChatMessages_eq by exact Hinv.
    rewrite Hins, stable_sort_by_snoc
      by (rewrite Hmsg; exact Hclock).
    split; [reflexivity|]. simpl. rewrite slice_last_one. reflexivity.
  - eexists _, _, _.
    split; [apply pg_getChatMessages_eq|].
    split; [apply (pg_createChatMessage_accepted _ _ _ user Hkeyed Huser)|].
    rewrite !pg_getChatMessages_eq.
    unfold db_inserted, messagesOf. simpl.
    rewrite filter_app. simpl. rewrite Z.eqb_refl.
    rewrite stable_sort_by_snoc by exact Hclock.
    split; [reflexivity|]. rewrite slice_last_one. reflexivity.
Qed.

Lemma created_message_is_latest_witness :
  (exists older message st',
      MemStorage.getChatMessages 1 None (mem_after chat)
      = (Ok older, mem_after chat) /\
      MemStorage.createChatMessage (hello 1) 400 (mem_after chat)
      = (Ok message, st') /\
      MemStorage.getChatMessages 1 None st'
      = (Ok (older ++ [message]), st') /\
      MemStorage.getChatMessages 1 (Some 1) st' = (Ok [message], st')) /\
  (exists older message db',
      PostgresStorage.getChatMessages 1 None (IStorage.run chat registered)
      = (Ok older, IStorage.run chat registered) /\
      PostgresStorage.createChatMessage (hello 1) 400
        (IStorage.run chat registered)
      = (Ok message, db') /\
      PostgresStorage.getChatMessages 1 None db'
      = (Ok (older ++ [message]), db') /\
      PostgresStorage.getChatMessages 1 (Some 1) db' = (Ok [message], db')).
Proof.
  split.
  - apply (proj1 (created_message_is_latest chat
                    (IStorage.run chat registered) (hello 1) 400)).
    repeat (apply Forall_cons; [vm_compute; discriminate|]).
    apply Forall_nil.
  - apply (proj2 (created_message_is_latest chat
                    (IStorage.run chat registered) (hello 1) 400)).
    + exact db_keyed_chat.
    + eexists. reflexivity.
    + repeat (apply Forall_cons; [vm_compute; discriminate|]).
      apply Forall_nil.
Defined.

(** ** Financial profiles *)

Lemma mem_after_snoc (cs : list IStorage.call) (c : IStorage.call) :
  mem_after (cs ++ [c]) = snd (IStorage.invoke c (mem_after cs)).
Proof. unfold mem_after. rewrite run_app. reflexivity. Qed.

Lemma find_snoc {A : Type} (p : A -> bool) (l : list A) (x : A) :
  JS.find p (l ++ [x])
  = match JS.find p l with
    | Some y => Some y
    | None => if p x then Some x else None
    end.
Proof.
  unfold JS.find. induction l as [|y l IH]; simpl; [reflexivity|].
  destruct (p y); [reflexivity | exact IH].
Qed.

Lemma first_filter_snoc {A : Type} (p : A -> bool) (l : list A) (x : A) :
  PostgresStorage.first (filter p (l ++ [x]))
  = match PostgresStorage.first (filter p l) with
    | Some y => Some y
    | None => if p x then Some x else None
    end.
Proof.
  induction l as [|y l IH]; simpl; [destruct (p x); reflexivity|].
  destruct (p y); [reflexivity | exact IH].
Qed.

Lemma values_set_absent {V : Type} (k : Z) (v : V) (m : JS.Map V) :
  ~ In k (JS.keys m) -> JS.values (JS.set k v m) = JS.values m ++ [v].
Proof.
  intros H. rewrite set_absent by (apply get_None_keys, H).
  unfold JS.values. rewrite map_app. reflexivity.
Qed.

Lemma counter_not_key (n : Z) (keys : list Z) :
  Forall (fun k => k < n) keys -> ~ In n keys.
Proof.
  intros H Hin. rewrite Forall_forall in H. specialize (H _ Hin). lia.
Qed.

(** Replacing the value under the id of the first match of a search keeps
    the replacement at the place of the match. *)
Lemma find_after_set (f : FinancialProfile.t -> bool)
  (m : JS.Map FinancialProfile.t) (p v : FinancialProfile.t) :
  Forall (fun e => FinancialProfile.id (snd e) = fst e) m ->
  NoDup (JS.keys m) ->
  JS.find f (JS.values m) = Some p ->
  f v = true ->
  JS.find f (JS.values (JS.set (FinancialProfile.id p) v m)) = Some v.
Proof.
  unfold JS.find. intros Hkey Hnd Hfind Hv.
  induction m as [|[k x] m IH]; simpl in *; [discriminate|].
  apply Forall_cons_iff in Hkey. destruct Hkey as [Hk Hkey']. simpl in Hk.
  apply NoDup_cons_iff in Hnd. destruct Hnd as [Hnotin Hnd'].
  destruct (f x) eqn:Efx.
  - injection Hfind as ->. rewrite Hk, Z.eqb_refl. simpl. rewrite Hv.
    reflexivity.
  - assert (k <> FinancialProfile.id p) as Hne.
    { intros ->. apply Hnotin.
      apply find_some in Hfind. destruct Hfind as [Hin _].
      apply In_values_entry in Hin. destruct Hin as [k' Hin].
      rewrite Forall_forall in Hkey'. pose proof (Hkey' _ Hin) as E.
      simpl in E. subst k'.
      unfold JS.keys. apply in_map_iff. exists (FinancialProfile.id p, p).
      tauto. }
    replace (k =? FinancialProfile.id p) with false
      by (symmetry; apply Z.eqb_neq, Hne).
    simpl. rewrite Efx. apply IH; assumption.
Qed.

Lemma filter_hit_rewritten {R : Type} (hit : R -> bool) (g : R -> R)
  (l : list R) :
  (forall r, hit r = true -> hit (g r) = true) ->
  filter hit (filter (fun r => negb (hit r)) l ++ map g (filter hit l))
  = map g (filter hit l).
Proof.
  intros H. rewrite filter_app, filter_negb_same. simpl.
  induction l as [|r l IH]; [reflexivity|]. simpl.
  destruct (hit r) eqn:E; [|exact IH].
  simpl. rewrite (H r E), IH. reflexivity.
Qed.

Lemma existsb_negb_filter {R : Type} (hit : R -> bool) (l : list R) :
  existsb (fun r => negb (hit r)) (filter hit l) = false.
Proof.
  apply existsb_absent. intros r Hr. apply filter_In in Hr.
  destruct Hr as [_ ->]. reflexivity.
Qed.

(** An update of the profiles of a user that names the user itself, a
    user that exists, or no user, passes the foreign key. *)
Lemma names_same_or_existing (userId : Z) (u : option Z) (db : Db.t) :
  (forall u0, u = Some u0 ->
     u0 = userId \/
     exists user, PostgresStorage.getUser u0 db = (Ok (Some user), db)) ->
  Db.names_missing_user FinancialProfile.userId u
    (filter (fun r => FinancialProfile.userId r =? userId)
       (Db.financial_profiles db)) db
  = false.
Proof.
  intros H. destruct u as [u0|]; [|reflexivity].
  destruct (H u0 eq_refl) as [->|Huser].
  - unfold Db.names_missing_user.
    rewrite (existsb_negb_filter
               (fun r => FinancialProfile.userId r =? userId)).
    reflexivity.
  - apply names_existing_user. intros u1 [= <-]. exact Huser.
Qed.

Lemma mergeProfile_overwritten (p : FinancialProfile.t)
  (updateData : PartialFinancialProfile.t) (now : Z) :
  profile_overwritten p updateData now
    (MemStorage.mergeProfile p updateData now).
Proof. repeat split; apply field_merged_spread. Qed.

Lemma set_profile_columns_overwritten (p : FinancialProfile.t)
  (updateData : PartialFinancialProfile.t) (now : Z) :
  profile_overwritten p updateData now
    (Db.set_profile_columns updateData now p).
Proof. repeat split; apply field_merged_spread. Qed.

(** One profile per user is not enforced, and the first one wins.  In
    both classes, when a user has a profile, [createFinancialProfile] of
    any further profile, whether it returns or throws, leaves
    [getFinancialProfile] of that user returning the profile it returned
    before.  When the user has none, the created profile, with the
    input's fields, the next id and the time of creation, is what
    [getFinancialProfile] returns from then on: in [MemStorage] after any
    history, in [PostgresStorage] on every database whose ids are distinct
    and were drawn from the sequences, for a user that the table [users]
    holds. *)
Theorem first_profile_wins (cs : list IStorage.call) (db : Db.t)
  (insertProfile : InsertFinancialProfile.t) (now userId : Z) :
  (forall p,
      MemStorage.getFinancialProfile userId (mem_after cs)
      = (Ok (Some p), mem_after cs) ->
      exists created st',
        MemStorage.createFinancialProfile insertProfile now (mem_after cs)
        = (Ok created, st') /\
        MemStorage.getFinancialProfile userId st' = (Ok (Some p), st')) /\
  (MemStorage.getFinancialProfile userId (mem_after cs)
   = (Ok None, mem_after cs) ->
   InsertFinancialProfile.userId insertProfile = userId ->
   exists created st',
     MemStorage.createFinancialProfile insertProfile now (mem_after cs)
     = (Ok created, st') /\
     carries_profile insertProfile created /\
     FinancialProfile.id created
     = MemStorage.profileIdCounter (mem_after cs) /\
     FinancialProfile.updatedAt created = Some now /\
     MemStorage.getFinancialProfile userId st' = (Ok (Some created), st')) /\
  (forall p,
      PostgresStorage.getFinancialProfile userId db = (Ok (Some p), db) ->
      exists completion db',
        PostgresStorage.createFinancialProfile insertProfile now db
        = (completion, db') /\
        PostgresStorage.getFinancialProfile userId db'
        = (Ok (Some p), db')) /\
  (db_keyed db ->
   (exists user, PostgresStorage.getUser userId db = (Ok (Some user), db)) ->
   PostgresStorage.getFinancialProfile userId db = (Ok None, db) ->
   InsertFinancialProfile.userId insertProfile = userId ->
   exists created db',
     PostgresStorage.createFinancialProfile insertProfile now db
     = (Ok created, db') /\
     carries_profile insertProfile created /\
     FinancialProfile.id created = Db.financial_profiles_id_seq db /\
     FinancialProfile.updatedAt created = Some now /\
     PostgresStorage.getFinancialProfile userId db'
     = (Ok (Some created), db')).
Proof.
  pose proof (counter_not_key _ _ (profile_ids_below _ (mem_keyed_after cs)))
    as Hfresh.
  split; [|split; [|split]].
  - intros p H. unfold MemStorage.getFinancialProfile in H.
    injection H as H.
    eexists _, _. split; [reflexivity|].
    unfold MemStorage.getFinancialProfile. simpl.
    rewrite values_set_absent by exact Hfresh.
    rewrite find_snoc, H. reflexivity.
  - intros H Hu. unfold MemStorage.getFinancialProfile in H.
    injection H as H.
    eexists _, _. split; [reflexivity|].
    split; [repeat split|]. split; [reflexivity|]. split; [reflexivity|].
    unfold MemStorage.getFinancialProfile. simpl.
    rewrite values_set_absent by exact Hfresh.
    rewrite find_snoc, H. simpl. rewrite Hu, Z.eqb_refl. reflexivity.
  - intros p H.
    unfold PostgresStorage.getFinancialProfile, PostgresStorage.rethrow,
      Db.select_where in H.
    injection H as H.
    unfold PostgresStorage.createFinancialProfile, PostgresStorage.rethrow,
      Db.insert_financial_profiles.
    unfold PostgresStorage.getFinancialProfile, PostgresStorage.rethrow,
      Db.select_where.
    destruct (existsb _ (Db.financial_profiles db));
      [|destruct (negb _)]; eexists _, _; (split; [reflexivity|]); simpl;
      rewrite ?first_filter_snoc, H; reflexivity.
  - intros Hkeyed [user Huser] H Hu. subst userId.
    destruct (pg_createFinancialProfile_accepted insertProfile now db user
                Hkeyed Huser)
      as (created & Hc & Hcarries & Hid & Hat).
    unfold PostgresStorage.getFinancialProfile, PostgresStorage.rethrow,
      Db.select_where in H.
    injection H as H.
    eexists _, _. split; [exact Hc|].
    split; [exact Hcarries|]. split; [exact Hid|]. split; [exact Hat|].
    unfold PostgresStorage.getFinancialProfile, PostgresStorage.rethrow,
      Db.select_where.
    simpl. rewrite first_filter_snoc, H.
    destruct Hcarries as [-> _]. rewrite Z.eqb_refl. reflexivity.
Qed.

Lemma first_profile_wins_witness :
  (exists created st',
      MemStorage.createFinancialProfile (profile_of 1 500) 40
        (mem_after profiles)
      = (Ok created, st') /\
      MemStorage.getFinancialProfile 1 st'
      = (Ok (Some (FinancialProfile.mk 1 1 100 0 0 0 0 0 0 "medium"
                     (Some 10))), st')) /\
  (exists completion db',
      PostgresStorage.createFinancialProfile (profile_of 1 500) 40
        (IStorage.run profiles registered)
      = (completion, db') /\
      PostgresStorage.getFinancialProfile 1 db'
      = (Ok (Some (FinancialProfile.mk 1 1 100 0 0 0 0 0 0 "medium"
                     (Some 10))), db')) /\
  (exists created db',
      PostgresStorage.createFinancialProfile (profile_of 2 500) 40 registered
      = (Ok created, db') /\
      carries_profile (profile_of 2 500) created /\
      FinancialProfile.id created = Db.financial_profiles_id_seq registered /\
      FinancialProfile.updatedAt created = Some 40 /\
      PostgresStorage.getFinancialProfile 2 db' = (Ok (Some created), db')).
Proof.
  split; [|split].
  - apply (proj1 (first_profile_wins profiles
                    (IStorage.run profiles registered)
                    (profile_of 1 500) 40 1)).
    reflexivity.
  - apply (proj1 (proj2 (proj2 (first_profile_wins profiles
                                  (IStorage.run profiles registered)
                                  (profile_of 1 500) 40 1)))).
    reflexivity.
  - apply (proj2 (proj2 (proj2 (first_profile_wins profiles registered
                                  (profile_of 2 500) 40 2))));
      [exact db_keyed_registered | eexists; reflexivity
      | reflexivity | reflexivity].
Defined.

(** [updateFinancialProfile(userId, updateData)] in both classes: for a
    user without profile it returns not-found and changes nothing; for a
    user with a profile it returns the profile [getFinancialProfile]
    returned with exactly the fields present in [updateData] overwritten,
    the same id and the update time set to the clock, and, when the
    update data names no user or the user itself, that is what
    [getFinancialProfile] returns from then on.  [MemStorage] does so for
    every update data; [PostgresStorage] when the user the update data
    names, if it names another one, is in the table [users], and
    otherwise it throws the violation of the foreign key and leaves the
    database as it was. *)
Theorem updateFinancialProfile_merges (cs : list IStorage.call) (db : Db.t)
  (userId : Z) (updateData : PartialFinancialProfile.t) (now : Z) :
  (MemStorage.getFinancialProfile userId (mem_after cs)
   = (Ok None, mem_after cs) ->
   MemStorage.updateFinancialProfile userId updateData now (mem_after cs)
   = (Ok None, mem_after cs)) /\
  (forall p,
      MemStorage.getFinancialProfile userId (mem_after cs)
      = (Ok (Some p), mem_after cs) ->
      exists updated st',
        MemStorage.updateFinancialProfile userId updateData now
          (mem_after cs)
        = (Ok (Some updated), st') /\
        profile_overwritten p updateData now updated /\
        (PartialFinancialProfile.userId updateData = None \/
         PartialFinancialProfile.userId updateData = Some userId ->
         MemStorage.getFinancialProfile userId st'
         = (Ok (Some updated), st'))) /\
  (PostgresStorage.getFinancialProfile userId db = (Ok None, db) ->
   PostgresStorage.updateFinancialProfile userId updateData now db
   = (Ok None, db)) /\
  (forall p,
      PostgresStorage.getFinancialProfile userId db = (Ok (Some p), db) ->
      (forall u,
          PartialFinancialProfile.userId updateData = Some u ->
          u = userId \/
          exists user, PostgresStorage.getUser u db = (Ok (Some user), db)) ->
      exists updated db',
        PostgresStorage.updateFinancialProfile userId updateData now db
        = (Ok (Some updated), db') /\
        profile_overwritten p updateData now updated /\
        (PartialFinancialProfile.userId updateData = None \/
         PartialFinancialProfile.userId updateData = Some userId ->
         PostgresStorage.getFinancialProfile userId db'
         = (Ok (Some updated), db'))) /\
  (forall p u,
      PostgresStorage.getFinancialProfile userId db = (Ok (Some p), db) ->
      PartialFinancialProfile.userId updateData = Some u ->
      u <> userId ->
      PostgresStorage.getUser u db = (Ok None, db) ->
      PostgresStorage.updateFinancialProfile userId updateData now db
      = (Throw (ForeignKeyViolation "financial_profiles_user_id_fkey"), db)).
Proof.
  split; [|split; [|split; [|split]]].
  - intros H. unfold MemStorage.updateFinancialProfile. rewrite H.
    reflexivity.
  - intros p H. unfold MemStorage.updateFinancialProfile. rewrite H.
    eexists _, _. split; [reflexivity|].
    split; [apply mergeProfile_overwritten|].
    intros Hsame. unfold MemStorage.getFinancialProfile in *. simpl.
    injection H as H. rewrite (find_after_set _ _ p).
    + reflexivity.
    + apply (profile_key_is_id _ (mem_keyed_after cs)).
    + apply (mem_keys_distinct cs).
    + exact H.
    + simpl. destruct Hsame as [-> | ->]; simpl.
      * apply find_In in H. apply H.
      * apply Z.eqb_refl.
  - intros H. unfold PostgresStorage.updateFinancialProfile,
      PostgresStorage.rethrow.
    rewrite H. reflexivity.
  - intros p H Hfk. unfold PostgresStorage.updateFinancialProfile,
      PostgresStorage.rethrow.
    rewrite H.
    unfold PostgresStorage.getFinancialProfile, PostgresStorage.rethrow,
      Db.select_where in *.
    injection H as H. unfold Db.update_financial_profiles.
    rewrite (names_same_or_existing userId _ db Hfk).
    assert (PostgresStorage.first
              (map (Db.set_profile_columns updateData now)
                 (filter (fun r => FinancialProfile.userId r =? userId)
                    (Db.financial_profiles db)))
            = Some (Db.set_profile_columns updateData now p)) as Hret
      by (destruct (filter _ (Db.financial_profiles db));
          [discriminate | injection H as ->; reflexivity]).
    rewrite Hret. eexists _, _. split; [reflexivity|].
    split; [apply set_profile_columns_overwritten|].
    intros Hsame. simpl.
    rewrite (filter_hit_rewritten
               (fun r => FinancialProfile.userId r =? userId)).
    + rewrite Hret. reflexivity.
    + intros r Hr. simpl. destruct Hsame as [-> | ->]; simpl.
      * exact Hr.
      * apply Z.eqb_refl.
  - intros p u H Hu Hne Hmissing.
    unfold PostgresStorage.updateFinancialProfile, PostgresStorage.rethrow.
    rewrite H.
    unfold PostgresStorage.getFinancialProfile, PostgresStorage.rethrow,
      Db.select_where in H.
    injection H as H. apply first_In in H.
    apply pg_no_reference_getUser in Hmissing.
    unfold Db.update_financial_profiles, Db.names_missing_user.
    rewrite Hu, Hmissing.
    replace (existsb _ _) with true; [reflexivity|].
    symmetry. apply existsb_exists. exists p. split; [exact H|].
    apply filter_In in H. destruct H as [_ H]. apply Z.eqb_eq in H.
    apply negb_true_iff, Z.eqb_neq. congruence.
Qed.

Lemma updateFinancialProfile_merges_witness :
  (exists updated st',
      MemStorage.updateFinancialProfile 1 (only_income 999) 50
        (mem_after profiles)
      = (Ok (Some updated), st') /\
      profile_overwritten
        (FinancialProfile.mk 1 1 100 0 0 0 0 0 0 "medium" (Some 10))
        (only_income 999) 50 updated /\
      (PartialFinancialProfile.userId (only_income 999) = None \/
       PartialFinancialProfile.userId (only_income 999) = Some 1 ->
       MemStorage.getFinancialProfile 1 st' = (Ok (Some updated), st'))) /\
  (exists updated db',
      PostgresStorage.updateFinancialProfile 1 (only_income 999) 50
        (IStorage.run profiles registered)
      = (Ok (Some updated), db') /\
      profile_overwritten
        (FinancialProfile.mk 1 1 100 0 0 0 0 0 0 "medium" (Some 10))
        (only_income 999) 50 updated /\
      (PartialFinancialProfile.userId (only_income 999) = None \/
       PartialFinancialProfile.userId (only_income 999) = Some 1 ->
       PostgresStorage.getFinancialProfile 1 db'
       = (Ok (Some updated), db'))) /\
  PostgresStorage.updateFinancialProfile 1
    (PartialFinancialProfile.mk (Some 99) None None None None None None None
       None)
    50 (IStorage.run profiles registered)
  = (Throw (ForeignKeyViolation "financial_profiles_user_id_fkey"),
     IStorage.run profiles registered).
Proof.
  split; [|split].
  - apply (proj1 (proj2 (updateFinancialProfile_merges profiles
                           (IStorage.run profiles registered) 1
                           (only_income 999) 50))).
    reflexivity.
  - apply (proj1 (proj2 (proj2 (proj2 (updateFinancialProfile_merges profiles
                                         (IStorage.run profiles registered)
                                         1 (only_income 999) 50))))).
    + reflexivity.
    + discriminate.
  - apply (proj2 (proj2 (proj2 (proj2 (updateFinancialProfile_merges profiles
                                         (IStorage.run profiles registered)
                                         1
                                         (PartialFinancialProfile.mk
                                            (Some 99) None None None None
                                            None None None None)
                                         50))))
             (FinancialProfile.mk 1 1 100 0 0 0 0 0 0 "medium" (Some 10))
             99);
      [reflexivity | reflexivity | discriminate | reflexivity].
Defined.

(** The two classes differ in what an update of a profile touches when a
    user has several profiles.  [MemStorage] replaces the entry of the
    first profile of the user and leaves every other entry of the map as
    it was.  [PostgresStorage] updates [WHERE user_id = userId]: when the
    database accepts the update (it names no other user, or one of the
    table [users]), every row of the user is overwritten, and only the
    rows of other users are left as they were. *)
Theorem updateFinancialProfile_scope (cs : list IStorage.call) (db : Db.t)
  (userId : Z) (updateData : PartialFinancialProfile.t) (now : Z) :
  (forall p,
      MemStorage.getFinancialProfile userId (mem_after cs)
      = (Ok (Some p), mem_after cs) ->
      exists updated st',
        MemStorage.updateFinancialProfile userId updateData now
          (mem_after cs)
        = (Ok (Some updated), st') /\
        JS.get (FinancialProfile.id p) (MemStorage.financialProfiles st')
        = Some updated /\
        (forall id',
            id' <> FinancialProfile.id p ->
            JS.get id' (MemStorage.financialProfiles st')
            = JS.get id' (MemStorage.financialProfiles (mem_after cs)))) /\
  (forall p,
      PostgresStorage.getFinancialProfile userId db = (Ok (Some p), db) ->
      (forall u,
          PartialFinancialProfile.userId updateData = Some u ->
          u = userId \/
          exists user, PostgresStorage.getUser u db = (Ok (Some user), db)) ->
      exists updated db',
        PostgresStorage.updateFinancialProfile userId updateData now db
        = (Ok (Some updated), db') /\
        (forall r,
            In r (Db.financial_profiles db) ->
            FinancialProfile.userId r = userId ->
            exists r',
              In r' (Db.financial_profiles db') /\
              profile_overwritten r updateData now r') /\
        (forall r,
            In r (Db.financial_profiles db) ->
            FinancialProfile.userId r <> userId ->
            In r (Db.financial_profiles db'))).
Proof.
  split.
  - intros p H. unfold MemStorage.updateFinancialProfile. rewrite H.
    eexists _, _. split; [reflexivity|]. simpl. split.
    + apply get_set_same.
    + intros id' Hne. apply get_set_other, Hne.
  - intros p H Hfk. unfold PostgresStorage.updateFinancialProfile,
      PostgresStorage.rethrow.
    rewrite H.
    unfold PostgresStorage.getFinancialProfile, PostgresStorage.rethrow,
      Db.select_where in H.
    injection H as H. unfold Db.update_financial_profiles.
    rewrite (names_same_or_existing userId _ db Hfk).
    destruct (filter _ (Db.financial_profiles db)) as [|q hits] eqn:E;
      [discriminate|].
    eexists _, _. split; [reflexivity|]. simpl. split.
    + intros r Hin Hu.
      exists (Db.set_profile_columns updateData now r).
      split; [|apply set_profile_columns_overwritten].
      apply in_or_app. right.
      change (In (Db.set_profile_columns updateData now r)
                (map (Db.set_profile_columns updateData now) (q :: hits))).
      apply in_map. rewrite <- E. apply filter_In.
      split; [exact Hin | apply Z.eqb_eq, Hu].
    + intros r Hin Hu. apply in_or_app. left. apply filter_In.
      split; [exact Hin|]. apply negb_true_iff, Z.eqb_neq, Hu.
Qed.

Lemma updateFinancialProfile_scope_witness :
  (exists updated st',
      MemStorage.updateFinancialProfile 1 (only_income 999) 50
        (mem_after profiles)
      = (Ok (Some updated), st') /\
      JS.get 1 (MemStorage.financialProfiles st') = Some updated /\
      (forall id',
          id' <> 1 ->
          JS.get id' (MemStorage.financialProfiles st')
          = JS.get id' (MemStorage.financialProfiles (mem_after profiles))))
  /\
  (exists updated db',
      PostgresStorage.updateFinancialProfile 1 (only_income 999) 50
        (IStorage.run profiles registered)
      = (Ok (Some updated), db') /\
      (forall r,
          In r (Db.financial_profiles (IStorage.run profiles registered)) ->
          FinancialProfile.userId r = 1 ->
          exists r',
            In r' (Db.financial_profiles db') /\
            profile_overwritten r (only_income 999) 50 r') /\
      (forall r,
          In r (Db.financial_profiles (IStorage.run profiles registered)) ->
          FinancialProfile.userId r <> 1 ->
          In r (Db.financial_profiles db'))).
Proof.
  split.
  - apply (proj1 (updateFinancialProfile_scope profiles
                    (IStorage.run profiles registered)
                    1 (only_income 999) 50)
             (FinancialProfile.mk 1 1 100 0 0 0 0 0 0 "medium" (Some 10))).
    reflexivity.
  - apply (proj2 (updateFinancialProfile_scope profiles
                    (IStorage.run profiles registered)
                    1 (only_income 999) 50)
             (FinancialProfile.mk 1 1 100 0 0 0 0 0 0 "medium" (Some 10)));
      [reflexivity | discriminate].
Defined.

(** User 1 has the profiles 1 and 2.  After an update of the income of
    user 1, profile 2 is untouched in [MemStorage] and overwritten in
    [PostgresStorage], where the new versions of both rows of user 1
    stand behind the row of user 2. *)
Example second_profile_after_update :
  JS.get 2
    (MemStorage.financialProfiles
       (snd (MemStorage.updateFinancialProfile 1 (only_income 999) 50
               (mem_after profiles))))
  = Some (FinancialProfile.mk 2 1 200 0 0 0 0 0 0 "medium" (Some 20)) /\
  Db.financial_profiles
    (snd (PostgresStorage.updateFinancialProfile 1 (only_income 999) 50
            (IStorage.run profiles registered)))
  = [FinancialProfile.mk 3 2 300 0 0 0 0 0 0 "medium" (Some 30);
     FinancialProfile.mk 1 1 999 0 0 0 0 0 0 "medium" (Some 50);
     FinancialProfile.mk 2 1 999 0 0 0 0 0 0 "medium" (Some 50)].
Proof. split; reflexivity. Qed.

(** ** Goals: creation, lookup and listing *)

(** [createFinancialGoal] returns a goal with the input's fields, the
    next id and the time of creation; [getFinancialGoal] of that id
    returns the goal, and the goal is in the listing of its owner.  In
    [MemStorage] after any history and for every owner; in
    [PostgresStorage] on every database whose ids are distinct and were
    drawn from the sequences, for an owner that the table [users]
    holds. *)
Theorem createFinancialGoal_then_get (cs : list IStorage.call) (db : Db.t)
  (insertGoal : InsertFinancialGoal.t) (now : Z) :
  (exists goal st' listed,
      MemStorage.createFinancialGoal insertGoal now (mem_after cs)
      = (Ok goal, st') /\
      carries_goal insertGoal goal /\
      FinancialGoal.id goal = MemStorage.goalIdCounter (mem_after cs) /\
      FinancialGoal.createdAt goal = Some now /\
      MemStorage.getFinancialGoal (FinancialGoal.id goal) st'
      = (Ok (Some goal), st') /\
      MemStorage.getFinancialGoals (InsertFinancialGoal.userId insertGoal)
        st'
      = (Ok listed, st') /\
      In goal listed) /\
  (db_keyed db ->
   (exists user,
       PostgresStorage.getUser (InsertFinancialGoal.userId insertGoal) db
       = (Ok (Some user), db)) ->
   exists goal db' listed,
     PostgresStorage.createFinancialGoal insertGoal now db
     = (Ok goal, db') /\
     carries_goal insertGoal goal /\
     FinancialGoal.id goal = Db.financial_goals_id_seq db /\
     FinancialGoal.createdAt goal = Some now /\
     PostgresStorage.getFinancialGoal (FinancialGoal.id goal) db'
     = (Ok (Some goal), db') /\
     PostgresStorage.getFinancialGoals
       (InsertFinancialGoal.userId insertGoal) db'
     = (Ok listed, db') /\
     In goal listed).
Proof.
  split.
  - pose proof (mem_invariant_after
                  (cs ++ [IStorage.CreateFinancialGoal insertGoal now]))
      as Hinv.
    rewrite mem_after_snoc in Hinv.
    change (mem_invariant
              (snd (IStorage.outcome
                      (MemStorage.createFinancialGoal insertGoal now
                         (mem_after cs))))) in Hinv.
    rewrite snd_outcome in Hinv.
    eexists _, _, _. split; [reflexivity|].
    split; [repeat split|]. split; [reflexivity|]. split; [reflexivity|].
    split; [unfold MemStorage.getFinancialGoal; simpl;
            rewrite get_set_same; reflexivity|].
    split; [apply mem_getFinancialGoals_eq, Hinv|].
    apply stable_sort_by_In, filter_In. simpl. split.
    + eapply get_In_values. apply get_set_same.
    + apply Z.eqb_refl.
  - intros Hkeyed [user Huser].
    destruct (pg_createFinancialGoal_accepted insertGoal now db user
                Hkeyed Huser)
      as (goal & Hc & Hcarries & Hid & Hat).
    eexists goal, _, _. split; [exact Hc|].
    split; [exact Hcarries|]. split; [exact Hid|]. split; [exact Hat|].
    split.
    + unfold PostgresStorage.getFinancialGoal, PostgresStorage.rethrow,
        Db.select_where.
      simpl. rewrite first_filter_snoc, Z.eqb_refl.
      replace (filter _ (Db.financial_goals db))
        with (@nil FinancialGoal.t); [reflexivity|].
      symmetry. rewrite Hid.
      apply (filter_below FinancialGoal.id), (goal_ids_in_seq _ Hkeyed).
    + split; [apply pg_getFinancialGoals_eq|].
      apply stable_sort_by_In, filter_In. simpl. split.
      * apply in_or_app. right. left. reflexivity.
      * destruct Hcarries as [-> _]. apply Z.eqb_refl.
Qed.

Lemma createFinancialGoal_then_get_witness :
  db_keyed registered /\
  (exists goal db' listed,
      PostgresStorage.createFinancialGoal emergency_fund 2000 registered
      = (Ok goal, db') /\
      carries_goal emergency_fund goal /\
      FinancialGoal.id goal = Db.financial_goals_id_seq registered /\
      FinancialGoal.createdAt goal = Some 2000 /\
      PostgresStorage.getFinancialGoal (FinancialGoal.id goal) db'
      = (Ok (Some goal), db') /\
      PostgresStorage.getFinancialGoals
        (InsertFinancialGoal.userId emergency_fund) db'
      = (Ok listed, db') /\
      In goal listed).
Proof.
  split; [exact db_keyed_registered|].
  apply (proj2 (createFinancialGoal_then_get [] registered emergency_fund
                  2000));
    [exact db_keyed_registered | eexists; reflexivity].
Defined.

(** ** Owners that do not exist *)



(** ** What no call removes *)

Lemma mem_user_kept_invoke (id : Z) (u : User.t) (c : IStorage.call)
  (st : MemStorage.t) :
  mem_invariant st ->
  JS.get id (MemStorage.users st) = Some u ->
  JS.get id (MemStorage.users (snd (IStorage.invoke c st))) = Some u.
Proof.
  intros [_ _ Hu _ _] H.
  mem_call_cases c; try exact H.
  rewrite get_set_other; [exact H|].
  apply get_In_keys in H. rewrite Forall_forall in Hu.
  specialize (Hu _ H). lia.
Qed.

Lemma mem_message_kept_invoke (m : ChatMessage.t) (c : IStorage.call)
  (st : MemStorage.t) :
  mem_invariant st ->
  In m (JS.values (MemStorage.chatMessages st)) ->
  In m (JS.values (MemStorage.chatMessages (snd (IStorage.invoke c st)))).
Proof.
  intros [_ _ _ Hk _] H.
  mem_call_cases c; try exact H.
  rewrite values_set_absent by (apply counter_not_key, Hk).
  apply in_or_app. left. exact H.
Qed.

Lemma mem_kept_run (later : list IStorage.call) (st : MemStorage.t) :
  mem_invariant st ->
  (forall id u,
      JS.get id (MemStorage.users st) = Some u ->
      JS.get id (MemStorage.users (IStorage.run later st)) = Some u) /\
  (forall m,
      In m (JS.values (MemStorage.chatMessages st)) ->
      In m (JS.values (MemStorage.chatMessages (IStorage.run later st)))).
Proof.
  revert st. induction later as [|c later IH]; intros st Hinv;
    [split; auto|].
  destruct (IH _ (mem_invariant_invoke c st Hinv)) as [IHu IHm].
  split.
  - intros id u H. apply IHu, mem_user_kept_invoke; assumption.
  - intros m H. apply IHm, mem_message_kept_invoke; assumption.
Qed.

Lemma pg_kept_invoke (c : IStorage.call) (db : Db.t) :
  (forall id u,
      PostgresStorage.first
        (map Db.user_of_row
           (filter (fun r => Db.id r =? id) (Db.users db))) = Some u ->
      PostgresStorage.first
        (map Db.user_of_row
           (filter (fun r => Db.id r =? id)
              (Db.users (snd (IStorage.invoke c db))))) = Some u) /\
  (forall m,
      In m (Db.chat_messages db) ->
      In m (Db.chat_messages (snd (IStorage.invoke c db)))).
Proof.
  pg_call_cases c; split; intros; try assumption.
  apply in_or_app. left. assumption.
Qed.

Lemma pg_kept_run (later : list IStorage.call) (db : Db.t) :
  (forall id u,
      PostgresStorage.first
        (map Db.user_of_row
           (filter (fun r => Db.id r =? id) (Db.users db))) = Some u ->
      PostgresStorage.first
        (map Db.user_of_row
           (filter (fun r => Db.id r =? id)
              (Db.users (IStorage.run later db)))) = Some u) /\
  (forall m,
      In m (Db.chat_messages db) ->
      In m (Db.chat_messages (IStorage.run later db))).
Proof.
  revert db. induction later as [|c later IH]; intros db; [split; auto|].
  destruct (IH (snd (IStorage.invoke c db))) as [IHu IHm].
  destruct (pg_kept_invoke c db) as [Hu Hm].
  split.
  - intros id u H. apply IHu, Hu, H.
  - intros m H. apply IHm, Hm, H.
Qed.

(** Users and chat messages are never removed or changed: in both
    classes, whatever calls follow, [getUser] keeps returning a user it
    returned once, and a message that was listed for a user stays in the
    listing of that user. *)
Theorem users_and_messages_persist (cs later : list IStorage.call)
  (db : Db.t) :
  (forall id u,
      MemStorage.getUser id (mem_after cs) = (Ok (Some u), mem_after cs) ->
      MemStorage.getUser id (IStorage.run later (mem_after cs))
      = (Ok (Some u), IStorage.run later (mem_after cs))) /\
  (forall userId listed m,
      MemStorage.getChatMessages userId None (mem_after cs)
      = (Ok listed, mem_after cs) ->
      In m listed ->
      exists listed',
        MemStorage.getChatMessages userId None
          (IStorage.run later (mem_after cs))
        = (Ok listed', IStorage.run later (mem_after cs)) /\
        In m listed') /\
  (forall id u,
      PostgresStorage.getUser id db = (Ok (Some u), db) ->
      PostgresStorage.getUser id (IStorage.run later db)
      = (Ok (Some u), IStorage.run later db)) /\
  (forall userId listed m,
      PostgresStorage.getChatMessages userId None db = (Ok listed, db) ->
      In m listed ->
      exists listed',
        PostgresStorage.getChatMessages userId None (IStorage.run later db)
        = (Ok listed', IStorage.run later db) /\
        In m listed').
Proof.
  pose proof (mem_invariant_after cs) as Hinv.
  destruct (mem_kept_run later _ Hinv) as [Hu Hm].
  destruct (pg_kept_run later db) as [Hpu Hpm].
  split; [|split; [|split]].
  - intros id u H. unfold MemStorage.getUser in *. injection H as H.
    rewrite (Hu _ _ H). reflexivity.
  - intros userId listed m H Hin.
    rewrite mem_getChatMessages_eq in H by exact Hinv.
    injection H as <-. simpl in Hin.
    apply stable_sort_by_In, filter_In in Hin.
    eexists. split;
      [apply mem_getChatMessages_eq, mem_invariant_run, Hinv|].
    apply stable_sort_by_In, filter_In. split; [apply Hm|]; apply Hin.
  - intros id u H.
    unfold PostgresStorage.getUser, PostgresStorage.rethrow,
      Db.select_where in *.
    injection H as H. rewrite (Hpu _ _ H). reflexivity.
  - intros userId listed m H Hin.
    rewrite pg_getChatMessages_eq in H. injection H as <-. simpl in Hin.
    apply stable_sort_by_In, filter_In in Hin.
    eexists. split; [apply pg_getChatMessages_eq|].
    apply stable_sort_by_In, filter_In. split; [apply Hpm|]; apply Hin.
Qed.

Lemma users_and_messages_persist_witness :
  MemStorage.getUser 1
    (IStorage.run [IStorage.CreateUser bob 3000] (mem_after scenario))
  = (Ok (Some (User.mk 1 "alice" "a@x.com" "h1" (Some 1000))),
     IStorage.run [IStorage.CreateUser bob 3000] (mem_after scenario)) /\
  PostgresStorage.getUser 1
    (IStorage.run [IStorage.CreateUser bob 3000]
       (IStorage.run scenario registered))
  = (Ok (Some (User.mk 1 "alice" "a@x.com" "h1" (Some 1000))),
     IStorage.run [IStorage.CreateUser bob 3000]
       (IStorage.run scenario registered)).
Proof.
  split.
  - apply (proj1 (users_and_messages_persist scenario
                    [IStorage.CreateUser bob 3000]
                    (IStorage.run scenario registered))).
    reflexivity.
  - apply (proj1 (proj2 (proj2 (users_and_messages_persist scenario
                                  [IStorage.CreateUser bob 3000]
                                  (IStorage.run scenario registered))))).
    reflexivity.
Defined.

(** ** Ids *)

Lemma values_ids_are_keys {V : Type} (ident : V -> Z) (m : JS.Map V) :
  Forall (fun e => ident (snd e) = fst e) m ->
  map ident (JS.values m) = JS.keys m.
Proof.
  unfold JS.values, JS.keys. induction 1 as [|e m He _ IH]; [reflexivity|].
  simpl. rewrite He, IH. reflexivity.
Qed.

Lemma sorted_ids_distinct {A : Type} (ident : A -> Z) (key : A -> Z)
  (p : A -> bool) (l : list A) :
  NoDup (map ident l) ->
  NoDup (map ident (stable_sort_by key (filter p l))).
Proof.
  intros H. eapply Permutation_NoDup.
  - apply Permutation_map, Permutation_sym, stable_sort_by_perm.
  - apply NoDup_filter_map, H.
Qed.

(** In both classes the record a lookup by id returns has that id, and
    no listing holds two records with the same id: in [MemStorage] after
    any history, in [PostgresStorage] the lookups on every database and
    the listings on every database whose ids are distinct, as they are
    after any calls on such a database. *)
Theorem ids_identify_records (cs : list IStorage.call) (db : Db.t) :
  (forall id u,
      MemStorage.getUser id (mem_after cs) = (Ok (Some u), mem_after cs) ->
      User.id u = id) /\
  (forall id g,
      MemStorage.getFinancialGoal id (mem_after cs)
      = (Ok (Some g), mem_after cs) ->
      FinancialGoal.id g = id) /\
  (forall userId limit listed,
      MemStorage.getChatMessages userId limit (mem_after cs)
      = (Ok listed, mem_after cs) ->
      NoDup (map ChatMessage.id listed)) /\
  (forall userId listed,
      MemStorage.getFinancialGoals userId (mem_after cs)
      = (Ok listed, mem_after cs) ->
      NoDup (map FinancialGoal.id listed)) /\
  (forall id u,
      PostgresStorage.getUser id db = (Ok (Some u), db) ->
      User.id u = id) /\
  (forall id g,
      PostgresStorage.getFinancialGoal id db = (Ok (Some g), db) ->
      FinancialGoal.id g = id) /\
  (db_keyed db ->
   forall userId limit listed,
     PostgresStorage.getChatMessages userId limit (IStorage.run cs db)
     = (Ok listed, IStorage.run cs db) ->
     NoDup (map ChatMessage.id listed)) /\
  (db_keyed db ->
   forall userId listed,
     PostgresStorage.getFinancialGoals userId (IStorage.run cs db)
     = (Ok listed, IStorage.run cs db) ->
     NoDup (map FinancialGoal.id listed)).
Proof.
  pose proof (mem_invariant_after cs) as Hinv.
  destruct (mem_keyed_after cs) as [Hku _ Hkm Hkg _].
  destruct (mem_keys_distinct cs) as (_ & _ & Hdm & Hdg).
  split; [|split; [|split; [|split; [|split; [|split; [|split]]]]]].
  - intros id u H. unfold MemStorage.getUser in H. injection H as H.
    apply get_In_entry in H. rewrite Forall_forall in Hku.
    apply (Hku _ H).
  - intros id g H. unfold MemStorage.getFinancialGoal in H.
    injection H as H. apply get_In_entry in H.
    rewrite Forall_forall in Hkg. apply (Hkg _ H).
  - intros userId limit listed H.
    rewrite mem_getChatMessages_eq in H by exact Hinv. injection H as <-.
    assert (NoDup (map ChatMessage.id
                     (stable_sort_by messageKey
                        (mem_inserted userId (mem_after cs))))) as Hnd
      by (apply sorted_ids_distinct;
          rewrite (values_ids_are_keys _ _ Hkm); exact Hdm).
    unfold mem_limited. destruct limit as [n|]; [|exact Hnd].
    destruct (JS.truthy n); [|exact Hnd].
    unfold JS.slice.
    match goal with |- context [skipn ?k ?l] =>
      rewrite <- (firstn_skipn k l), map_app in Hnd;
      apply NoDup_app_remove_l in Hnd end.
    exact Hnd.
  - intros userId listed H.
    rewrite mem_getFinancialGoals_eq in H by exact Hinv. injection H as <-.
    apply sorted_ids_distinct.
    rewrite (values_ids_are_keys _ _ Hkg). exact Hdg.
  - intros id u H.
    unfold PostgresStorage.getUser, PostgresStorage.rethrow,
      Db.select_where in H.
    injection H as H.
    destruct (filter _ (Db.users db)) as [|r rows] eqn:E;
      [discriminate|].
    injection H as <-.
    assert (In r (r :: rows)) as Hin by (left; reflexivity).
    rewrite <- E in Hin. apply filter_In in Hin.
    apply Z.eqb_eq, Hin.
  - intros id g H.
    unfold PostgresStorage.getFinancialGoal, PostgresStorage.rethrow,
      Db.select_where in H.
    injection H as H.
    destruct (filter _ (Db.financial_goals db)) as [|r rows]
      eqn:E; [discriminate|].
    injection H as <-.
    assert (In r (r :: rows)) as Hin by (left; reflexivity).
    rewrite <- E in Hin. apply filter_In in Hin.
    apply Z.eqb_eq, Hin.
  - intros Hkeyed userId limit listed H.
    pose proof (message_ids_distinct _ (db_keyed_run cs db Hkeyed)) as Hpm.
    rewrite pg_getChatMessages_eq in H. injection H as <-.
    assert (NoDup (map ChatMessage.id
                     (stable_sort_by messageKey
                        (db_inserted userId (IStorage.run cs db))))) as Hnd
      by (apply sorted_ids_distinct; exact Hpm).
    unfold pg_limited. destruct limit as [n|]; [|exact Hnd].
    destruct (JS.truthy n && (0 <? n)); [|exact Hnd].
    unfold JS.slice.
    match goal with |- context [skipn ?k ?l] =>
      rewrite <- (firstn_skipn k l), map_app in Hnd;
      apply NoDup_app_remove_l in Hnd end.
    exact Hnd.
  - intros Hkeyed userId listed H.
    pose proof (goal_ids_distinct _ (db_keyed_run cs db Hkeyed)) as Hpg.
    rewrite pg_getFinancialGoals_eq in H. injection H as <-.
    apply sorted_ids_distinct. exact Hpg.
Qed.

(** ** Usernames and emails *)

Lemma NoDup_map_In_eq {A B : Type} (f : A -> B) (l : list A) (x y : A) :
  NoDup (map f l) -> In x l -> In y l -> f x = f y -> x = y.
Proof.
  induction l as [|z l IH]; simpl; intros Hnd Hx Hy Hf; [destruct Hx|].
  inversion Hnd as [|? ? Hnotin Hrest]; subst.
  destruct Hx as [->|Hx], Hy as [->|Hy]; auto.
  - exfalso. apply Hnotin. rewrite Hf. apply in_map, Hy.
  - exfalso. apply Hnotin. rewrite <- Hf. apply in_map, Hx.
Qed.

Lemma pg_getUser_row (id : Z) (u : User.t) (db : Db.t) :
  PostgresStorage.getUser id db = (Ok (Some u), db) ->
  exists r, In r (Db.users db) /\ u = Db.user_of_row r.
Proof.
  unfold PostgresStorage.getUser, PostgresStorage.rethrow, Db.select_where.
  intros H. injection H as H.
  destruct (filter _ (Db.users db)) as [|r rows] eqn:E; [discriminate|].
  injection H as <-. exists r. split; [|reflexivity].
  assert (In r (r :: rows)) as Hin by (left; reflexivity).
  rewrite <- E in Hin. apply filter_In in Hin. apply Hin.
Qed.

Lemma first_unique {R B : Type} (f : R -> B) (cond : R -> bool)
  (table : list R) (r : R) :
  NoDup (map f table) ->
  In r table -> cond r = true ->
  (forall r', cond r' = true -> f r' = f r) ->
  PostgresStorage.first (Db.select_where cond table) = Some r.
Proof.
  intros Hnd Hin Hr Hsame. unfold Db.select_where.
  destruct (filter cond table) as [|r' rows] eqn:E.
  - assert (In r (filter cond table)) as H
      by (apply filter_In; split; assumption).
    rewrite E in H. destruct H.
  - assert (In r' (filter cond table)) as H by (rewrite E; left; reflexivity).
    apply filter_In in H. destruct H as [Hin' Hr']. simpl. f_equal.
    apply (NoDup_map_In_eq f table); auto.
Qed.

(** On a database whose usernames and emails are unique, as the table
    [users] of server/db.ts keeps them, the lookups of [PostgresStorage]
    agree: two users that [getUser] returns and that share a username or
    an email are the same user, and the user [getUser] returns for an id
    is the one [getUserByUsername] returns for its username and
    [getUserByEmail] for its email, also after any calls of the
    interface, none of which changes the table. *)
Theorem pg_lookups_agree (later : list IStorage.call) (db : Db.t) :
  db_keyed db ->
  (forall id1 id2 u1 u2,
      PostgresStorage.getUser id1 db = (Ok (Some u1), db) ->
      PostgresStorage.getUser id2 db = (Ok (Some u2), db) ->
      User.username u1 = User.username u2 \/ User.email u1 = User.email u2 ->
      u1 = u2) /\
  (forall id u,
      PostgresStorage.getUser id db = (Ok (Some u), db) ->
      PostgresStorage.getUserByUsername (User.username u)
        (IStorage.run later db)
      = (Ok (Some u), IStorage.run later db) /\
      PostgresStorage.getUserByEmail (User.email u) (IStorage.run later db)
      = (Ok (Some u), IStorage.run later db)).
Proof.
  intros [_ Hn He _ _ _ _ _ _ _].
  split.
  - intros id1 id2 u1 u2 H1 H2 Hsame.
    apply pg_getUser_row in H1, H2.
    destruct H1 as (r1 & Hin1 & ->), H2 as (r2 & Hin2 & ->).
    f_equal. simpl in Hsame. destruct Hsame as [Hs|Hs].
    + apply (NoDup_map_In_eq Db.username (Db.users db)); assumption.
    + apply (NoDup_map_In_eq Db.email (Db.users db)); assumption.
  - intros id u H. apply pg_getUser_row in H. destruct H as (r & Hin & ->).
    unfold PostgresStorage.getUserByUsername, PostgresStorage.getUserByEmail,
      PostgresStorage.rethrow.
    rewrite pg_users_run. simpl. split.
    + assert (PostgresStorage.first
                (Db.select_where
                   (fun r' => String.eqb (Db.username r') (Db.username r))
                   (Db.users db)) = Some r) as E.
      { apply (first_unique Db.username); auto.
        - apply String.eqb_refl.
        - intros r' Hr'. apply String.eqb_eq, Hr'. }
      unfold Db.select_where in *.
      destruct (filter _ (Db.users db)); [discriminate|].
      injection E as ->. reflexivity.
    + assert (PostgresStorage.first
                (Db.select_where
                   (fun r' => String.eqb (Db.email r') (Db.email r))
                   (Db.users db)) = Some r) as E.
      { apply (first_unique Db.email); auto.
        - apply String.eqb_refl.
        - intros r' Hr'. apply String.eqb_eq, Hr'. }
      unfold Db.select_where in *.
      destruct (filter _ (Db.users db)); [discriminate|].
      injection E as ->. reflexivity.
Qed.

Lemma pg_lookups_agree_witness :
  db_keyed registered /\
  PostgresStorage.getUserByUsername "bob" (IStorage.run scenario registered)
  = (Ok (Some (User.mk 2 "bob" "b@x.com" "h2" (Some 3000))),
     IStorage.run scenario registered) /\
  PostgresStorage.getUserByEmail "b@x.com" (IStorage.run scenario registered)
  = (Ok (Some (User.mk 2 "bob" "b@x.com" "h2" (Some 3000))),
     IStorage.run scenario registered).
Proof.
  split; [exact db_keyed_registered|].
  apply (proj2 (pg_lookups_agree scenario registered db_keyed_registered) 2
           (User.mk 2 "bob" "b@x.com" "h2" (Some 3000))).
  reflexivity.
Defined.

(** [MemStorage] lets a username or an email be taken twice and the
    lookups return the oldest match: after any history, when the lookup
    by a username (an email) finds a user, it finds the same user after
    any further [createUser], also one with that username (email); the
    lookup by a username (email) that finds nobody finds the created
    user after a [createUser] with that username (email). *)
Theorem mem_oldest_user_wins (cs : list IStorage.call)
  (insertUser : InsertUser.t) (now : Z) :
  exists created st',
    MemStorage.createUser insertUser now (mem_after cs) = (Ok created, st') /\
    (forall username u,
        MemStorage.getUserByUsername username (mem_after cs)
        = (Ok (Some u), mem_after cs) ->
        MemStorage.getUserByUsername username st' = (Ok (Some u), st')) /\
    (forall email u,
        MemStorage.getUserByEmail email (mem_after cs)
        = (Ok (Some u), mem_after cs) ->
        MemStorage.getUserByEmail email st' = (Ok (Some u), st')) /\
    (MemStorage.getUserByUsername (InsertUser.username insertUser)
       (mem_after cs)
     = (Ok None, mem_after cs) ->
     MemStorage.getUserByUsername (InsertUser.username insertUser) st'
     = (Ok (Some created), st')) /\
    (MemStorage.getUserByEmail (InsertUser.email insertUser) (mem_after cs)
     = (Ok None, mem_after cs) ->
     MemStorage.getUserByEmail (InsertUser.email insertUser) st'
     = (Ok (Some created), st')).
Proof.
  pose proof (counter_not_key _ _ (user_ids_below _ (mem_invariant_after cs)))
    as Hfresh.
  eexists _, _. split; [reflexivity|].
  unfold MemStorage.getUserByUsername, MemStorage.getUserByEmail. simpl.
  rewrite values_set_absent by exact Hfresh.
  repeat split.
  - intros username u H. injection H as H. rewrite find_snoc, H.
    reflexivity.
  - intros email u H. injection H as H. rewrite find_snoc, H. reflexivity.
  - intros H. injection H as H. rewrite find_snoc, H. simpl.
    rewrite String.eqb_refl. reflexivity.
  - intros H. injection H as H. rewrite find_snoc, H. simpl.
    rewrite String.eqb_refl. reflexivity.
Qed.

(** * Properties of server/aiService.ts *)

(** ** The messages sent to a provider *)

Lemma skipn_nth_cons {A : Type} (d : A) (l : list A) (i : nat) :
  (i < length l)%nat -> skipn i l = nth i l d :: skipn (S i) l.
Proof.
  revert i. induction l as [|x l IH]; intros i H; simpl in H; [lia|].
  destruct i as [|i]; [reflexivity|].
  simpl. apply IH. lia.
Qed.

Lemma alternating_nil_from (i : nat) (l : list string) :
  (length l <= i)%nat -> alternating i (skipn i l) = [].
Proof. intros H. rewrite skipn_all2 by exact H. reflexivity. Qed.

Lemma alternating_cons (i : nat) (text : string) (rest : list string) :
  alternating i (text :: rest)
  = AiService.mk_message
      (if Nat.even i then AiService.user else AiService.assistant) text
    :: alternating (S i) rest.
Proof. reflexivity. Qed.

Lemma pushHistory_alternating (fuel i : nat) (chatHistory : list string)
  (messages : list AiService.message) :
  Nat.even i = true ->
  (length chatHistory <= i + fuel)%nat ->
  AiService.pushHistory fuel i chatHistory messages
  = messages ++ alternating i (skipn i chatHistory).
Proof.
  revert i messages.
  induction fuel as [|fuel IH]; intros i messages Heven Hfuel.
  - simpl. rewrite alternating_nil_from by lia. symmetry. apply app_nil_r.
  - cbn [AiService.pushHistory].
    destruct (i <? length chatHistory)%nat eqn:Ei.
    + apply Nat.ltb_lt in Ei.
      assert (Nat.even (S i) = false) as Hodd
        by (rewrite Nat.even_succ, <- Nat.negb_even, Heven; reflexivity).
      assert (Nat.even (S (S i)) = true) as Heven2 by exact Heven.
      rewrite (skipn_nth_cons EmptyString chatHistory i) by exact Ei.
      rewrite alternating_cons, Heven.
      replace (i + 2)%nat with (S (S i)) by lia.
      replace (i + 1)%nat with (S i) by lia.
      destruct (S i <? length chatHistory)%nat eqn:Ei1.
      * apply Nat.ltb_lt in Ei1.
        rewrite IH by (exact Heven2 || lia).
        rewrite (skipn_nth_cons EmptyString chatHistory (S i)) by exact Ei1.
        rewrite alternating_cons, Hodd.
        rewrite <- !app_assoc. reflexivity.
      * apply Nat.ltb_ge in Ei1.
        rewrite IH by (exact Heven2 || lia).
        rewrite !alternating_nil_from by lia.
        rewrite app_nil_r. reflexivity.
    + apply Nat.ltb_ge in Ei.
      rewrite alternating_nil_from by lia. symmetry. apply app_nil_r.
Qed.

Lemma alternating_content (i : nat) (l : list string) :
  map AiService.content (alternating i l) = l.
Proof.
  revert i. induction l as [|x l IH]; intros i; [reflexivity|].
  simpl. rewrite IH. reflexivity.
Qed.

(** The message list [generateOpenAIResponse] and
    [generateDeepseekResponse] build: the system prompt, then the chat
    history in its order, the element at an even position as a user
    message and the one at an odd position as an assistant message, then
    the current message of the user.  No element of the history is
    dropped or reordered, whatever the length of the history; a history
    of odd length ends in a user message, which the current message then
    follows. *)
Theorem buildMessages_alternates (chatHistory : list string)
  (userMessage : string) :
  AiService.buildMessages chatHistory userMessage
  = AiService.mk_message AiService.system AiService.SYSTEM_PROMPT
    :: alternating 0 chatHistory
    ++ [AiService.mk_message AiService.user userMessage] /\
  map AiService.content (AiService.buildMessages chatHistory userMessage)
  = AiService.SYSTEM_PROMPT :: chatHistory ++ [userMessage].
Proof.
  assert (AiService.buildMessages chatHistory userMessage
          = AiService.mk_message AiService.system AiService.SYSTEM_PROMPT
            :: alternating 0 chatHistory
            ++ [AiService.mk_message AiService.user userMessage]) as H.
  { unfold AiService.buildMessages.
    destruct (0 <? length chatHistory)%nat eqn:E.
    - rewrite pushHistory_alternating by (reflexivity || lia).
      reflexivity.
    - apply Nat.ltb_ge in E. destruct chatHistory; [reflexivity|].
      simpl in E. lia. }
  split; [exact H|].
  rewrite H. simpl. rewrite map_app, alternating_content. reflexivity.
Qed.

(** A history of three turns and a question. *)
Example buildMessages_three_turns :
  map AiService.role
    (AiService.buildMessages ["q1"; "a1"; "q2"]%string "q3")
  = [AiService.system; AiService.user; AiService.assistant; AiService.user;
     AiService.user].
Proof. reflexivity. Qed.

(** ** The text [generateFinanceResponse] returns *)

Lemma or_else_not_empty (a : option string) (b : string) :
  (exists c s, b = String c s) ->
  exists c s, JsString.or_else a b = String c s.
Proof.
  intros Hb. unfold JsString.or_else. destruct a as [[|c s]|]; simpl;
    [exact Hb | eexists _, _; reflexivity | exact Hb].
Qed.

Lemma FALLBACK_not_empty : exists c s, AiService.FALLBACK = String c s.
Proof. eexists _, _. reflexivity. Qed.

Lemma generateOpenAIResponse_not_empty (e : AiService.env)
  (create : list AiService.message
            -> AiService.promise AiService.chat_completion)
  (userMessage : string) (chatHistory : list string) (text : string) :
  AiService.generateOpenAIResponse e create userMessage chatHistory
  = AiService.Resolved text ->
  exists c s, text = String c s.
Proof.
  unfold AiService.generateOpenAIResponse.
  destruct (JsString.unset _); [intros [= <-]; eexists _, _; reflexivity|].
  destruct (create _) as [completion|t]; [|discriminate].
  destruct (AiService.choices completion) as [[|c0 rest]|];
    intros [= <-];
    try apply or_else_not_empty; apply FALLBACK_not_empty.
Qed.

Lemma generateDeepseekResponse_not_empty (e : AiService.env)
  (post : option string -> list AiService.message
          -> AiService.promise AiService.axios_response)
  (userMessage : string) (chatHistory : list string) (text : string) :
  AiService.generateDeepseekResponse e post userMessage chatHistory
  = AiService.Resolved text ->
  exists c s, text = String c s.
Proof.
  unfold AiService.generateDeepseekResponse.
  destruct (JsString.unset _); [intros [= <-]; eexists _, _; reflexivity|].
  destruct (post _ _) as [response|t].
  - destruct (AiService.data response) as [d|];
      [destruct (AiService.data_choices d) as [[|[m|] rest]|]|];
      intros [= <-];
      try apply or_else_not_empty; apply FALLBACK_not_empty.
  - destruct t as [m|m [[status body]|]|]; discriminate.
Qed.

(** [generateFinanceResponse] always answers with some text: whatever
    the provider returns or throws (missing choices, a [null] or empty
    content, an HTTP error, a value that is no [Error]) and whatever the
    keys are, the result is not the empty string.  Without a configured
    key, the answer is the fixed text about the key, whatever the
    provider would have done. *)
Theorem finance_response_never_empty (e : AiService.env)
  (create create' : list AiService.message
                    -> AiService.promise AiService.chat_completion)
  (post post' : option string -> list AiService.message
                -> AiService.promise AiService.axios_response)
  (userMessage : string) (chatHistory : list string)
  (model : AiService.AIModel) :
  (exists c s,
      AiService.generateFinanceResponse e create post userMessage
        chatHistory model
      = String c s) /\
  (JsString.unset (AiService.OPENAI_API_KEY e) = true ->
   AiService.generateFinanceResponse e create post userMessage chatHistory
     AiService.openai
   = AiService.generateFinanceResponse e create' post' userMessage
       chatHistory AiService.openai) /\
  (JsString.unset (AiService.DEEPSEEK_API_KEY e) = true ->
   AiService.generateFinanceResponse e create post userMessage chatHistory
     AiService.deepseek
   = AiService.generateFinanceResponse e create' post' userMessage
       chatHistory AiService.deepseek).
Proof.
  split; [|split].
  - unfold AiService.generateFinanceResponse.
    destruct model.
    + destruct (AiService.generateOpenAIResponse e create userMessage
                  chatHistory) as [text|t] eqn:E.
      * eapply generateOpenAIResponse_not_empty, E.
      * destruct t as [m|m r|];
          try (destruct (JsString.includes m "API key"));
          eexists _, _; reflexivity.
    + destruct (AiService.generateDeepseekResponse e post userMessage
                  chatHistory) as [text|t] eqn:E.
      * eapply generateDeepseekResponse_not_empty, E.
      * destruct t as [m|m r|];
          try (destruct (JsString.includes m "API key"));
          eexists _, _; reflexivity.
  - intros H. unfold AiService.generateFinanceResponse,
      AiService.generateOpenAIResponse.
    rewrite H. reflexivity.
  - intros H. unfold AiService.generateFinanceResponse,
      AiService.generateDeepseekResponse.
    rewrite H. reflexivity.
Qed.

(** ** The local answers by keyword *)

Lemma toLowerCase_append (a b : string) :
  JsString.toLowerCase (String.append a b)
  = String.append (JsString.toLowerCase a) (JsString.toLowerCase b).
Proof.
  induction a as [|c a IH]; [reflexivity|]. simpl. rewrite IH. reflexivity.
Qed.

Lemma prefix_empty (s : string) : String.prefix "" s = true.
Proof. destruct s; reflexivity. Qed.

Lemma prefix_append_r (k s post : string) :
  String.prefix k s = true -> String.prefix k (String.append s post) = true.
Proof.
  revert s. induction k as [|a k IH]; intros s H; [apply prefix_empty|].
  destruct s as [|b s]; [discriminate|]. simpl in *.
  destruct (Ascii.ascii_dec a b); [apply IH, H | discriminate].
Qed.

Lemma prefix_of_append (k post : string) :
  String.prefix k (String.append k post) = true.
Proof.
  induction k as [|a k IH]; [apply prefix_empty|]. simpl.
  destruct (Ascii.ascii_dec a a); [exact IH | congruence].
Qed.

Lemma includes_unfold (s k : string) :
  JsString.includes s k
  = String.prefix k s
    || match s with
       | EmptyString => false
       | String _ s' => JsString.includes s' k
       end.
Proof. destruct s; reflexivity. Qed.

Lemma includes_append_l (pre s k : string) :
  JsString.includes s k = true ->
  JsString.includes (String.append pre s) k = true.
Proof.
  intros H. induction pre as [|c pre IH]; [exact H|].
  simpl String.append. rewrite includes_unfold, IH. apply orb_true_r.
Qed.

Lemma includes_append_r (s post k : string) :
  JsString.includes s k = true ->
  JsString.includes (String.append s post) k = true.
Proof.
  induction s as [|c s IH]; intros H.
  - rewrite includes_unfold in H. rewrite orb_false_r in H.
    destruct k; [|discriminate]. simpl.
    rewrite includes_unfold, prefix_empty. reflexivity.
  - rewrite includes_unfold in H. apply orb_true_iff in H.
    simpl String.append. rewrite includes_unfold. apply orb_true_iff.
    destruct H as [H|H]; [left | right; apply IH, H].
    apply (prefix_append_r k (String c s)), H.
Qed.

Lemma includes_in_context (pre word post : string) :
  JsString.includes
    (JsString.toLowerCase
       (String.append pre (String.append word post)))
    (JsString.toLowerCase word)
  = true.
Proof.
  rewrite !toLowerCase_append.
  apply includes_append_l.
  rewrite includes_unfold, prefix_of_append. reflexivity.
Qed.

Lemma mentions_three (userMessage k1 k2 k3 : string) :
  mentions userMessage [k1; k2; k3] <->
  JsString.includes (JsString.toLowerCase userMessage) k1
  || JsString.includes (JsString.toLowerCase userMessage) k2
  || JsString.includes (JsString.toLowerCase userMessage) k3 = true.
Proof.
  unfold mentions. rewrite !orb_true_iff. split.
  - intros (k & [<-|[<-|[<-|[]]]] & H); tauto.
  - intros [[H|H]|H]; eexists; (split; [|exact H]); simpl; tauto.
Qed.

(** [generateLocalFinanceResponse] on a message of ASCII text answers by
    the first category, in the order budgeting, saving, debt, investing,
    of which the message mentions a keyword, and with the generic text
    when it mentions none; letter case does not matter and the keyword may
    stand anywhere in the message, so a budgeting keyword gets the
    budgeting advice whatever else the message says. *)
Theorem local_response_by_priority :
  (forall pre word post,
      JsString.is_ascii (String.append pre (String.append word post))
      = true ->
      In (JsString.toLowerCase word) budget_keywords ->
      AiService.generateLocalFinanceResponse
        (String.append pre (String.append word post))
      = AiService.BUDGET_ADVICE) /\
  (forall userMessage,
      JsString.is_ascii userMessage = true ->
      mentions userMessage budget_keywords ->
      AiService.generateLocalFinanceResponse userMessage
      = AiService.BUDGET_ADVICE) /\
  (forall userMessage,
      JsString.is_ascii userMessage = true ->
      ~ mentions userMessage budget_keywords ->
      mentions userMessage saving_keywords ->
      AiService.generateLocalFinanceResponse userMessage
      = AiService.SAVING_ADVICE) /\
  (forall userMessage,
      JsString.is_ascii userMessage = true ->
      ~ mentions userMessage budget_keywords ->
      ~ mentions userMessage saving_keywords ->
      mentions userMessage debt_keywords ->
      AiService.generateLocalFinanceResponse userMessage
      = AiService.DEBT_ADVICE) /\
  (forall userMessage,
      JsString.is_ascii userMessage = true ->
      ~ mentions userMessage budget_keywords ->
      ~ mentions userMessage saving_keywords ->
      ~ mentions userMessage debt_keywords ->
      mentions userMessage invest_keywords ->
      AiService.generateLocalFinanceResponse userMessage
      = AiService.INVEST_ADVICE) /\
  (forall userMessage,
      JsString.is_ascii userMessage = true ->
      ~ mentions userMessage budget_keywords ->
      ~ mentions userMessage saving_keywords ->
      ~ mentions userMessage debt_keywords ->
      ~ mentions userMessage invest_keywords ->
      AiService.generateLocalFinanceResponse userMessage
      = AiService.GENERIC_ADVICE).
Proof.
  assert (forall userMessage,
             mentions userMessage budget_keywords ->
             AiService.generateLocalFinanceResponse userMessage
             = AiService.BUDGET_ADVICE) as Hbudget.
  { intros m H. apply mentions_three in H.
    unfold AiService.generateLocalFinanceResponse. rewrite H. reflexivity. }
  split; [|split; [intros m _; apply Hbudget|]].
  - intros pre word post _ Hin. apply Hbudget.
    exists (JsString.toLowerCase word). split; [exact Hin|].
    apply includes_in_context.
  - unfold budget_keywords, saving_keywords, debt_keywords, invest_keywords.
    repeat split; intros m _;
      rewrite !mentions_three; unfold AiService.generateLocalFinanceResponse;
      intros;
      repeat match goal with
        | H : ?b <> true |- _ => apply not_true_is_false in H; rewrite H
        | H : ?b = true |- _ => rewrite H
        end; reflexivity.
Qed.

Lemma local_response_by_priority_witness :
  JsString.is_ascii "My BUDGET and my credit card" = true /\
  AiService.generateLocalFinanceResponse
    (String.append "My " (String.append "BUDGET" " and my credit card"))
  = AiService.BUDGET_ADVICE.
Proof.
  split; [reflexivity|].
  apply (proj1 local_response_by_priority "My " "BUDGET"
           " and my credit card")%string.
  - reflexivity.
  - left. reflexivity.
Defined.

(** A budgeting keyword in capitals wins over a debt keyword. *)
Example budget_before_debt :
  AiService.generateLocalFinanceResponse "My BUDGET and my credit card"
  = AiService.BUDGET_ADVICE /\
  AiService.generateLocalFinanceResponse "my credit card"
  = AiService.DEBT_ADVICE /\
  AiService.generateLocalFinanceResponse "hello"
  = AiService.GENERIC_ADVICE.
Proof. repeat split. Qed.

(** * Properties of server/db.ts *)

(** [initializeDatabase] on a database that answers.  The first variant
    leaves every table empty with its sequence at 1, whatever the tables
    held before: the database [PostgresStorage] then works on is the
    empty one, and a second run changes nothing more.  When [SELECT 1]
    fails, the error is thrown again and no table is touched.  The second
    variant does the same unless [NODE_ENV] is [production]; in
    production a table that exists keeps its rows and its sequence. *)
Theorem initializeDatabase_resets {U P M G : Type}
  (c : Migration.catalog U P M G) (db : Db.t) (e : string)
  (NODE_ENV : option string) :
  Migration.initializeDatabase None c = (None, Migration.fresh) /\
  Migration.initializeDatabase None (Migration.catalog_of db)
  = (None, Migration.catalog_of Db.initial) /\
  Migration.initializeDatabase (Some e) c
  = (Some (Migration.DriverError e), c) /\
  Migration.initializeDatabase2 (Some e) NODE_ENV c
  = (Some Migration.CouldNotConnect, c) /\
  (NODE_ENV <> Some "production"%string ->
   Migration.initializeDatabase2 None NODE_ENV c = (None, Migration.fresh)) /\
  Migration.initializeDatabase2 None (Some "production"%string)
    (Migration.catalog_of db)
  = (None, Migration.catalog_of db) /\
  (forall users_table,
      Migration.users c = Some users_table ->
      Migration.users
        (snd (Migration.initializeDatabase2 None (Some "production"%string)
                c))
      = Some users_table).
Proof.
  repeat split.
  - intros Hne. unfold Migration.initializeDatabase2. simpl.
    destruct NODE_ENV as [v|]; [|reflexivity].
    destruct (String.eqb v "production") eqn:E; [|reflexivity].
    apply String.eqb_eq in E. congruence.
  - intros users_table H. simpl. rewrite H. reflexivity.
Qed.

(** * Goals in the listings after an update or a deletion *)

Lemma insert_by_first {A : Type} (key : A -> Z) (x : A) (l : list A) :
  Forall (fun z => key x <= key z) l -> insert_by key x l = x :: l.
Proof.
  destruct 1 as [|z l Hz _]; [reflexivity|]. simpl.
  replace (key x <=? key z) with true by (symmetry; apply Z.leb_le, Hz).
  reflexivity.
Qed.

Lemma insert_by_filter_out {A : Type} (key : A -> Z) (p : A -> bool)
  (x : A) (s : list A) :
  p x = false -> filter p (insert_by key x s) = filter p s.
Proof.
  intros Hx. induction s as [|y s IH]; simpl; [rewrite Hx; reflexivity|].
  destruct (key x <=? key y); simpl; [rewrite Hx; reflexivity|].
  rewrite IH. reflexivity.
Qed.

Lemma insert_by_filter_in {A : Type} (key : A -> Z) (p : A -> bool)
  (x : A) (s : list A) :
  StronglySorted (fun a b => key a <= key b) s ->
  p x = true ->
  filter p (insert_by key x s) = insert_by key x (filter p s).
Proof.
  intros Hs Hx. induction Hs as [|y s Hs IH Hall]; simpl.
  - rewrite Hx. reflexivity.
  - destruct (key x <=? key y) eqn:E; simpl.
    + rewrite Hx. apply Z.leb_le in E.
      destruct (p y); simpl.
      * replace (key x <=? key y) with true
          by (symmetry; apply Z.leb_le, E).
        reflexivity.
      * symmetry. apply insert_by_first, Forall_filter_keep.
        eapply Forall_impl; [|exact Hall]. simpl. intros; lia.
    + destruct (p y); simpl; rewrite ?E, IH; reflexivity.
Qed.

Lemma stable_sort_by_filter {A : Type} (key : A -> Z) (p : A -> bool)
  (l : list A) :
  stable_sort_by key (filter p l) = filter p (stable_sort_by key l).
Proof.
  induction l as [|x l IH]; [reflexivity|].
  change (stable_sort_by key (x :: l))
    with (insert_by key x (stable_sort_by key l)).
  simpl. destruct (p x) eqn:E.
  - change (stable_sort_by key (x :: filter p l))
      with (insert_by key x (stable_sort_by key (filter p l))).
    rewrite IH. symmetry.
    apply insert_by_filter_in; [apply stable_sort_by_sorted | exact E].
  - rewrite IH. symmetry. apply insert_by_filter_out, E.
Qed.

Lemma filter_swap {A : Type} (p q : A -> bool) (l : list A) :
  filter p (filter q l) = filter q (filter p l).
Proof.
  induction l as [|x l IH]; [reflexivity|]. simpl.
  destruct (p x) eqn:Ep, (q x) eqn:Eq; simpl; rewrite ?Ep, ?Eq, IH;
    reflexivity.
Qed.

Lemma values_delete {V : Type} (ident : V -> Z) (k : Z) (m : JS.Map V) :
  Forall (fun e => ident (snd e) = fst e) m ->
  JS.values (filter (fun e => negb (fst e =? k)) m)
  = filter (fun v => negb (ident v =? k)) (JS.values m).
Proof.
  induction 1 as [|[k' v] m He _ IH]; [reflexivity|].
  simpl in *. rewrite He.
  destruct (k' =? k); simpl; rewrite IH; reflexivity.
Qed.

(** In both classes [deleteFinancialGoal(id)] takes exactly the goal of
    that id out of the listings: the listing of every user after the
    deletion is the listing before it without the goal of that id, the
    other goals in the order they had. *)
Theorem delete_removes_from_listing (cs : list IStorage.call) (db : Db.t)
  (id userId : Z) :
  (exists listed existed st' listed',
      MemStorage.getFinancialGoals userId (mem_after cs)
      = (Ok listed, mem_after cs) /\
      MemStorage.deleteFinancialGoal id (mem_after cs) = (Ok existed, st') /\
      MemStorage.getFinancialGoals userId st' = (Ok listed', st') /\
      listed' = filter (fun g => negb (FinancialGoal.id g =? id)) listed) /\
  (exists listed existed db' listed',
      PostgresStorage.getFinancialGoals userId db = (Ok listed, db) /\
      PostgresStorage.deleteFinancialGoal id db = (Ok existed, db') /\
      PostgresStorage.getFinancialGoals userId db' = (Ok listed', db') /\
      listed' = filter (fun g => negb (FinancialGoal.id g =? id)) listed).
Proof.
  split.
  - pose proof (mem_invariant_after (cs ++ [IStorage.DeleteFinancialGoal id]))
      as Hinv.
    rewrite mem_after_snoc in Hinv.
    change (mem_invariant
              (snd (IStorage.outcome
                      (MemStorage.deleteFinancialGoal id (mem_after cs)))))
      in Hinv.
    rewrite snd_outcome in Hinv.
    eexists _, _, _, _.
    split; [apply mem_getFinancialGoals_eq, mem_invariant_after|].
    split; [reflexivity|].
    split; [apply mem_getFinancialGoals_eq, Hinv|].
    unfold MemStorage.deleteFinancialGoal, JS.delete.
    cbn [snd MemStorage.financialGoals].
    rewrite (values_delete FinancialGoal.id)
      by apply (goal_key_is_id _ (mem_keyed_after cs)).
    unfold goalsOf. rewrite filter_swap. apply stable_sort_by_filter.
  - eexists _, _, _, _.
    split; [apply pg_getFinancialGoals_eq|].
    split; [reflexivity|].
    split; [apply pg_getFinancialGoals_eq|].
    simpl. unfold goalsOf. rewrite filter_swap. apply stable_sort_by_filter.
Qed.

Lemma get_unique_entry {V : Type} (k : Z) (v : V) (m : JS.Map V) :
  NoDup (JS.keys m) -> In (k, v) m -> JS.get k m = Some v.
Proof.
  induction m as [|[k' v'] m IH]; simpl; intros Hnd Hin; [destruct Hin|].
  apply NoDup_cons_iff in Hnd. destruct Hnd as [Hnotin Hnd].
  destruct Hin as [[= -> ->]|Hin].
  - rewrite Z.eqb_refl. reflexivity.
  - destruct (k' =? k) eqn:E; [|apply IH; assumption].
    apply Z.eqb_eq in E. subst k'. exfalso. apply Hnotin.
    unfold JS.keys. apply in_map_iff. exists (k, v). tauto.
Qed.

(** An update that names another user moves the goal between the
    listings.  After [updateFinancialGoal(id, {userId: u})] of a goal that
    another user owned, the listing of the former owner holds no goal of
    that id, and the listing of [u] holds the updated goal: in
    [MemStorage] after any history and for every [u], in
    [PostgresStorage] on every database, for a [u] that the table [users]
    holds. *)
Theorem reowned_goal_changes_listing (cs : list IStorage.call) (db : Db.t)
  (id u : Z) :
  (forall goal,
      MemStorage.getFinancialGoal id (mem_after cs)
      = (Ok (Some goal), mem_after cs) ->
      u <> FinancialGoal.userId goal ->
      exists updated st' former owned,
        MemStorage.updateFinancialGoal id (only_userId u) (mem_after cs)
        = (Ok (Some updated), st') /\
        MemStorage.getFinancialGoals (FinancialGoal.userId goal) st'
        = (Ok former, st') /\
        (forall g, In g former -> FinancialGoal.id g <> id) /\
        MemStorage.getFinancialGoals u st' = (Ok owned, st') /\
        In updated owned) /\
  (forall goal user,
      PostgresStorage.getFinancialGoal id db = (Ok (Some goal), db) ->
      u <> FinancialGoal.userId goal ->
      PostgresStorage.getUser u db = (Ok (Some user), db) ->
      exists updated db' former owned,
        PostgresStorage.updateFinancialGoal id (only_userId u) db
        = (Ok (Some updated), db') /\
        PostgresStorage.getFinancialGoals (FinancialGoal.userId goal) db'
        = (Ok former, db') /\
        (forall g, In g former -> FinancialGoal.id g <> id) /\
        PostgresStorage.getFinancialGoals u db' = (Ok owned, db') /\
        In updated owned).
Proof.
  split.
  - intros goal H Hu.
    set (c := IStorage.UpdateFinancialGoal id (only_userId u)).
    pose proof (mem_invariant_after (cs ++ [c])) as Hinv.
    pose proof (mem_keyed_after (cs ++ [c])) as Hkeyed.
    destruct (mem_keys_distinct (cs ++ [c])) as (_ & _ & _ & Hnd).
    rewrite mem_after_snoc in Hinv, Hkeyed, Hnd.
    change (snd (IStorage.invoke c (mem_after cs)))
      with (snd (IStorage.outcome
                   (MemStorage.updateFinancialGoal id (only_userId u)
                      (mem_after cs)))) in Hinv, Hkeyed, Hnd.
    rewrite snd_outcome in Hinv, Hkeyed, Hnd.
    destruct (mem_update_existing id (only_userId u) (mem_after cs) goal H)
      as (st' & Hup & Hget & _).
    rewrite Hup in Hinv, Hkeyed, Hnd. simpl in Hinv, Hkeyed, Hnd.
    unfold MemStorage.getFinancialGoal in Hget. injection Hget as Hget.
    eexists _, st', _, _. split; [exact Hup|].
    split; [apply mem_getFinancialGoals_eq, Hinv|].
    split; [|split; [apply mem_getFinancialGoals_eq, Hinv|]].
    + intros g Hin Hid.
      apply stable_sort_by_In, filter_In in Hin. destruct Hin as [Hin Hown].
      apply Z.eqb_eq in Hown.
      apply In_values_entry in Hin. destruct Hin as [k Hin].
      pose proof (goal_key_is_id _ Hkeyed) as Hk.
      rewrite Forall_forall in Hk. pose proof (Hk _ Hin) as E. simpl in E.
      rewrite Hid in E. subst k.
      rewrite (get_unique_entry _ _ _ Hnd Hin) in Hget.
      injection Hget as ->. simpl in Hown. congruence.
    + apply stable_sort_by_In, filter_In. split.
      * eapply get_In_values, Hget.
      * simpl. apply Z.eqb_refl.
  - intros goal user H Hu Huser.
    destruct (pg_update_accepted id (only_userId u) db goal H eq_refl)
      as (db' & Hup & Hget & _ & Hrows).
    { apply names_existing_user. intros u0 [= <-]. exists user. exact Huser. }
    eexists _, db', _, _. split; [exact Hup|].
    split; [apply pg_getFinancialGoals_eq|].
    split; [|split; [apply pg_getFinancialGoals_eq|]].
    + intros g Hin Hid.
      apply stable_sort_by_In, filter_In in Hin. destruct Hin as [Hin Hown].
      apply Z.eqb_eq in Hown. rewrite Hrows in Hin.
      apply in_app_or in Hin. destruct Hin as [Hin|Hin].
      * apply filter_In in Hin. destruct Hin as [_ Hne].
        apply negb_true_iff, Z.eqb_neq in Hne. contradiction.
      * apply in_map_iff in Hin. destruct Hin as (r & <- & _).
        simpl in Hown. congruence.
    + apply stable_sort_by_In, filter_In.
      unfold PostgresStorage.getFinancialGoal, PostgresStorage.rethrow,
        Db.select_where in Hget.
      injection Hget as Hget. apply first_In, filter_In in Hget.
      split; [apply Hget | simpl; apply Z.eqb_refl].
Qed.

Lemma reowned_goal_changes_listing_witness :
  (exists updated st' former owned,
      MemStorage.updateFinancialGoal 1 (only_userId 2) (mem_after two_users)
      = (Ok (Some updated), st') /\
      MemStorage.getFinancialGoals (FinancialGoal.userId stored_fund) st'
      = (Ok former, st') /\
      (forall g, In g former -> FinancialGoal.id g <> 1) /\
      MemStorage.getFinancialGoals 2 st' = (Ok owned, st') /\
      In updated owned) /\
  (exists updated db' former owned,
      PostgresStorage.updateFinancialGoal 1 (only_userId 2)
        (IStorage.run two_users registered)
      = (Ok (Some updated), db') /\
      PostgresStorage.getFinancialGoals (FinancialGoal.userId stored_fund) db'
      = (Ok former, db') /\
      (forall g, In g former -> FinancialGoal.id g <> 1) /\
      PostgresStorage.getFinancialGoals 2 db' = (Ok owned, db') /\
      In updated owned).
Proof.
  split.
  - apply (proj1 (reowned_goal_changes_listing two_users
                    (IStorage.run two_users registered) 1 2) stored_fund);
      [reflexivity | discriminate].
  - apply (proj2 (reowned_goal_changes_listing two_users
                    (IStorage.run two_users registered) 1 2) stored_fund
             (User.mk 2 "bob" "b@x.com" "h2" (Some 3000)));
      [reflexivity | discriminate | reflexivity].
Defined.
